(** * excons SDK configurators: version resolution and environment set-up

    A shallow embedding of [tools/arnold.py], [tools/houdini.py],
    [tools/maya.py] and [tools/python.py].  Python text is a [string] whose
    characters are the decoded code points U+0000..U+00FF; the file system,
    the process environment, [distutils.sysconfig] and the output of
    subprocesses are fields of a [World]; the command-line arguments, the
    print-once log and the module globals are threaded as state. *)

From Stdlib Require Import Ascii String ZArith QArith Lia.
From Stdlib Require Import DecimalString.
From stdpp Require Import base option strings list gmap.

Open Scope string_scope.
Open Scope Z_scope.

(** ** Python built-ins used by the four modules *)
Module Py.

(** What a call does: return, raise an exception, or [sys.exit]. *)
Inductive outcome (A : Type) : Type :=
| Return (a : A)
| Raise (exc : string)
| Exit (code : Z).
Arguments Return {A} a.
Arguments Raise {A} exc.
Arguments Exit {A} code.

Definition obind {A B} (m : outcome A) (k : A -> outcome B) : outcome B :=
  match m with
  | Return a => k a
  | Raise e => Raise e
  | Exit c => Exit c
  end.

(** Values returned by the [Version] functions; [VInf] and [VNaN] are the
    floats that are not numbers. *)
Inductive value : Type :=
| VNone
| VStr (s : string)
| VInt (n : Z)
| VFloat (q : Q)
| VTuple (l : list Z)
| VInf (negative : bool)
| VNaN.

Definition code (c : ascii) : N := N_of_ascii c.

(** [\s] on [str] patterns: the Unicode white space below U+0100. *)
Definition is_space (c : ascii) : bool :=
  let n := code c in
  ((9 <=? n) && (n <=? 13) || (28 <=? n) && (n <=? 32)
   || (n =? 133) || (n =? 160))%N.

(** [\d] and [[0-9]]: below U+0100 the only decimal digits are ASCII. *)
Definition is_digit (c : ascii) : bool :=
  let n := code c in ((48 <=? n) && (n <=? 57))%N.

Definition digit_val (c : ascii) : Z := Z.of_N (code c) - 48.

(** Longest prefix of characters satisfying [p], and the rest. *)
Fixpoint span (p : ascii -> bool) (s : string) : string * string :=
  match s with
  | String c r =>
      if p c then let '(a, b) := span p r in (String c a, b) else ("", s)
  | EmptyString => ("", "")
  end.

Fixpoint strip_prefix (p s : string) : option string :=
  match p, s with
  | EmptyString, _ => Some s
  | String a p', String b s' =>
      if Ascii.eqb a b then strip_prefix p' s' else None
  | String _ _, EmptyString => None
  end.

Definition is_empty (s : string) : bool :=
  match s with EmptyString => true | _ => false end.

(** [x in s] for strings. *)
Fixpoint contains (x s : string) : bool :=
  match strip_prefix x s with
  | Some _ => true
  | None => match s with
            | String _ r => contains x r
            | EmptyString => false
            end
  end.

Fixpoint all_chars (p : ascii -> bool) (s : string) : bool :=
  match s with
  | String c r => p c && all_chars p r
  | EmptyString => true
  end.

(** Value of a run of decimal digits, most significant first. *)
Fixpoint digits_acc (acc : Z) (s : string) : Z :=
  match s with
  | String c r => digits_acc (acc * 10 + digit_val c) r
  | EmptyString => acc
  end.
Definition digits_value (s : string) : Z := digits_acc 0 s.

Definition is_digits (s : string) : bool :=
  negb (is_empty s) && all_chars is_digit s.

(** Digits of an integer literal: groups of digits separated by single
    underscores.  [prev] tells whether the previous character was a digit. *)
Fixpoint int_body (prev : bool) (acc : Z) (s : string) : option Z :=
  match s with
  | EmptyString => if prev then Some acc else None
  | String c r =>
      if is_digit c then int_body true (acc * 10 + digit_val c) r
      else if (Ascii.eqb c "_" && prev)%bool then int_body false acc r
      else None
  end.

Fixpoint rstrip (s : string) : string :=
  match s with
  | EmptyString => ""
  | String c r =>
      let r' := rstrip r in
      if is_empty r' && is_space c then "" else String c r'
  end.
Definition strip (s : string) : string := rstrip (snd (span is_space s)).

(** [int(s)] in base ten; [None] is [ValueError]. *)
Definition int (s : string) : option Z :=
  match strip s with
  | String "-" r => option_map Z.opp (int_body false 0 r)
  | String "+" r => int_body false 0 r
  | r => int_body false 0 r
  end.

(** [str(n)] and the [%s] / [%d] rendering of an integer. *)
Definition str (n : Z) : string := NilZero.string_of_int (Z.to_int n).

(** [sep.join(l)]. *)
Fixpoint join (sep : string) (l : list string) : string :=
  match l with
  | [] => ""
  | [x] => x
  | x :: r => x ++ sep ++ join sep r
  end.

(** [s.split(sep)] for a one-character separator. *)
Fixpoint split (sep : ascii) (s : string) : list string :=
  match s with
  | EmptyString => [""]
  | String c r =>
      if Ascii.eqb c sep then "" :: split sep r
      else match split sep r with
           | x :: l => String c x :: l
           | [] => [String c ""]
           end
  end.

(** [l[:-1]]. *)
Definition but_last {A} (l : list A) : list A := removelast l.

(** The double-quote character, as a string. *)
Definition dq : string := String "034" "".

Definition is_ascii (s : string) : bool :=
  all_chars (fun c => (code c <? 128)%N) s.

(** What [float(s)] returns.  [Finite q] is the double that the exact
    rational [q] rounds to (an infinity when [q] is beyond the range of
    doubles), so equal rationals are equal floats. *)
Inductive pyfloat : Type :=
| Finite (q : Q)
| Inf (negative : bool)
| NaN.

(** The digit part of a float literal, as far as it goes: digits with
    single underscores between them.  The result is the digits without the
    underscores, and what follows; [prev] tells whether the previous
    character was a digit. *)
Fixpoint digitpart (prev : bool) (s : string) : string * string :=
  match s with
  | String c r =>
      if is_digit c then let '(d, t) := digitpart true r in (String c d, t)
      else if Ascii.eqb c "_" && prev
              && match r with
                 | String c' _ => is_digit c'
                 | EmptyString => false
                 end
           then digitpart false r
      else ("", s)
  | EmptyString => ("", "")
  end.

(** The exponent that ends a float literal: nothing, or [e] or [E], an
    optional sign and a digit part. *)
Definition exponent (s : string) : option Z :=
  match s with
  | EmptyString => Some 0
  | String c r =>
      if Ascii.eqb c "e" || Ascii.eqb c "E" then
        let '(neg, r) := match r with
                         | String "-" r' => (true, r')
                         | String "+" r' => (false, r')
                         | _ => (false, r)
                         end in
        match digitpart false r with
        | (String d ds, EmptyString) =>
            Some (if neg : bool then - digits_value (String d ds)
                  else digits_value (String d ds))
        | _ => None
        end
      else None
  end.

(** [m * 10^e], exactly. *)
Definition scale10 (m e : Z) : Q :=
  if 0 <=? e then Qred ((m * 10 ^ e) # 1)
  else Qred (m # Z.to_pos (10 ^ (- e))).

(** Unsigned decimal literal: [digits], [digits.], [digits.digits] or
    [.digits], then an optional exponent; the exact rational it denotes. *)
Definition float_body (s : string) : option Q :=
  let '(ip, r) := digitpart false s in
  match r with
  | String "." r2 =>
      let '(fp, r3) := digitpart false r2 in
      if is_empty ip && is_empty fp then None
      else option_map
             (fun e => scale10 (digits_value (ip ++ fp))
                         (e - Z.of_nat (String.length fp)))
             (exponent r3)
  | _ =>
      if is_empty ip then None
      else option_map (scale10 (digits_value ip)) (exponent r)
  end.

Definition lower_char (c : ascii) : ascii :=
  let n := code c in
  if ((65 <=? n) && (n <=? 90))%N then ascii_of_N (n + 32) else c.

Fixpoint lowercase (s : string) : string :=
  match s with
  | EmptyString => ""
  | String c r => String (lower_char c) (lowercase r)
  end.

(** The words [inf], [infinity] and [nan], in any case. *)
Definition special_float (s : string) : option pyfloat :=
  let l := lowercase s in
  if String.eqb l "inf" || String.eqb l "infinity" then Some (Inf false)
  else if String.eqb l "nan" then Some NaN
  else None.

Definition unsigned_float (s : string) : option pyfloat :=
  match float_body s with
  | Some q => Some (Finite q)
  | None => special_float s
  end.

Definition negate (f : pyfloat) : pyfloat :=
  match f with
  | Finite q => Finite (Qred (- q))
  | Inf negative => Inf (negb negative)
  | NaN => NaN
  end.

(** [float(s)] as Python 3.6 and later read a string: white space around
    it, a sign, then a decimal literal with an optional exponent, or one of
    the special words; [None] is [ValueError]. *)
Definition float_of (s : string) : option pyfloat :=
  match strip s with
  | String "-" r => option_map negate (unsigned_float r)
  | String "+" r => unsigned_float r
  | r => unsigned_float r
  end.

(** The finite value of [float(s)]: [None] when the call raises, and when
    its result is an infinity or not a number. *)
Definition float (s : string) : option Q :=
  match float_of s with
  | Some (Finite q) => Some q
  | _ => None
  end.

(** [x < 3] for the double nearest to the rational [q]: the doubles next to
    3.0 are 2^-51 apart and a tie rounds to 3.0 itself, so the rounded value
    is below 3 exactly when [q < 3 - 2^-52]. *)
Definition float_lt_3 (q : Q) : bool :=
  negb (Qle_bool (3 - (1 # (2 ^ 52))) q).

(** [x < 3] for a float: an infinity is below 3 when it is the negative
    one, and no comparison holds of what is not a number. *)
Definition lt_3 (f : pyfloat) : bool :=
  match f with
  | Finite q => float_lt_3 q
  | Inf negative => negative
  | NaN => false
  end.

(** [f.readlines()] with [newline="\n"]: lines keep their terminator. *)
Fixpoint readlines (s : string) : list string :=
  match s with
  | EmptyString => []
  | String c r =>
      if Ascii.eqb c "010" then String c "" :: readlines r
      else match readlines r with
           | x :: l => String c x :: l
           | [] => [String c ""]
           end
  end.

End Py.

Import Py.

(** ** The world outside the process, and the mutable state inside it *)

(** [sys.platform]; [str(SCons.Script.Platform())] is ["win32"] and
    ["darwin"] on the first two and something else on the others. *)
Inductive platform_t : Type := Win32 | Darwin | Linux | OtherPosix.

Definition is_win32 (p : platform_t) : bool :=
  match p with Win32 => true | _ => false end.
Definition is_darwin (p : platform_t) : bool :=
  match p with Darwin => true | _ => false end.
(** [sys.platform.startswith("linux")]. *)
Definition is_linux (p : platform_t) : bool :=
  match p with Linux => true | _ => false end.

(** A resolved Python runtime: [(ver, incdir, libdir or fwdir, lib or fw)]. *)
Definition pyspec : Type := string * string * option string * string.

(** Everything the modules read but do not own. *)
Record World : Type := mkWorld {
  platform : platform_t;
  environ : gmap string string;          (* os.environ *)
  isdir : string -> bool;                (* os.path.isdir *)
  isfile : string -> bool;               (* os.path.isfile *)
  isabs : string -> bool;                (* os.path.isabs *)
  file_text : string -> string;          (* decoded content of a file *)
  shell_out : string -> string;          (* stdout of a shell command *)
  glob : string -> list string;          (* excons.glob *)
  which : string -> option string;       (* excons.Which *)
  arch_dir : string;                     (* excons.arch_dir *)
  Build64 : bool;                        (* excons.Build64() *)
  mscver : Q;                            (* float(excons.mscver) *)
  config_var : string -> option string;  (* sysconfig.get_config_var *)
  python_version : string;               (* sysconfig.get_python_version() *)
  python_inc : string;                   (* sysconfig.get_python_inc() *)
  sys_PREFIX : string;                   (* distutils.sysconfig.PREFIX *)
  exec_prefix : string;                  (* sys.exec_prefix *)
  base_prefix : string;                  (* sys.real_prefix / sys.base_prefix *)
  py3 : bool;                            (* sys.version_info.major > 2 *)
  gcc_full_ver : string -> string;       (* excons.devtoolset.GetGCCFullVer *)
  nt_dirname : string -> string;         (* ntpath.dirname *)
  nt_basename : string -> string;        (* ntpath.basename *)
  (* group 2 of re.search(r"Current\s+->\s+(%s/Versions/)?([0-9\.]+)" % path,
     text): the pattern is built from the path at run time *)
  search_current : string -> string -> option string
}.

(** One look at the file system or one subprocess. *)
Inductive probe : Type :=
| PIsDir (path : string)
| PIsFile (path : string)
| PRead (path : string)
| PGlob (pattern : string)
| PShell (cmd : string).

Record State : Type := mkState {
  ARGUMENTS : gmap string string;        (* SCons.Script.ARGUMENTS *)
  args_cache : gmap string string;       (* arguments remembered by excons *)
  warned : list string;                  (* messages WarnOnce has emitted *)
  printed : list string;                 (* messages PrintOnce has emitted *)
  stdout : list string;                  (* print(...) lines, oldest first *)
  help_options : list (string * string); (* excons.AddHelpOptions *)
  probes : list probe;                   (* probes made, oldest first *)
  _specCache : gmap string (option pyspec); (* python._specCache *)
  _cython : string                       (* python._cython *)
}.

(** Stateful, fallible computations: the state survives an exception. *)
Definition M (A : Type) : Type := State -> outcome A * State.

Definition ret {A} (a : A) : M A := fun s => (Return a, s).
Definition raise {A} (e : string) : M A := fun s => (Raise e, s).
Definition sys_exit {A} (c : Z) : M A := fun s => (Exit c, s).
Definition bind {A B} (m : M A) (k : A -> M B) : M B :=
  fun s => match m s with
           | (Return a, s') => k a s'
           | (Raise e, s') => (Raise e, s')
           | (Exit c, s') => (Exit c, s')
           end.
Definition get : M State := fun s => (Return s, s).
Definition modify (f : State -> State) : M unit := fun s => (Return tt, f s).
Definition lift {A} (o : outcome A) : M A := fun s => (o, s).

Notation "'let*' x ':=' m 'in' k" := (bind m (fun x => k))
  (at level 10, x pattern, m at level 100, k at level 200).
Notation "m '>>' k" := (bind m (fun _ => k))
  (at level 60, right associativity).

Definition when (b : bool) (m : M unit) : M unit := if b then m else ret tt.

Definition log_probe (p : probe) : M unit :=
  modify (fun s => mkState (ARGUMENTS s) (args_cache s) (warned s) (printed s)
                     (stdout s) (help_options s) (probes s ++ [p])
                     (_specCache s) (_cython s)).

Definition os_path_isdir (w : World) (p : string) : M bool :=
  log_probe (PIsDir p) >> ret (isdir w p).
Definition os_path_isfile (w : World) (p : string) : M bool :=
  log_probe (PIsFile p) >> ret (isfile w p).
Definition read_lines (w : World) (p : string) : M (list string) :=
  log_probe (PRead p) >> ret (readlines (file_text w p)).
Definition run_shell (w : World) (cmd : string) : M string :=
  log_probe (PShell cmd) >> ret (shell_out w cmd).

Definition print (line : string) : M unit :=
  modify (fun s => mkState (ARGUMENTS s) (args_cache s) (warned s) (printed s)
                     (stdout s ++ [line]) (help_options s) (probes s)
                     (_specCache s) (_cython s)).

Definition mem (x : string) (l : list string) : bool :=
  bool_decide (x ∈ l).

(** ** The parts of the [excons] package the tools call *)
Module Excons.

(** Modelled from the spec: [excons.GetArgument] of the argument-parsing
    and caching facility, whose source is not part of [tools/]: the value
    given on the command line, else the remembered one, else the default. *)
Definition GetArgument (name : string) : M (option string) :=
  let* s := get in
  ret (match ARGUMENTS s !! name with
       | Some v => Some v
       | None => args_cache s !! name
       end).

(** Modelled from the spec: [excons.SetArgument] sets the named build
    argument as if it had been given on the command line. *)
Definition SetArgument (name val : string) : M unit :=
  modify (fun s => mkState (<[name := val]> (ARGUMENTS s)) (args_cache s)
                     (warned s) (printed s) (stdout s) (help_options s)
                     (probes s) (_specCache s) (_cython s)).

(** Modelled from the spec: the shared print-once facility behind
    [excons.WarnOnce]: a message is emitted the first time only. *)
Definition WarnOnce (msg : string) : M unit :=
  modify (fun s => if mem msg (warned s) then s
                   else mkState (ARGUMENTS s) (args_cache s)
                          (warned s ++ [msg]) (printed s) (stdout s)
                          (help_options s) (probes s) (_specCache s)
                          (_cython s)).

(** Modelled from the spec: [excons.PrintOnce], the informational twin of
    [WarnOnce]. *)
Definition PrintOnce (msg : string) : M unit :=
  modify (fun s => if mem msg (printed s) then s
                   else mkState (ARGUMENTS s) (args_cache s) (warned s)
                          (printed s ++ [msg]) (stdout s) (help_options s)
                          (probes s) (_specCache s) (_cython s)).

(** Modelled from the spec: [excons.WarnConfig], the generic warning that
    the build is not configured; it goes through the print-once log. *)
Definition WarnConfig : M unit := WarnOnce "<configuration warning>".

(** Modelled from the spec: [excons.AddHelpOptions] registers the help text
    of a tool under its name. *)
Definition AddHelpOptions (tool text : string) : M unit :=
  modify (fun s => mkState (ARGUMENTS s) (args_cache s) (warned s)
                     (printed s) (stdout s)
                     (help_options s ++ [(tool, text)]) (probes s)
                     (_specCache s) (_cython s)).

(** Modelled from the spec: [excons.InitGlobals] prepares the package
    globals and touches nothing that this development tracks. *)
Definition InitGlobals : M unit := ret tt.

(** Modelled from the spec: [excons.joinpath] joins path components with
    forward slashes. *)
Definition joinpath (l : list string) : string := join "/" l.

(** Modelled from the spec: [excons.GetDirs name libdirname], the
    directory-pair lookup: [with-<name>-inc] and [with-<name>-lib] when
    given, else [<root>/include] and [<root>/<libdirname>] under the
    [with-<name>] root, else nothing. *)
Definition GetDirs (name libdirname : string)
  : M (option string * option string) :=
  let* root := GetArgument ("with-" ++ name) in
  let* inc := GetArgument ("with-" ++ name ++ "-inc") in
  let* lib := GetArgument ("with-" ++ name ++ "-lib") in
  let pick (explicit : option string) (sub : string) :=
    match explicit with
    | Some d => Some d
    | None => option_map (fun r => r ++ "/" ++ sub) root
    end in
  ret (pick inc "include", pick lib libdirname).

End Excons.

(** ** The SCons construction environment *)

(** [s.split()]: the white-space separated words of [s]. *)
Fixpoint words_aux (cur : string) (s : string) : list string :=
  match s with
  | EmptyString => if is_empty cur then [] else [cur]
  | String c r =>
      if is_space c
      then (if is_empty cur then words_aux "" r else cur :: words_aux "" r)
      else words_aux (cur ++ String c "") r
  end.
Definition words (s : string) : list string := words_aux "" s.

(** The construction variables the tools append to.  SCons keeps the flag
    variables as word lists ([CLVar]): appending a string appends its words. *)
Record Env : Type := mkEnv {
  CPPPATH : list string;
  LIBPATH : list string;
  LIBS : list string;
  CPPDEFINES : list string;
  CCFLAGS : list string;
  CXXFLAGS : list string;
  CPPFLAGS : list string;
  LINKFLAGS : list string;
  MSVC_VERSION : string
}.

Definition Append_CPPPATH (l : list string) (e : Env) : Env :=
  mkEnv (CPPPATH e ++ l) (LIBPATH e) (LIBS e) (CPPDEFINES e) (CCFLAGS e)
    (CXXFLAGS e) (CPPFLAGS e) (LINKFLAGS e) (MSVC_VERSION e).
Definition Append_LIBPATH (l : list string) (e : Env) : Env :=
  mkEnv (CPPPATH e) (LIBPATH e ++ l) (LIBS e) (CPPDEFINES e) (CCFLAGS e)
    (CXXFLAGS e) (CPPFLAGS e) (LINKFLAGS e) (MSVC_VERSION e).
Definition Append_LIBS (l : list string) (e : Env) : Env :=
  mkEnv (CPPPATH e) (LIBPATH e) (LIBS e ++ l) (CPPDEFINES e) (CCFLAGS e)
    (CXXFLAGS e) (CPPFLAGS e) (LINKFLAGS e) (MSVC_VERSION e).
Definition Append_CPPDEFINES (l : list string) (e : Env) : Env :=
  mkEnv (CPPPATH e) (LIBPATH e) (LIBS e) (CPPDEFINES e ++ l) (CCFLAGS e)
    (CXXFLAGS e) (CPPFLAGS e) (LINKFLAGS e) (MSVC_VERSION e).
Definition Append_CCFLAGS (f : string) (e : Env) : Env :=
  mkEnv (CPPPATH e) (LIBPATH e) (LIBS e) (CPPDEFINES e) (CCFLAGS e ++ words f)
    (CXXFLAGS e) (CPPFLAGS e) (LINKFLAGS e) (MSVC_VERSION e).
Definition Append_CXXFLAGS (f : string) (e : Env) : Env :=
  mkEnv (CPPPATH e) (LIBPATH e) (LIBS e) (CPPDEFINES e) (CCFLAGS e)
    (CXXFLAGS e ++ words f) (CPPFLAGS e) (LINKFLAGS e) (MSVC_VERSION e).
Definition Append_CPPFLAGS (f : string) (e : Env) : Env :=
  mkEnv (CPPPATH e) (LIBPATH e) (LIBS e) (CPPDEFINES e) (CCFLAGS e)
    (CXXFLAGS e) (CPPFLAGS e ++ words f) (LINKFLAGS e) (MSVC_VERSION e).
Definition Append_LINKFLAGS (f : string) (e : Env) : Env :=
  mkEnv (CPPPATH e) (LIBPATH e) (LIBS e) (CPPDEFINES e) (CCFLAGS e)
    (CXXFLAGS e) (CPPFLAGS e) (LINKFLAGS e ++ words f) (MSVC_VERSION e).

(** Truth value of an optional string: [None] and [""] are false. *)
Definition truthy (o : option string) : bool :=
  match o with Some s => negb (is_empty s) | None => false end.

(** Sequencing of the steps of a regular-expression match. *)
Definition andthen {A B} (o : option A) (f : A -> option B) : option B :=
  match o with Some a => f a | None => None end.

(** Pieces shared by the header scanners. *)
Definition skip_spaces (s : string) : string := snd (span is_space s).

(** [\s+]: at least one white-space character, greedily. *)
Definition spaces1 (s : string) : option string :=
  let '(ws, r) := span is_space s in
  if is_empty ws then None else Some r.

(** The first maximal run of digits: [re.search(r"\d+", s).group(0)]. *)
Fixpoint search_digits (s : string) : option string :=
  match s with
  | EmptyString => None
  | String c r =>
      if is_digit c then Some (fst (span is_digit s)) else search_digits r
  end.

(** [d.get(key)] on a dictionary literal. *)
Fixpoint dict_get {V} (d : list (string * V)) (key : string) : option V :=
  match d with
  | [] => None
  | (k, v) :: r => if String.eqb k key then Some v else dict_get r key
  end.

(** [int(s)] and [float(s)] as calls that may raise. *)
Definition to_int (s : string) : outcome Z :=
  match int s with Some n => Return n | None => Raise "ValueError" end.
Definition to_float (s : string) : outcome value :=
  match float_of s with
  | Some (Finite q) => Return (VFloat q)
  | Some (Inf negative) => Return (VInf negative)
  | Some NaN => Return VNaN
  | None => Raise "ValueError"
  end.

(** [out.decode("ascii").strip()] on Python 3, [out.strip()] on the bytes
    of Python 2, whose white space is the six ASCII characters. *)
Definition is_space_bytes (c : ascii) : bool :=
  let n := code c in ((9 <=? n) && (n <=? 13) || (n =? 32))%N.
Fixpoint rstrip_bytes (s : string) : string :=
  match s with
  | EmptyString => ""
  | String c r =>
      let r' := rstrip_bytes r in
      if is_empty r' && is_space_bytes c then "" else String c r'
  end.
Definition decode_strip (w : World) (out : string) : outcome string :=
  if py3 w then
    if is_ascii out then Return (strip out) else Raise "UnicodeDecodeError"
  else Return (rstrip_bytes (snd (span is_space_bytes out))).

(** The newline character, as a string. *)
Definition nl : string := String "010" "".

(** [s.replace("\\", "/")]. *)
Fixpoint slashes (s : string) : string :=
  match s with
  | EmptyString => ""
  | String c r => String (if Ascii.eqb c "092" then "/"%char else c) (slashes r)
  end.

(** [s[-1] == "/"] on a non-empty [s]. *)
Fixpoint ends_with_slash (s : string) : bool :=
  match s with
  | EmptyString => false
  | String c EmptyString => Ascii.eqb c "/"
  | String _ r => ends_with_slash r
  end.

(** [s[:-1]]. *)
Fixpoint drop_last (s : string) : string :=
  match s with
  | EmptyString => ""
  | String _ EmptyString => ""
  | String c r => String c (drop_last r)
  end.

(** What [replace] and the trailing-slash test leave of a directory name. *)
Definition clean_dir (s : string) : string :=
  let d := slashes s in
  if ends_with_slash d then drop_last d else d.

(** [s[n:]] on strings. *)
Fixpoint str_drop (n : nat) (s : string) : string :=
  match n, s with
  | S k, String _ r => str_drop k r
  | _, _ => s
  end.

Fixpoint rev_acc (s acc : string) : string :=
  match s with
  | EmptyString => acc
  | String c r => rev_acc r (String c acc)
  end.
Definition str_rev (s : string) : string := rev_acc s "".

Definition starts_with (p s : string) : bool :=
  match strip_prefix p s with Some _ => true | None => false end.

(** [s[:n]] on strings. *)
Fixpoint str_take (n : nat) (s : string) : string :=
  match n, s with
  | S k, String c r => String c (str_take k r)
  | _, _ => ""
  end.

(** [s[n]]: [None] is [IndexError]. *)
Fixpoint str_index (n : nat) (s : string) : option ascii :=
  match s, n with
  | String c _, O => Some c
  | String _ r, S k => str_index k r
  | EmptyString, _ => None
  end.

(** ** tools/arnold.py *)
Module Arnold.

Definition GetOptionsString : string :=
"ARNOLD OPTIONS
  with-arnold=<path>     : Arnold root directory.
  with-arnold-inc=<path> : Arnold headers directory.   [<root>/include]
  with-arnold-lib=<path> : Arnold libraries directory. [<root>/bin or <prefix>/lib]".

(** The group [([^\s]+)]. *)
Definition nonspace1 (s : string) : option string :=
  let g := fst (span (fun c => negb (is_space c)) s) in
  if is_empty g then None else Some g.

(** The alternation [(ARCH_NUM|MAJOR_NUM|MINOR_NUM|FIX)] followed by
    [\s+([^\s]+)]: the first alternative whose continuation matches. *)
Fixpoint first_alt (alts : list string) (s : string)
  : option (string * string) :=
  match alts with
  | [] => None
  | a :: rest =>
      match andthen (andthen (strip_prefix a s) spaces1) nonspace1 with
      | Some g => Some (a, g)
      | None => first_alt rest s
      end
  end.

(** [defexp.match(line)] for
    [^\s*#define\s+AI_VERSION_(ARCH_NUM|MAJOR_NUM|MINOR_NUM|FIX)\s+([^\s]+)]:
    groups 1 and 2. *)
Definition defexp (line : string) : option (string * string) :=
  andthen (strip_prefix "#define" (skip_spaces line)) (fun r1 =>
  andthen (spaces1 r1) (fun r2 =>
  andthen (strip_prefix "AI_VERSION_" r2)
    (first_alt ["ARCH_NUM"; "MAJOR_NUM"; "MINOR_NUM"; "FIX"]))).

(** One iteration of the loop over the header lines. *)
Definition scan_line (acc : Z * Z * Z * Z) (line : string)
  : outcome (Z * Z * Z * Z) :=
  let '(varch, vmaj, vmin, vpatch) := acc in
  match defexp line with
  | None => Return acc
  | Some (which, g) =>
      if String.eqb which "ARCH_NUM" then
        obind (to_int g) (fun n => Return (n, vmaj, vmin, vpatch))
      else if String.eqb which "MAJOR_NUM" then
        obind (to_int g) (fun n => Return (varch, n, vmin, vpatch))
      else if String.eqb which "MINOR_NUM" then
        obind (to_int g) (fun n => Return (varch, vmaj, n, vpatch))
      else if String.eqb which "FIX" then
        match search_digits g with
        | None => Return (varch, vmaj, vmin, 0)
        | Some ds => obind (to_int ds) (fun n => Return (varch, vmaj, vmin, n))
        end
      else Return acc
  end.

Fixpoint scan_lines (lines : list string) (acc : Z * Z * Z * Z)
  : outcome (Z * Z * Z * Z) :=
  match lines with
  | [] => Return acc
  | line :: rest => obind (scan_line acc line) (scan_lines rest)
  end.

Definition libdirname (w : World) : string :=
  if is_win32 (platform w) then "lib" else "bin".

(** How the four numbers are handed back. *)
Definition render (asString compat : bool) (rv : Z * Z * Z * Z) : value :=
  let '(varch, vmaj, vmin, vpatch) := rv in
  if compat then
    if asString then VStr (str varch ++ "." ++ str vmaj)
    else VTuple [varch; vmaj]
  else
    if asString
    then VStr (str varch ++ "." ++ str vmaj ++ "." ++ str vmin ++ "."
               ++ str vpatch)
    else VTuple [varch; vmaj; vmin; vpatch].

Definition Version (w : World) (asString compat : bool) : M value :=
  let* (arnoldinc, _) := Excons.GetDirs "arnold" (libdirname w) in
  match arnoldinc with
  | None =>
      ret (if compat then (if asString then VStr "0.0" else VTuple [0; 0])
           else (if asString then VStr "0.0.0.0" else VTuple [0; 0; 0; 0]))
  | Some inc =>
      let ai_version := Excons.joinpath [inc; "ai_version.h"] in
      let* found := os_path_isfile w ai_version in
      let* rv :=
        (if found
         then let* lines := read_lines w ai_version in
              lift (scan_lines lines (0, 0, 0, 0))
         else ret (0, 0, 0, 0)) in
      ret (render asString compat rv)
  end.

(** [excons.GetArgument("use-c++11", 0, int)]. *)
Definition use_cxx11 : M Z :=
  let* a := Excons.GetArgument "use-c++11" in
  match a with
  | None => ret 0
  | Some v => lift (to_int v)
  end.

Definition Require (w : World) (env : Env) : M Env :=
  let* (arnoldinc, arnoldlib) := Excons.GetDirs "arnold" (libdirname w) in
  let env := if truthy arnoldinc
             then Append_CPPPATH (option_list arnoldinc) env else env in
  let env := if truthy arnoldlib
             then Append_LIBPATH (option_list arnoldlib) env else env in
  let* aver := Version w false false in
  let aver0 := match aver with VTuple (a :: _) => a | _ => 0 end in
  when ((5 <=? aver0) && is_win32 (platform w)
        && negb (Qle_bool 14 (mscver w)))
    (Excons.WarnOnce
       "Arnold 5 and above require Visual Studio 2015 or newer (mscver 14.0)")
  >>
  let* env :=
    (if (6 <=? aver0) && negb (is_win32 (platform w)) then
       let* u := use_cxx11 in
       when (u =? 0) (Excons.SetArgument "use-c++11" "1") >>
       ret (if contains "-std=c++11" (join " " (CXXFLAGS env)) then env
            else Append_CXXFLAGS " -std=c++11" env)
     else ret env) in
  let env := Append_LIBS ["ai"] env in
  Excons.AddHelpOptions "arnold" GetOptionsString >>
  ret env.

End Arnold.

(** ** tools/houdini.py *)
Module Houdini.

Definition _hou_mscver : list (string * string) :=
  [("15.0", "11.0"); ("15.5", "14.0"); ("16.0", "14.0"); ("16.5", "14.0");
   ("17.0", "14.1"); ("17.5", "14.1"); ("18.0", "14.1"); ("18.5", "14.1")].

Definition _hou_gccver : list (string * string) :=
  [("17.0", "6"); ("17.5", "6"); ("18.0", "6"); ("18.5", "6")].

Definition GetOptionsString : string :=
"HOUDINI OPTIONS
  with-houdini=<str> : Houdini version or install directory []".

(** [\d+] with what follows it. *)
Definition digits1 (s : string) : option (string * string) :=
  let '(d, r) := span is_digit s in
  if is_empty d then None else Some (d, r).

(** [\.] *)
Definition dot (s : string) : option string :=
  match s with
  | String "." r => Some r
  | _ => None
  end.

(** [verexp.match(s).group(0)] for [\d+\.\d+\.\d+(\.\d+)?]. *)
Definition verexp_match (s : string) : option string :=
  andthen (digits1 s) (fun '(d1, r1) =>
  andthen (dot r1) (fun r2 =>
  andthen (digits1 r2) (fun '(d2, r3) =>
  andthen (dot r3) (fun r4 =>
  andthen (digits1 r4) (fun '(d3, r5) =>
  let base := d1 ++ "." ++ d2 ++ "." ++ d3 in
  match andthen (dot r5) digits1 with
  | Some (d4, _) => Some (base ++ "." ++ d4)
  | None => Some base
  end))))).

(** [verexp.search(s).group(0)]: the match at the leftmost position. *)
Fixpoint verexp_search (s : string) : option string :=
  match verexp_match s with
  | Some g => Some g
  | None =>
      match s with
      | String _ r => verexp_search r
      | EmptyString => None
      end
  end.

(** The two ways every failure of [GetVersionAndDirectory] ends. *)
Definition fail (noexc : bool) (msg : string)
  : M (option string * option string) :=
  if noexc then Excons.WarnOnce msg >> ret (None, None)
  else raise msg.

(** Where a version given without a path is expected to be installed. *)
Definition install_root (w : World) (ver : string) : string :=
  match platform w with
  | Win32 =>
      if String.eqb (arch_dir w) "x64"
      then "C:/Program Files/Side Effects Software/Houdini " ++ ver
      else "C:/Program Files (x86)/Side Effects Software/Houdini " ++ ver
  | Darwin =>
      "/Library/Frameworks/Houdini.framework/Versions/" ++ ver ++ "/Resources"
  | _ => "/opt/hfs" ++ ver
  end.

(** The root for an installation directory given as the specification. *)
Definition given_root (w : World) (hfs : string) : string :=
  if is_darwin (platform w) then hfs ++ "/Resources" else hfs.

Definition GetVersionAndDirectory (w : World) (noexc : bool)
  : M (option string * option string) :=
  let* hspec := Excons.GetArgument "with-houdini" in
  match hspec with
  | None =>
      fail noexc "Please set Houdini version or directory using with-houdini="
  | Some hspec =>
      let check (ver hfs : string) :=
        let* d := os_path_isdir w hfs in
        if negb d then fail noexc ("Invalid Houdini directory: " ++ hfs)
        else ret (Some ver, Some hfs) in
      let* d := os_path_isdir w hspec in
      if negb d then
        let ver := hspec in
        match verexp_match ver with
        | None =>
            fail noexc ("Invalid Houdini version format: " ++ dq ++ ver ++ dq)
        | Some _ =>
            check ver (install_root w ver)
        end
      else
        let hfs := hspec in
        match verexp_search hfs with
        | None =>
            fail noexc
              ("Could not figure out houdini version from path " ++ dq ++ hfs
               ++ dq ++ ". Please provide it using houdini-ver=")
        | Some ver => check ver (given_root w hfs)
        end
  end.

(** [".".join(ver.split(".")[:2])]. *)
Definition major_minor (ver : string) : string :=
  join "." (take 2 (split "." ver)).

Definition Version (w : World) (asString full : bool) : M value :=
  let* (ver, _) := GetVersionAndDirectory w true in
  match ver with
  | None => ret (if negb asString then VNone else VStr "")
  | Some ver =>
      let ver := if negb full || negb asString then major_minor ver else ver in
      if asString then ret (VStr ver) else lift (to_float ver)
  end.

Definition SetupMscver (w : World) : M unit :=
  if is_win32 (platform w) then
    Excons.InitGlobals >>
    let* mscver := Excons.GetArgument "mscver" in
    match mscver with
    | Some _ => ret tt
    | None =>
        let* houver := Version w true false in
        match houver with
        | VStr houver =>
            match dict_get _hou_mscver houver with
            | Some mscver =>
                print ("Using msvc " ++ mscver) >>
                Excons.SetArgument "mscver" mscver
            | None => ret tt
            end
        | _ => ret tt
        end
    end
  else ret tt.

Definition SetupGccver (w : World) : M unit :=
  if is_linux (platform w) then
    Excons.InitGlobals >>
    let* s := get in
    match ARGUMENTS s !! "devtoolset" with
    | Some _ => ret tt
    | None =>
        let* mayaver := Version w true false in
        match mayaver with
        | VStr mayaver =>
            let gccver :=
              match dict_get _hou_gccver mayaver with
              | Some v => v
              | None => ""
              end in
            print ("Using gcc " ++ gcc_full_ver w gccver) >>
            Excons.SetArgument "devtoolset" gccver
        | _ => ret tt
        end
    end
  else ret tt.

Definition SetupCompiler (w : World) : M unit :=
  if is_win32 (platform w) then SetupMscver w else SetupGccver w.

Definition PluginExt (w : World) : string :=
  match platform w with
  | Darwin => ".dylib"
  | Win32 => ".dll"
  | _ => ".so"
  end.

Definition Plugin (env : Env) : Env := Append_CPPDEFINES ["MAKING_DSO"] env.

(** [re.sub(r"-link\s+", "", s)]: [skip] counts the characters of the match
    in progress that are still to be dropped. *)
Fixpoint sub_link (skip : nat) (s : string) : string :=
  match s with
  | EmptyString => ""
  | String c r =>
      match skip with
      | S k => sub_link k r
      | O =>
          match andthen (strip_prefix "-link" s)
                  (fun t => let ws := fst (span is_space t) in
                            if is_empty ws then None else Some ws) with
          | Some ws => sub_link (4 + String.length ws) r
          | None => String c (sub_link 0 r)
          end
      end
  end.

Definition osx_libs : list string :=
  ["HoudiniUI"; "HoudiniOPZ"; "HoudiniOP3"; "HoudiniOP2"; "HoudiniOP1";
   "HoudiniSIM"; "HoudiniGEO"; "HoudiniPRM"; "HoudiniUT"].

(** The environment handed to [hcustom] ([HFS], and [MSVCDir] on Windows) is
    a function of [hfs], [os.environ] and [MSVC_VERSION]; what it changes is
    the output of the subprocess, which [shell_out] gives per command. *)
Definition Require (w : World) (env : Env) : M Env :=
  Excons.AddHelpOptions "houdini" GetOptionsString >>
  let* (ver, hfs) := GetVersionAndDirectory w true in
  match ver, hfs with
  | Some ver, Some hfs =>
      if is_empty ver || is_empty hfs then ret env else
      let hcustom := hfs ++ "/bin/hcustom" in
      let* out := run_shell w (dq ++ hcustom ++ dq ++ " -c") in
      let* ccflags := lift (decode_strip w out) in
      let ccflags :=
        if negb (contains "DLLEXPORT" ccflags) then
          if is_win32 (platform w)
          then ccflags ++ " /DDLLEXPORT=" ++ dq ++ "__declspec(dllexport)" ++ dq
          else ccflags ++ " -DDLLEXPORT="
        else ccflags in
      let* ccflags :=
        (if negb (is_win32 (platform w)) then
           let* major := lift (to_int (hd "" (split "." ver))) in
           ret (if (14 <=? major) && negb (contains "-std=c++11" ccflags)
                then ccflags
                     ++ " -DBOOST_NO_DEFAULTED_FUNCTIONS -DBOOST_NO_DELETED_FUNCTIONS"
                else ccflags)
         else ret ccflags) in
      let* out := run_shell w (dq ++ hcustom ++ dq ++ " -m") in
      let* linkflags := lift (decode_strip w out) in
      let linkflags :=
        match platform w with
        | Win32 => sub_link 0 linkflags
        | Darwin =>
            let libdir := join "/" (but_last (split "/" hfs)) ++ "/Libraries" in
            linkflags ++ " -flat_namespace -L " ++ libdir ++ " -l"
            ++ join " -l" osx_libs
        | _ => linkflags ++ " -L " ++ hfs ++ "/dsolib"
        end in
      ret (Append_LINKFLAGS (" " ++ linkflags)
             (Append_CXXFLAGS (" " ++ ccflags) env))
  | _, _ => ret env
  end.

End Houdini.

(** ** tools/maya.py *)
Module Maya.

Definition _maya_mscver : list (string * string) :=
  [("2013", "9.0"); ("2013.5", "9.0"); ("2014", "10.0"); ("2015", "11.0");
   ("2016", "11.0"); ("2016.5", "11.0"); ("2017", "11.0"); ("2018", "14.0");
   ("2019", "14.0"); ("2020", "14.1"); ("2022", "14.2"); ("2023", "14.2");
   ("2024", "14.3")].

Definition _maya_gccver : list (string * string) :=
  [("2019", "6"); ("2020", "6"); ("2022", "9"); ("2023", "9"); ("2024", "11")].

Definition GetOptionsString : string :=
"MAYA OPTIONS
  with-maya=<str>        : Version or Maya install directory []
  with-mayadevkit=<path> : Maya platform devkit path         []".

(** [re.match(r"\d+(\.\d+)?", s)] succeeds exactly when [s] starts with a
    digit: the optional group never makes the match fail. *)
Definition starts_with_digit (s : string) : bool :=
  match s with
  | String c _ => is_digit c
  | EmptyString => false
  end.

Definition GetMayaRoot (w : World) (noWarn : bool) : M (option string) :=
  let* mayaspec := Excons.GetArgument "with-maya" in
  let* s := get in
  let resolve : M (option string) :=
    if negb (truthy mayaspec) then
      when (negb noWarn) Excons.WarnConfig >> ret None
    else
      let mayaspec := default "" mayaspec in
      let* d := os_path_isdir w mayaspec in
      if negb d then
        if negb (starts_with_digit mayaspec) then
          when (negb noWarn)
            (Excons.WarnOnce
               ("Invalid Maya specification " ++ dq ++ mayaspec ++ dq
                ++ ": Must be a directory or a version number")) >>
          ret None
        else
          let ver := mayaspec in
          match platform w with
          | Win32 =>
              ret (Some (if String.eqb (arch_dir w) "x64"
                         then "C:/Program Files/Autodesk/Maya" ++ ver
                         else "C:/Program Files (x86)/Autodesk/Maya" ++ ver))
          | Darwin => ret (Some ("/Applications/Autodesk/maya" ++ ver))
          | _ =>
              let mayadir := "/usr/autodesk/maya" ++ ver in
              if String.eqb (arch_dir w) "x64" then
                let* x := os_path_isdir w (mayadir ++ "-x64") in
                ret (Some (if x then mayadir ++ "-x64" else mayadir))
              else ret (Some mayadir)
          end
      else ret (Some (clean_dir mayaspec)) in
  match environ w !! "MAYA_LOCATION" with
  | Some loc =>
      match ARGUMENTS s !! "with-maya" with
      | None =>
          Excons.PrintOnce "Using MAYA_LOCATION environment." >>
          ret (Some loc)
      | Some _ =>
          Excons.PrintOnce "Ignoring MAYA_LOCATION environment." >> resolve
      end
  | None => resolve
  end.

Definition GetMayaInc (w : World) (mayadir : string) : M string :=
  let* has_inc :=
    os_path_isdir w (if is_darwin (platform w)
                     then mayadir ++ "/devkit/include/maya"
                     else mayadir ++ "/include/maya") in
  let require_mdk := negb has_inc in
  let* mdk := (if negb require_mdk then ret None
               else Excons.GetArgument "with-mayadevkit") in
  let* s := get in
  let compute : M string :=
    match mdk with
    | None =>
        ret (if is_darwin (platform w) then mayadir ++ "/devkit/include"
             else mayadir ++ "/include")
    | Some mdk =>
        let mdk := clean_dir mdk in
        ret (if isabs w mdk then mdk ++ "/include"
             else mayadir ++ "/" ++ mdk ++ "/include")
    end in
  match environ w !! "MAYA_INCLUDE" with
  | Some inc =>
      if negb require_mdk
         || negb (bool_decide (is_Some (ARGUMENTS s !! "with-mayadevkit")))
      then Excons.PrintOnce "Using MAYA_INCLUDE environment." >> ret inc
      else Excons.PrintOnce "Ignoring MAYA_INCLUDE environment." >> compute
  | None => compute
  end.

Definition GetMayaLib (w : World) (mayadir : string) : string :=
  if is_darwin (platform w) then mayadir ++ "/Maya.app/Contents/MacOS"
  else mayadir ++ "/lib".

(** [defexp.match(line).group(1)] for
    [^\s*#define\s+MAYA_API_VERSION\s+([0-9]+)]. *)
Definition defexp (line : string) : option string :=
  andthen (strip_prefix "#define" (skip_spaces line)) (fun r1 =>
  andthen (spaces1 r1) (fun r2 =>
  andthen (strip_prefix "MAYA_API_VERSION" r2) (fun r3 =>
  andthen (spaces1 r3) (fun r4 =>
  let g := fst (span is_digit r4) in
  if is_empty g then None else Some g)))).

(** [year in (2013, 2016)]. *)
Definition incompatible_year (year : Z) : bool :=
  (year =? 2013) || (year =? 2016).

(** The body of the loop for a line that matched, up to its [return]. *)
Definition report (asString nice : bool) (wantedver : option string)
    (g : string) : M value :=
  let* year := lift (to_int (str_take 4 g)) in
  let* sub :=
    match str_index 4 g with
    | Some c => lift (to_int (String c ""))
    | None => raise "IndexError"
    end in
  match wantedver with
  | Some wantedver =>
      let usever := str year ++ (if 5 <=? sub then ".5" else "") in
      when (negb (String.eqb usever wantedver))
        (Excons.WarnOnce
           ("Maya headers version (" ++ usever
            ++ ") doesn't seem to match requested one (" ++ wantedver ++ ")."
            ++ nl
            ++ "Make sure to set or reset devkit path using 'with-mayadevkit=' flag."))
  | None => ret tt
  end >>
  if nice then
    if (5 <=? sub) && incompatible_year year
    then ret (if negb asString then VFloat (Qred (inject_Z year + (1 # 2)))
              else VStr (str year ++ ".5"))
    else ret (if negb asString then VInt year else VStr (str year))
  else
    if negb asString then let* n := lift (to_int g) in ret (VInt n)
    else ret (VStr g).

(** The loop over the header lines: the first matching line decides. *)
Fixpoint scan_lines (asString nice : bool) (wantedver : option string)
    (lines : list string) : M (option value) :=
  match lines with
  | [] => ret None
  | line :: rest =>
      match defexp line with
      | Some g => let* v := report asString nice wantedver g in ret (Some v)
      | None => scan_lines asString nice wantedver rest
      end
  end.

Definition Version (w : World) (asString nice : bool) : M value :=
  let none := if negb asString then VNone else VStr "" in
  let* mayadir := GetMayaRoot w true in
  if negb (truthy mayadir) then ret none else
  let* mayainc := GetMayaInc w (default "" mayadir) in
  let* mayaspec := Excons.GetArgument "with-maya" in
  let* wantedver :=
    match mayaspec with
    | Some spec =>
        let* d := os_path_isdir w spec in
        ret (if negb d then Some spec else None)
    | None => ret None
    end in
  let mtypes := Excons.joinpath [mayainc; "maya"; "MTypes.h"] in
  let* found := os_path_isfile w mtypes in
  let* hit :=
    (if found then
       let* lines := read_lines w mtypes in
       scan_lines asString nice wantedver lines
     else ret None) in
  match hit with
  | Some v => ret v
  | None =>
      Excons.WarnOnce "Cannot find maya headers (missing with-mayadevkit= ?)."
      >> ret none
  end.

Definition SetupMscver (w : World) : M unit :=
  if is_win32 (platform w) then
    Excons.InitGlobals >>
    let* s := get in
    match ARGUMENTS s !! "mscver" with
    | Some _ => ret tt
    | None =>
        let* mayaver := Version w true true in
        match mayaver with
        | VStr mayaver =>
            match dict_get _maya_mscver mayaver with
            | Some mscver =>
                print ("Using msvc " ++ mscver) >>
                Excons.SetArgument "mscver" mscver
            | None => ret tt
            end
        | _ => ret tt
        end
    end
  else ret tt.

Definition SetupGccver (w : World) : M unit :=
  if is_linux (platform w) then
    Excons.InitGlobals >>
    let* s := get in
    match ARGUMENTS s !! "devtoolset" with
    | Some _ => ret tt
    | None =>
        let* mayaver := Version w true true in
        match mayaver with
        | VStr mayaver =>
            let gccver :=
              match dict_get _maya_gccver mayaver with
              | Some v => v
              | None => ""
              end in
            print ("Using gcc " ++ gcc_full_ver w gccver) >>
            Excons.SetArgument "devtoolset" gccver
        | _ => ret tt
        end
    end
  else ret tt.

Definition SetupCompiler (w : World) : M unit :=
  if is_win32 (platform w) then SetupMscver w else SetupGccver w.

Definition PluginExt (w : World) : string :=
  match platform w with
  | Darwin => ".bundle"
  | Win32 => ".mll"
  | _ => ".so"
  end.

Definition Plugin (w : World) (env : Env) : Env :=
  if is_win32 (platform w) || is_darwin (platform w) then env
  else Append_LINKFLAGS " -Wl,-Bsymbolic" env.

(** The number a numeric version stands for; [None] and [0] are false. *)
Definition number (v : value) : option Q :=
  match v with
  | VInt n => if n =? 0 then None else Some (inject_Z n)
  | VFloat q => if Qeq_bool q 0 then None else Some q
  | _ => None
  end.

Definition Require (w : World) (env : Env) : M Env :=
  Excons.AddHelpOptions "maya" GetOptionsString >>
  let* mayadir := GetMayaRoot w false in
  if negb (truthy mayadir) then ret env else
  let mayadir := default "" mayadir in
  let* inc := GetMayaInc w mayadir in
  let env := Append_CPPPATH [inc] env in
  let env := Append_CPPDEFINES ["REQUIRE_IOSTREAM"; "_BOOL"] env in
  let* env :=
    match platform w with
    | Darwin =>
        let env := Append_CPPDEFINES ["OSMac_"] env in
        let env := Append_CPPFLAGS " -Wno-unused-private-field" env in
        let env := Append_LIBPATH [mayadir ++ "/Maya.app/Contents/MacOS"] env in
        let* inc2 := GetMayaInc w mayadir in
        let mach := inc2 ++ "/maya/OpenMayaMac.h" in
        let* found := os_path_isfile w mach in
        let env := if found
                   then Append_CCFLAGS (" -include " ++ dq ++ mach ++ dq
                                        ++ " -fno-gnu-keywords") env
                   else env in
        let* maya_ver := Version w false true in
        match number maya_ver with
        | Some v =>
            when (negb (Qle_bool 2017 v))
              (Excons.WarnOnce
                 ("Maya below 2017 requires linking against libstdc++." ++ nl
                  ++ "This can be done using by using the command line flag 'use-stdc++=1'."))
            >>
            ret (if Qle_bool 2018 v then Append_CPPFLAGS " -std=c++11" env
                 else env)
        | None => ret env
        end
    | Win32 =>
        let env := Append_LIBPATH [mayadir ++ "/lib"] env in
        ret (Append_CPPDEFINES ["NT_PLUGIN"] env)
    | _ =>
        let env := Append_LIBPATH [mayadir ++ "/lib"] env in
        let* maya_ver := Version w false true in
        let env :=
          match number maya_ver with
          | Some v =>
              if Qeq_bool v 2018 || Qeq_bool v 2019 || Qeq_bool v 2020
              then Append_CPPFLAGS " -std=c++11" env
              else if Qle_bool 2022 v then Append_CPPFLAGS " -std=c++14" env
              else env
          | None => env
          end in
        let env := Append_CPPDEFINES ["LINUX"] env in
        ret (Append_CPPFLAGS
               " -fno-strict-aliasing -Wno-comment -Wno-sign-compare -funsigned-char -Wno-reorder -fno-gnu-keywords -pthread"
               env)
    end in
  ret (Append_LIBS ["OpenMaya"; "OpenMayaAnim"; "OpenMayaFX"; "OpenMayaRender";
                    "OpenMayaUI"; "Foundation"] env).

End Maya.

(** ** tools/python.py *)
Module Python.

Definition GetOptionsString : string :=
"PYTHON OPTIONS
  with-python=<str> : Python version or prefix [current interpreter]".

Definition is_slash (c : ascii) : bool := Ascii.eqb c "/".
Definition not_slash (c : ascii) : bool := negb (is_slash c).

(** [posixpath.dirname]. *)
Definition posix_dirname (p : string) : string :=
  let head := str_rev (snd (span not_slash (str_rev p))) in
  if is_empty head || all_chars is_slash head then head
  else str_rev (snd (span is_slash (str_rev head))).

(** [posixpath.basename]. *)
Definition posix_basename (p : string) : string :=
  str_rev (fst (span not_slash (str_rev p))).

Definition dirname (w : World) (p : string) : string :=
  if is_win32 (platform w) then nt_dirname w p else posix_dirname p.
Definition basename (w : World) (p : string) : string :=
  if is_win32 (platform w) then nt_basename w p else posix_basename p.

(** [os.path.splitext(p)[0]]: the extension starts at the last dot of the
    last component, unless only dots come before it there. *)
Definition splitext_root (w : World) (p : string) : string :=
  let is_sep c :=
    is_slash c || (is_win32 (platform w) && Ascii.eqb c "092") in
  let before :=
    snd (span (fun c => negb (Ascii.eqb c "." || is_sep c)) (str_rev p)) in
  match before with
  | String "." rest =>
      let name := fst (span (fun c => negb (is_sep c)) rest) in
      if all_chars (Ascii.eqb ".") name then p else str_rev rest
  | _ => p
  end.

(** [out.decode("ascii") if sys.version_info.major >= 3 else out]. *)
Definition decode (w : World) (out : string) : outcome string :=
  if py3 w && negb (is_ascii out) then Raise "UnicodeDecodeError"
  else Return out.

Definition _GetPythonVersionOSX (w : World) (pythonPath : string)
  : M (option string) :=
  let* out := run_shell w ("ls -l " ++ pythonPath ++ "/Versions | grep Current") in
  let* text := lift (decode w out) in
  ret (search_current w pythonPath text).

Definition lower (c : ascii) : ascii :=
  let n := code c in
  if ((65 <=? n) && (n <=? 90))%N then ascii_of_N (n + 32) else c.

Fixpoint str_lower (s : string) : string :=
  match s with
  | EmptyString => ""
  | String c r => String (lower c) (str_lower r)
  end.

Fixpoint strip_prefix_nocase (p s : string) : option string :=
  match p, s with
  | EmptyString, _ => Some s
  | String a p', String b s' =>
      if Ascii.eqb (lower a) (lower b) then strip_prefix_nocase p' s' else None
  | String _ _, EmptyString => None
  end.

(** [re.match(r"python(\d)(\d)\.dll", name, re.IGNORECASE)]: the two digits. *)
Definition python_dll (name : string) : option (ascii * ascii) :=
  match strip_prefix_nocase "python" name with
  | Some (String a (String b r)) =>
      if is_digit a && is_digit b && starts_with ".dll" (str_lower r)
      then Some (a, b) else None
  | _ => None
  end.

Definition _GetPythonVersionWIN (w : World) (pythonPath : string)
  : M (option string) :=
  let dn := dirname w pythonPath in
  let pattern := Excons.joinpath [dn; "python*.dll"] in
  log_probe (PGlob pattern) >>
  match glob w pattern with
  | [f] =>
      match python_dll (basename w f) with
      | Some (a, b) => ret (Some (String a ("." ++ String b "")))
      | None => ret None
      end
  | _ => ret None
  end.

Definition is_verchar (c : ascii) : bool := is_digit c || Ascii.eqb c ".".

(** [([0-9\.]+m?)\.so] against [t], the group taking [k] characters of the
    run at most: the longest choice that lets the rest match wins. *)
Fixpoint libpython_group (k : nat) (t : string) : option string :=
  match k with
  | O => None
  | S k' =>
      let g := str_take k t in
      let r := str_drop k t in
      let here :=
        match r with
        | String "m" r' =>
            if starts_with ".so" r' then Some (g ++ "m") else None
        | _ => if starts_with ".so" r then Some g else None
        end in
      match here with
      | Some x => Some x
      | None => libpython_group k' t
      end
  end.

(** [re.search(r"libpython([0-9\.]+m?)\.so", s).group(1)]. *)
Fixpoint libpython_search (s : string) : option string :=
  let next :=
    match s with
    | String _ r => libpython_search r
    | EmptyString => None
    end in
  match strip_prefix "libpython" s with
  | Some t =>
      match libpython_group (String.length (fst (span is_verchar t))) t with
      | Some g => Some g
      | None => next
      end
  | None => next
  end.

Definition _GetPythonVersionUNIX (w : World) (pythonPath : string)
  : M (option string) :=
  let* out := run_shell w ("ldd " ++ pythonPath ++ " | grep libpython") in
  let* text := lift (decode w out) in
  ret (libpython_search text).

(** [re.match(r"\d+\.\d+", s)]. *)
Definition is_version (s : string) : bool :=
  match snd (span is_digit s) with
  | String "." (String c _) =>
      is_digit c && negb (is_empty (fst (span is_digit s)))
  | _ => false
  end.

Definition strip_suffix (suf s : string) : option string :=
  option_map str_rev (strip_prefix (str_rev suf) (str_rev s)).

(** [/([^/]+)\.framework/Versions/([^/]+)/?$] at the start of [s]: the
    component after the slash is [<group 1>.framework], the one after
    [Versions] is group 2, and what follows is nothing, a slash, or a slash
    and the final newline. *)
Definition fw_here (s : string) : option (string * string) :=
  match s with
  | String "/" rest =>
      let '(seg, after) := span not_slash rest in
      andthen (strip_suffix ".framework" seg) (fun fwn =>
      if is_empty fwn then None else
      andthen (strip_prefix "/Versions/" after) (fun r =>
      let '(ver, tail) := span not_slash r in
      if is_empty ver then None
      else if is_empty tail || String.eqb tail "/" || String.eqb tail ("/" ++ nl)
      then Some (fwn, ver) else None))
  | _ => None
  end.

(** [re.search] of that pattern: groups 1 and 2 of the leftmost match. *)
Fixpoint fw_search (s : string) : option (string * string) :=
  match fw_here s with
  | Some g => Some g
  | None =>
      match s with
      | String _ r => fw_search r
      | EmptyString => None
      end
  end.

(** [re.sub(r"/Versions/.*$", "", s)]. *)
Fixpoint cut_versions (s : string) : string :=
  match s with
  | EmptyString => ""
  | String c r =>
      match strip_prefix "/Versions/" s with
      | Some rest =>
          let u := snd (span (fun c => negb (Ascii.eqb c "010")) rest) in
          if is_empty u then ""
          else if String.eqb u nl then nl
          else String c (cut_versions r)
      | None => String c (cut_versions r)
      end
  end.

(** The first candidate that is a directory; later ones are not probed. *)
Fixpoint find_incdir (w : World) (candidates : list string)
  : M (option string) :=
  match candidates with
  | [] => ret None
  | c :: rest =>
      let* d := os_path_isdir w c in
      if d then ret (Some c) else find_incdir w rest
  end.

Definition same (ver : string) (found : option string) : bool :=
  match found with
  | Some v => String.eqb ver v
  | None => false
  end.

(** The loop over the standard framework locations. *)
Fixpoint search_frameworks (w : World) (ver : string) (paths : list string)
    (specErr : string) : M (option pyspec * string) :=
  match paths with
  | [] => ret (None, specErr)
  | searchPath :: rest =>
      let pythonPath :=
        Excons.joinpath [searchPath; "Python.framework"; "Versions"; ver] in
      let* d := os_path_isdir w pythonPath in
      if d then
        let* incdir :=
          find_incdir w [pythonPath ++ "/" ++ "include/python" ++ ver;
                         pythonPath ++ "/" ++ "Headers"] in
        match incdir with
        | Some incdir =>
            let* cur :=
              _GetPythonVersionOSX w
                (Excons.joinpath [searchPath; "Python.framework"]) in
            if same ver cur
            then ret (Some (ver, incdir, Some searchPath, "Python"), "")
            else ret (Some (ver, incdir, None, pythonPath ++ "/Python"), "")
        | None =>
            search_frameworks w ver rest
              (specErr ++ nl ++ "  Cannot find python " ++ ver
               ++ " include directory in " ++ pythonPath)
        end
      else
        search_frameworks w ver rest
          (specErr ++ nl ++ "  Cannot find python " ++ ver ++ " in "
           ++ searchPath)
  end.

(** ["%s" % x] for a value that may be [None]. *)
Definition show (o : option string) : string := default "None" o.

(** [s.replace(".", "")]. *)
Fixpoint no_dots (s : string) : string :=
  match s with
  | EmptyString => ""
  | String c r => if Ascii.eqb c "." then no_dots r else String c (no_dots r)
  end.

(** The branch for a specification that starts like a version number. *)
Definition from_version (w : World) (ver : string) : M (option pyspec) :=
  let* (spec, specErr) :=
    match platform w with
    | Darwin =>
        search_frameworks w ver
          ["/System/Library/Frameworks"; "/Library/Frameworks"] ""
    | Win32 =>
        let pythonPath :=
          if bool_decide (is_Some (environ w !! "VIRTUAL_ENV"))
          then base_prefix w else exec_prefix w in
        let* d := os_path_isdir w pythonPath in
        if d then
          ret (Some (ver, Excons.joinpath [pythonPath; "include"],
                     Some (Excons.joinpath [pythonPath; "libs"]),
                     "python" ++ no_dots ver), "")
        else ret (None, "")
    | _ =>
        ret (Some (ver, python_inc w, config_var w "LIBDIR",
                   "python" ++ show (config_var w "LDVERSION")), "")
    end in
  match spec with
  | Some _ => ret spec
  | None =>
      let curver := python_version w in
      let specErr := specErr ++ nl in
      if negb (String.eqb curver ver) then
        Excons.PrintOnce
          ("Couldn't find stock python " ++ ver ++ "." ++ specErr
           ++ "Current version doesn't match (" ++ curver
           ++ "), aborting build.") >>
        sys_exit 1
      else
        Excons.PrintOnce
          ("Couldn't find stock python " ++ ver ++ "." ++ specErr
           ++ "Use currently running version instead.") >>
        ret None
  end.

(** The branch for any other specification, on macOS: the specification,
    without its trailing slash, and what was found. *)
Definition from_path_darwin (w : World) (specString : string)
  : M (string * option pyspec * string) :=
  match specString with
  | EmptyString => raise "IndexError"
  | _ =>
      let specString :=
        if ends_with_slash specString then drop_last specString
        else specString in
      match fw_search specString with
      | Some (fwn, ver) =>
          let fw := specString ++ "/" ++ fwn in
          let fwh := specString ++ "/Headers" in
          let* h := os_path_isdir w fwh in
          let fwh := if negb h
                     then specString ++ "/include/python" ++ ver else fwh in
          let* f := os_path_isfile w fw in
          let* ok := (if f then os_path_isdir w fwh else ret false) in
          if ok then
            let fwd := cut_versions specString in
            let* cur := _GetPythonVersionOSX w fwd in
            if same ver cur
            then ret (specString, Some (ver, fwh, Some (posix_dirname fwd), fwn),
                      "")
            else ret (specString, Some (ver, fwh, None, fw), "")
          else
            let* hf := os_path_isfile w fwh in
            let specErr :=
              if negb hf
              then nl ++ "  Cannot find python " ++ ver
                   ++ " include directory in " ++ specString
              else "" in
            let* ff := os_path_isfile w fw in
            let specErr :=
              if negb ff
              then specErr ++ nl ++ "  Cannot find python framework in "
                   ++ specString
              else specErr in
            ret (specString, None, specErr)
      | None =>
          let* ver := _GetPythonVersionOSX w specString in
          match ver with
          | Some ver =>
              let d := posix_dirname specString in
              let n := splitext_root w (posix_basename specString) in
              let* incdir :=
                find_incdir w
                  [specString ++ "/Versions/" ++ ver ++ "/" ++ "include/python"
                   ++ ver;
                   specString ++ "/Versions/" ++ ver ++ "/" ++ "Headers"] in
              match incdir with
              | Some incdir => ret (specString, Some (ver, incdir, Some d, n), "")
              | None =>
                  ret (specString, None,
                       nl ++ "  Cannot find python " ++ ver
                       ++ " include directory in " ++ specString)
              end
          | None => ret (specString, None, "")
          end
      end
  end.

(** The branch for any other specification. *)
Definition from_path (w : World) (specString : string)
  : M (string * option pyspec) :=
  let* (specString, spec, specErr) :=
    match platform w with
    | Darwin => from_path_darwin w specString
    | Win32 =>
        let* ver := _GetPythonVersionWIN w specString in
        match ver with
        | Some ver =>
            let d := dirname w specString in
            ret (specString,
                 Some (ver, Excons.joinpath [d; "include"],
                       Some (Excons.joinpath [d; "libs"]),
                       "python" ++ no_dots ver), "")
        | None => ret (specString, None, "")
        end
    | _ =>
        let* ver := _GetPythonVersionUNIX w specString in
        match ver with
        | Some ver =>
            let d := dirname w specString in
            if String.eqb (basename w d) "bin" then
              let d := dirname w d in
              ret (specString,
                   Some (ver, Excons.joinpath [d; "include"; "python" ++ ver],
                         Some (Excons.joinpath
                                 [d; if Build64 w then "lib64" else "lib"]),
                         "python" ++ ver), "")
            else ret (specString, None, "")
        | None => ret (specString, None, "")
        end
    end in
  match spec with
  | Some _ => ret (specString, spec)
  | None =>
      Excons.PrintOnce
        ("[1] Invalid python specification " ++ dq ++ specErr ++ nl ++ dq
         ++ "." ++ specString ++ "Aborting build.") >>
      sys_exit 1
  end.

(** Truth value of a configuration variable: [sysconfig] hands numeric
    values back as integers, so ["0"] stands for the integer zero. *)
Definition config_true (o : option string) : bool :=
  match o with
  | Some v => negb (is_empty v) && negb (String.eqb v "0")
  | None => false
  end.

(** [os.path.isdir(d)] where [d] may be [None]. *)
Definition isdir_opt (w : World) (d : option string) : M bool :=
  match d with
  | Some d => os_path_isdir w d
  | None => raise "TypeError"
  end.

(** [not a or not b], the second probe made only when the first holds. *)
Definition either_missing (a b : M bool) : M bool :=
  let* x := a in
  if negb x then ret true else let* y := b in ret (negb y).

(** The validity check of a candidate: what is left of it. *)
Definition validate (w : World) (spec : pyspec) : M (option pyspec) :=
  let '(ver, incdir, libdir, lib) := spec in
  match platform w with
  | Darwin =>
      match libdir with
      | None =>
          let* bad := either_missing (os_path_isdir w incdir)
                        (os_path_isfile w lib) in
          if bad then
            Excons.PrintOnce ("Cannot find incdir '" ++ incdir ++ "' or fw '"
                              ++ lib ++ "'") >> ret None
          else ret (Some spec)
      | Some fwdir =>
          let* bad := either_missing (os_path_isdir w incdir)
                        (os_path_isdir w fwdir) in
          if bad then
            Excons.PrintOnce ("Cannot find incdir '" ++ incdir
                              ++ "' or fwdir '" ++ fwdir ++ "'") >> ret None
          else ret (Some spec)
      end
  | _ =>
      let* bad := either_missing (os_path_isdir w incdir)
                    (isdir_opt w libdir) in
      if bad then
        Excons.PrintOnce ("Cannot find incdir '" ++ incdir ++ "' or libdir '"
                          ++ show libdir ++ "'") >> ret None
      else if is_win32 (platform w) then
        let libfile := Excons.joinpath [show libdir; lib ++ ".lib"] in
        let* f := os_path_isfile w libfile in
        if negb f then
          Excons.PrintOnce ("Cannot find '" ++ libfile ++ "'") >> ret None
        else ret (Some spec)
      else
        if negb (config_true (config_var w "Py_ENABLE_SHARED")) then
          Excons.PrintOnce ("Cannot find '" ++ show (config_var w "LDLIBRARY")
                            ++ "'") >> ret None
        else ret (Some spec)
  end.

(** [repr] of a descriptor, for the log line; strings are shown between
    single quotes. *)
Definition repr_spec (spec : pyspec) : string :=
  let '(ver, incdir, libdir, lib) := spec in
  "('" ++ ver ++ "', '" ++ incdir ++ "', "
  ++ match libdir with
     | Some d => "'" ++ d ++ "'"
     | None => "None"
     end
  ++ ", '" ++ lib ++ "')".

Definition cache_store (key : string) (spec : option pyspec) : M unit :=
  modify (fun s => mkState (ARGUMENTS s) (args_cache s) (warned s) (printed s)
                     (stdout s) (help_options s) (probes s)
                     (<[key := spec]> (_specCache s)) (_cython s)).

Definition _GetPythonSpec (w : World) (specString : string)
  : M (option pyspec) :=
  let* s := get in
  match _specCache s !! specString with
  | Some cached => ret cached
  | None =>
      let* (specString, spec) :=
        (if is_version specString
         then let* spec := from_version w specString in ret (specString, spec)
         else from_path w specString) in
      let* spec :=
        match spec with
        | Some candidate =>
            let* checked := validate w candidate in
            match checked with
            | Some _ => ret checked
            | None =>
                Excons.PrintOnce
                  ("[2] Invalid python specification " ++ dq ++ specString
                   ++ dq ++ ". Aborting build.") >>
                sys_exit 1
            end
        | None => ret None
        end in
      Excons.PrintOnce
        ("Resolved python for " ++ dq ++ specString ++ dq ++ ": "
         ++ match spec with
            | Some sp => repr_spec sp
            | None => "<current>"
            end) >>
      cache_store specString spec >>
      ret spec
  end.

Definition Version (w : World) : M string :=
  let* po := Excons.GetArgument "with-python" in
  let current := python_version w in
  match po with
  | Some po =>
      let* rv := _GetPythonSpec w po in
      match rv with
      | Some (ver, _, _, _) => ret ver
      | None => ret current
      end
  | None => ret current
  end.

(** The default settings: the interpreter that runs the build. *)
Definition require_current (w : World) (e : Env) (ignoreLinkFlags : bool)
  : M Env :=
  let pyver := python_version w in
  let e := Append_CCFLAGS (" -DPY_VER=" ++ pyver) e in
  let e := Append_CPPPATH [python_inc w] e in
  let* e :=
    (if config_true (config_var w "PYTHONFRAMEWORK") then
       if negb ignoreLinkFlags then
         let fwdir := show (config_var w "PYTHONFRAMEWORKPREFIX") in
         let fwname := show (config_var w "PYTHONFRAMEWORK") in
         let* cur :=
           _GetPythonVersionOSX w (fwdir ++ "/" ++ fwname ++ ".framework") in
         if negb (same pyver cur)
         then ret (Append_LINKFLAGS
                     (" " ++ fwdir ++ "/" ++ fwname ++ ".framework/Versions/"
                      ++ pyver ++ "/" ++ fwname) e)
         else ret (Append_LINKFLAGS
                     (" -F" ++ fwdir ++ " -framework " ++ fwname) e)
       else ret e
     else if is_win32 (platform w) then
       let e := Append_LIBPATH [sys_PREFIX w ++ String "092" "libs"] e in
       ret (Append_LIBS ["python" ++ no_dots pyver] e)
     else
       let pyver := show (config_var w "LDVERSION") in
       let e := Append_CCFLAGS (" " ++ show (config_var w "CFLAGS")) e in
       if negb ignoreLinkFlags then
         let e :=
           Append_LINKFLAGS (" " ++ show (config_var w "LINKFORSHARED")) e in
         ret (Append_LIBS ["python" ++ pyver] e)
       else ret e) in
  Excons.AddHelpOptions "python" GetOptionsString >>
  ret e.

Definition Require (w : World) (e : Env) (ignoreLinkFlags : bool) : M Env :=
  let* po := Excons.GetArgument "with-python" in
  match po with
  | Some po =>
      let* rv := _GetPythonSpec w po in
      match rv with
      | Some (ver, incdir, libdir, lib) =>
          let e := Append_CCFLAGS (" -DPY_VER=" ++ ver) e in
          let e := Append_CPPPATH [incdir] e in
          if negb ignoreLinkFlags then
            if is_darwin (platform w) then
              if truthy libdir
              then ret (Append_LINKFLAGS
                          (" -F" ++ show libdir ++ " -framework " ++ lib) e)
              else ret (Append_LINKFLAGS (" " ++ lib) e)
            else
              ret (Append_LIBS [lib] (Append_LIBPATH (option_list libdir) e))
          else ret e
      | None => require_current w e ignoreLinkFlags
      end
  | None => require_current w e ignoreLinkFlags
  end.

Definition SoftRequire (w : World) (e : Env) : M Env :=
  if is_darwin (platform w)
  then Require w (Append_LINKFLAGS " -undefined dynamic_lookup" e) true
  else Require w e false.

Definition ModulePrefix : string := "lib/python/".

(** Values of the entries of [cte] and [directives], and their [%s] form. *)
Inductive dval : Type :=
| DInt (n : Z)
| DStr (s : string)
| DBool (b : bool).

Definition show_dval (v : dval) : string :=
  match v with
  | DInt n => str n
  | DStr s => s
  | DBool true => "True"
  | DBool false => "False"
  end.

(** A dictionary with string keys, in insertion order. *)
Definition pydict : Type := list (string * dval).

(** [d[k] = v]: an existing key keeps its place, a new one goes last. *)
Fixpoint dict_set (d : pydict) (k : string) (v : dval) : pydict :=
  match d with
  | [] => [(k, v)]
  | (k', v') :: r =>
      if String.eqb k' k then (k', v) :: r else (k', v') :: dict_set r k v
  end.

(** ["".join([flag % (k, v) for k, v in d.items()])]. *)
Fixpoint flags (flag : string) (d : pydict) : string :=
  match d with
  | [] => ""
  | (k, v) :: r => flag ++ k ++ "=" ++ show_dval v ++ flags flag r
  end.

(** What [ec.Command([c, h], pyx, cmd)] is given. *)
Record Command : Type := mkCommand {
  targets : list string;
  source : string;
  action : string;
  env_PATH : string;
  env_PYTHONPATH : string
}.

(** The call returns the builder's node list or [None]; the caller's
    [directives] dictionary is updated in place, so its content after the
    call is handed back too (a fresh dictionary when [None] was passed). *)
Definition CythonGenerate (w : World) (pyx : string) (h c : option string)
    (incdirs : option (list string)) (cpp : bool)
    (cte directives : option pydict) : M (pydict * option Command) :=
  let incdirs := default [] incdirs in
  let cte := default [] cte in
  let directives := default [] directives in
  let* ver := Version w in
  match float_of ver with
  | None => raise "ValueError"
  | Some v =>
      let directives :=
        dict_set directives "language_level"
          (DInt (if lt_3 v then 2 else 3)) in
      let* s := get in
      if is_empty (_cython s) then
        Excons.PrintOnce ("No 'cython' to generate " ++ pyx) >>
        ret (directives, None)
      else
        let h := match h with
                 | Some h => h
                 | None => splitext_root w pyx ++ ".h"
                 end in
        let c := match c with
                 | Some c => c
                 | None => splitext_root w pyx ++ (if cpp then ".cpp" else ".c")
                 end in
        let cteflags := flags " -E " cte in
        let dirflags := flags " --directive " directives in
        let cmd :=
          _cython s ++ " " ++ join " " (map (fun x => "-I " ++ x) incdirs)
          ++ (if cpp then " --cplus" else "") ++ cteflags ++ dirflags
          ++ " --embed-positions -o $TARGET $SOURCE" in
        ret (directives,
             Some (mkCommand [c; h] pyx cmd
                     (default "" (environ w !! "PATH"))
                     (default "" (environ w !! "PYTHONPATH"))))
  end.

Definition SilentCythonWarnings (w : World) (env : Env) : Env :=
  match platform w with
  | Darwin =>
      Append_CPPFLAGS " -Wno-unused-function -Wno-unneeded-internal-declaration"
        env
  | Win32 => Append_CPPFLAGS " /wd4310 /wd4706" env
  | _ => Append_CPPFLAGS " -Wno-strict-aliasing" env
  end.


(** *** The Cython translator and the scanner of [.pyx] sources *)

(** What the scanner is handed: an SCons node, seen through the two
    accessors the scanner asks for; [get_contents_str] is
    [str(node.get_contents())]. *)
Record Node : Type := mkNode {
  get_text_contents : option string;
  get_contents_str : option string
}.

Definition is_quote (c : ascii) : bool :=
  Ascii.eqb c "034" || Ascii.eqb c "'".

(** The last position of [q] in [r]. *)
Fixpoint last_index (q : ascii) (r : string) : option nat :=
  match r with
  | EmptyString => None
  | String c r' =>
      match last_index q r' with
      | Some i => Some (S i)
      | None => if Ascii.eqb c q then Some O else None
      end
  end.

(** The pattern of [cython_include_re] without its anchor, at the start of
    [s]: the word [include], white space, a single or double quote, the
    name [(\S+)], and the same quote again.  The result is the name and the
    length of the match.  The white space is taken whole, for what follows
    it must be a quote; the name is the longest non-empty run of characters
    other than white space that is followed by the same quote. *)
Definition include_here (s : string) : option (string * nat) :=
  andthen (strip_prefix "include" s) (fun r1 =>
  let '(ws, r2) := span is_space r1 in
  if is_empty ws then None else
  match r2 with
  | String q r3 =>
      if is_quote q then
        match fst (span (fun c => negb (is_space c)) r3) with
        | String c run =>
            match last_index q run with
            | Some i =>
                Some (str_take (S i) (String c run),
                      (7 + String.length ws + 1 + S i + 1)%nat)
            | None => None
            end
        | EmptyString => None
        end
      else None
  | EmptyString => None
  end).

(** [cython_include_re.findall(text)], keeping group 2 of each match:
    [bol] tells whether the position is the start of a line, and [skip]
    counts the characters of the last match still to pass. *)
Fixpoint findall_includes (bol : bool) (skip : nat) (s : string)
  : list string :=
  match s with
  | EmptyString => []
  | String c r =>
      let bol' := Ascii.eqb c "010" in
      match skip with
      | S k => findall_includes bol' k r
      | O =>
          match (if bol then include_here s else None) with
          | Some (g, n) => g :: findall_includes bol' (n - 1) r
          | None => findall_includes bol' 0 r
          end
      end
  end.

Definition scan_cython_includes (node : Node) (env : Env)
    (path : list string) : list string :=
  match get_text_contents node with
  | Some text => findall_includes true 0 text
  | None =>
      match get_contents_str node with
      | Some text => findall_includes true 0 text
      | None => []
      end
  end.

(** [SCons.Script.Scanner(function=..., skeys=...)]. *)
Record Scanner : Type := mkScanner {
  function : Node -> Env -> list string -> list string;
  skeys : string
}.

(** The construction environment together with its [SCANNERS] variable. *)
Record SEnv : Type := mkSEnv {
  vars : Env;
  SCANNERS : list Scanner
}.

Definition set_cython (cython : string) : M unit :=
  modify (fun s => mkState (ARGUMENTS s) (args_cache s) (warned s) (printed s)
                     (stdout s) (help_options s) (probes s) (_specCache s)
                     cython).

(** The result is the returned flag with the environment as [Append] left
    it. *)
Definition RequireCython (w : World) (e : SEnv) : M (bool * SEnv) :=
  let* s := get in
  let* given := Excons.GetArgument "with-cython" in
  let cython := default (_cython s) given in
  let* f := os_path_isfile w cython in
  let* cython :=
    (if negb f
     then Excons.PrintOnce "Invalid 'cython' specification" >> ret None
     else ret (Some cython)) in
  let* cython :=
    (if negb (truthy cython) then
       let* ver := Version w in
       let cython := "cython" ++ ver in
       match which w cython with
       | Some path =>
           Excons.PrintOnce ("Use " ++ dq ++ cython ++ dq ++ " found in "
                             ++ path ++ ".") >>
           ret (Some cython)
       | None =>
           Excons.PrintOnce ("No " ++ dq ++ cython ++ dq
                             ++ " found in PATH. Try with " ++ dq ++ "cython"
                             ++ dq ++ " instead") >>
           let cython := "cython" in
           match which w cython with
           | Some path =>
               Excons.PrintOnce ("Use " ++ dq ++ cython ++ dq ++ " found in "
                                 ++ path ++ ".") >>
               ret (Some cython)
           | None =>
               Excons.PrintOnce
                 "Cannot find a valid cython in your PATH, use with-cython= flag to provide a valid location."
               >> ret None
           end
       end
     else ret cython) in
  match cython with
  | None => ret (false, e)
  | Some cython =>
      set_cython cython >>
      ret (true,
           mkSEnv (vars e)
             (SCANNERS e ++ [mkScanner scan_cython_includes ".pyx"]))
  end.

End Python.

(** * Vocabulary of the properties *)

(** The value given by the last [#define] of an Arnold version macro in the
    header, if the header defines it. *)
Fixpoint last_def (which : string) (lines : list string) : option string :=
  match lines with
  | [] => None
  | l :: r =>
      match last_def which r with
      | Some v => Some v
      | None =>
          match Arnold.defexp l with
          | Some (w, g) => if String.eqb w which then Some g else None
          | None => None
          end
      end
  end.

(** The number a macro stands for: its digits, or zero when it is absent. *)
Definition macro_int (o : option string) : Z :=
  match o with Some g => digits_value g | None => 0 end.

(** The number [AI_VERSION_FIX] stands for: the first run of digits in its
    value, zero when there is none or when the macro is absent. *)
Definition macro_fix (o : option string) : Z :=
  match o with
  | Some g => match search_digits g with
              | Some ds => digits_value ds
              | None => 0
              end
  | None => 0
  end.

(** Every [#define] of the three numeric macros has digits for its value. *)
Definition numeric_macros (lines : list string) : bool :=
  forallb (fun l => match Arnold.defexp l with
                    | Some (w, g) => String.eqb w "FIX" || is_digits g
                    | None => true
                    end) lines.

(** The same, starting from the value the loop holds so far. *)
Definition upd_int (o : option string) (x : Z) : Z :=
  match o with Some g => digits_value g | None => x end.
Definition upd_fix (o : option string) (x : Z) : Z :=
  match o with
  | Some g => match search_digits g with
              | Some ds => digits_value ds
              | None => 0
              end
  | None => x
  end.

(** The build argument as [excons.GetArgument] sees it. *)
Definition argument (s : State) (name : string) : option string :=
  match ARGUMENTS s !! name with
  | Some v => Some v
  | None => args_cache s !! name
  end.

(** The four ways the Houdini resolver fails, with the message of each:
    no specification; a version that does not look like
    major.minor.patch[.build]; a directory whose path holds no version; a
    root that is not a directory. *)
Inductive houdini_failure (w : World) (s : State) : string -> Prop :=
| hf_missing :
    argument s "with-houdini" = None ->
    houdini_failure w s
      "Please set Houdini version or directory using with-houdini="
| hf_format ver :
    argument s "with-houdini" = Some ver ->
    isdir w ver = false ->
    Houdini.verexp_match ver = None ->
    houdini_failure w s
      ("Invalid Houdini version format: " ++ dq ++ ver ++ dq)
| hf_path hfs :
    argument s "with-houdini" = Some hfs ->
    isdir w hfs = true ->
    Houdini.verexp_search hfs = None ->
    houdini_failure w s
      ("Could not figure out houdini version from path " ++ dq ++ hfs ++ dq
       ++ ". Please provide it using houdini-ver=")
| hf_root_of_version ver :
    argument s "with-houdini" = Some ver ->
    isdir w ver = false ->
    is_Some (Houdini.verexp_match ver) ->
    isdir w (Houdini.install_root w ver) = false ->
    houdini_failure w s
      ("Invalid Houdini directory: " ++ Houdini.install_root w ver)
| hf_root_of_path hfs :
    argument s "with-houdini" = Some hfs ->
    isdir w hfs = true ->
    is_Some (Houdini.verexp_search hfs) ->
    isdir w (Houdini.given_root w hfs) = false ->
    houdini_failure w s
      ("Invalid Houdini directory: " ++ Houdini.given_root w hfs).

(** A version whose first two dotted components are runs of digits. *)
Definition dotted (v : string) : Prop :=
  exists d1 d2 rest,
    v = d1 ++ "." ++ d2 ++ "." ++ rest
    /\ is_digits d1 = true /\ is_digits d2 = true.

(** The digits of the first [#define MAYA_API_VERSION] of the header. *)
Fixpoint first_define (lines : list string) : option string :=
  match lines with
  | [] => None
  | l :: r =>
      match Maya.defexp l with
      | Some g => Some g
      | None => first_define r
      end
  end.

(** The nice Maya version for a year and a sub-release digit: the year with
    a .5 suffix when the digit is at least 5 and the year is 2013 or 2016,
    the bare year otherwise. *)
Definition nice_version (asString : bool) (year sub : Z) : value :=
  if (5 <=? sub) && ((year =? 2013) || (year =? 2016))
  then (if asString then VStr (str year ++ ".5")
        else VFloat (Qred (inject_Z year + (1 # 2))))
  else (if asString then VStr (str year) else VInt year).

(** The print-once log after one more warning. *)
Definition warn_once (log : list string) (msg : string) : list string :=
  if mem msg log then log else log ++ [msg].

(** The all-zero version, in the four shapes [Arnold.Version] can return. *)
Definition zero_version (asString compat : bool) : value :=
  if compat then (if asString then VStr "0.0" else VTuple [0; 0])
  else (if asString then VStr "0.0.0.0" else VTuple [0; 0; 0; 0]).

(** No SDK root is configured at all: none of the [with-<sdk>] arguments is
    given or remembered, and the environment names no Maya location. *)
Definition unconfigured (w : World) (s : State) : Prop :=
  argument s "with-arnold" = None
  /\ argument s "with-arnold-inc" = None
  /\ argument s "with-arnold-lib" = None
  /\ argument s "with-houdini" = None
  /\ argument s "with-maya" = None
  /\ argument s "with-python" = None
  /\ environ w !! "MAYA_LOCATION" = None.

(** The empty default of the Houdini and Maya [Version] functions. *)
Definition empty_version (asString : bool) : value :=
  if asString then VStr "" else VNone.

(** The end-to-end property as the specification states it: with nothing
    configured every [Version] returns its all-zero or empty default, and
    every [Require] returns normally with the library list as it was. *)
Definition no_root_property : Prop :=
  forall (w : World) (s : State) (env : Env),
    unconfigured w s ->
    (forall a c, fst (Arnold.Version w a c s) = Return (zero_version a c))
    /\ (forall a f, fst (Houdini.Version w a f s) = Return (empty_version a))
    /\ (forall a n, fst (Maya.Version w a n s) = Return (empty_version a))
    /\ fst (Python.Version w s) = Return ""
    /\ (exists e, fst (Arnold.Require w env s) = Return e /\ LIBS e = LIBS env)
    /\ (exists e, fst (Houdini.Require w env s) = Return e
                  /\ LIBS e = LIBS env)
    /\ (exists e, fst (Maya.Require w env s) = Return e /\ LIBS e = LIBS env)
    /\ (exists e, fst (Python.Require w env false s) = Return e
                  /\ LIBS e = LIBS env).

(** The library the fallback of [Python.Require] links against when the
    running interpreter is not a framework build. *)
Definition current_python_lib (w : World) : string :=
  if is_win32 (platform w) then "python" ++ Python.no_dots (python_version w)
  else "python" ++ Python.show (config_var w "LDVERSION").

(** Nothing exists under the directory [d]. *)
Definition no_structure (w : World) (d : string) : Prop :=
  forall p, starts_with (d ++ "/") p = true ->
            isdir w p = false /\ isfile w p = false.

(** The property of the resolver as the specification states it: an
    existing directory with no include/library structure resolves to the null
    descriptor. *)
Definition null_descriptor_property : Prop :=
  forall (w : World) (s : State) (spec : string),
    isdir w spec = true -> no_structure w spec ->
    fst (Python._GetPythonSpec w spec s) = Return None.

(** What the resolver prints before it ends the process on a path in which
    nothing was found. *)
Definition invalid_message (spec : string) : string :=
  "[1] Invalid python specification " ++ dq ++ "" ++ nl ++ dq ++ "." ++ spec
  ++ "Aborting build.".

(** ** Concrete scenarios *)

(** A world given by its platform, environment, file system and subprocess
    output; an interpreter 3.9 runs the build. *)
Definition scenario (plat : platform_t) (env : gmap string string)
    (dirs files : list string) (text : string -> string)
    (shell : string -> string) (current : string -> string -> option string)
  : World :=
  {| platform := plat;
     environ := env;
     isdir := fun p => mem p dirs;
     isfile := fun p => mem p files;
     isabs := fun p => starts_with "/" p;
     file_text := text;
     shell_out := shell;
     glob := fun _ => [];
     which := fun _ => None;
     arch_dir := "x64";
     Build64 := true;
     mscver := 14;
     config_var := fun k =>
       dict_get [("LIBDIR", "/usr/lib"); ("LDVERSION", "3.9");
                 ("Py_ENABLE_SHARED", "1"); ("BINDIR", "/usr/bin");
                 ("LDLIBRARY", "libpython3.9.so"); ("CFLAGS", "-O2");
                 ("LINKFORSHARED", "-Xlinker -export-dynamic")] k;
     python_version := "3.9";
     python_inc := "/usr/include/python3.9";
     sys_PREFIX := "/usr";
     exec_prefix := "/usr";
     base_prefix := "/usr";
     py3 := true;
     gcc_full_ver := fun v => v;
     nt_dirname := fun p => p;
     nt_basename := fun p => p;
     search_current := current |}.

(** The state of a fresh process started with the given arguments. *)
Definition fresh (args : gmap string string) : State :=
  mkState args ∅ [] [] [] [] [] ∅ "".

Definition empty_env : Env := mkEnv [] [] [] [] [] [] [] [] "14.0".

(** The fabricated Arnold header of the end-to-end property. *)
Definition fabricated_header : string :=
"#define AI_VERSION_ARCH_NUM 7
#define AI_VERSION_MAJOR_NUM 1
#define AI_VERSION_MINOR_NUM 2
#define AI_VERSION_FIX 3abc
".

Definition arnold_world : World :=
  scenario Linux ∅ ["/opt/arnold"; "/opt/arnold/include"]
    ["/opt/arnold/include/ai_version.h"] (fun _ => fabricated_header)
    (fun _ => "") (fun _ _ => None).

Definition arnold_args : gmap string string :=
  {[ "with-arnold" := "/opt/arnold" ]}.

(** A Linux machine with no SDK installed and nothing configured. *)
Definition bare_world : World :=
  scenario Linux ∅ [] [] (fun _ => "") (fun _ => "") (fun _ _ => None).

(** Houdini 18.5.351 installed in its standard place on Linux and asked for
    by version. *)
Definition houdini_world : World :=
  scenario Linux ∅ ["/opt/hfs18.5.351"] [] (fun _ => "") (fun _ => "")
    (fun _ _ => None).

Definition houdini_args : gmap string string :=
  {[ "with-houdini" := "18.5.351" ]}.

(** The header of a Maya release, from the value of its version macro. *)
Definition maya_header (api : string) : string :=
  "// MTypes.h" ++ nl ++ "#define MAYA_API_VERSION " ++ api ++ nl.

(** Maya installed with its headers under [C:/Program Files/Autodesk] on
    Windows, and asked for by version. *)
Definition maya_world (ver api : string) : World :=
  scenario Win32 ∅
    ["C:/Program Files/Autodesk/Maya" ++ ver;
     "C:/Program Files/Autodesk/Maya" ++ ver ++ "/include/maya"]
    ["C:/Program Files/Autodesk/Maya" ++ ver ++ "/include/maya/MTypes.h"]
    (fun _ => maya_header api) (fun _ => "") (fun _ _ => None).

Definition maya_args (ver : string) : gmap string string :=
  {[ "with-maya" := ver ]}.

(** Maya 2018 on Windows with the compiler version given explicitly. *)
Definition explicit_mscver : State :=
  fresh (<["mscver" := "11.0"]> (maya_args "2018")).

(** A Linux machine where [/opt/empty] is an empty directory. *)
Definition empty_dir_world : World :=
  scenario Linux ∅ ["/opt/empty"] [] (fun _ => "") (fun _ => "")
    (fun _ _ => None).

(** A process in which [RequireCython] has found the translator. *)
Definition cython_state : State :=
  mkState ∅ ∅ [] [] [] [] [] ∅ "cython".

(** Directives of a caller who asks for language level 2. *)
Definition caller_directives : Python.pydict :=
  [("language_level", Python.DInt 2); ("boundscheck", Python.DBool false)].

(** A Mac with Python 3.9 as the current version of the framework in
    [/Library/Frameworks]. *)
Definition framework_world : World :=
  scenario Darwin ∅
    ["/Library/Frameworks"; "/Library/Frameworks/Python.framework";
     "/Library/Frameworks/Python.framework/Versions/3.9/include/python3.9"]
    [] (fun _ => "")
    (fun _ => "lrwxr-xr-x  1 root  wheel  3 Jan  1 00:00 Current -> 3.9")
    (fun path _ =>
       if String.eqb path "/Library/Frameworks/Python.framework"
       then Some "3.9" else None).

(** The framework, named with and without a trailing slash. *)
Definition framework_slash : string := "/Library/Frameworks/Python.framework/".
Definition framework_bare : string := "/Library/Frameworks/Python.framework".

Definition framework_spec : pyspec :=
  ("3.9",
   "/Library/Frameworks/Python.framework/Versions/3.9/include/python3.9",
   Some "/Library/Frameworks", "Python").

(** ** Further vocabulary and scenarios *)

(** An Arnold header whose major number is not an integer. *)
Definition broken_header : string :=
"#define AI_VERSION_ARCH_NUM 7
#define AI_VERSION_MAJOR_NUM 1.2
#define AI_VERSION_MINOR_NUM 2
".

Definition broken_arnold_world : World :=
  scenario Linux ∅ ["/opt/arnold"; "/opt/arnold/include"]
    ["/opt/arnold/include/ai_version.h"] (fun _ => broken_header)
    (fun _ => "") (fun _ _ => None).

(** The environment [Arnold.Require] leaves on the machine of
    [arnold_world], starting from [empty_env]. *)
Definition arnold_env_after : Env :=
  mkEnv ["/opt/arnold/include"] ["/opt/arnold/bin"] ["ai"] [] []
    ["-std=c++11"] [] [] "14.0".

(** A look at whether a path is a directory. *)
Definition is_dir_probe (p : probe) : bool :=
  match p with PIsDir _ => true | _ => false end.

(** What a computation leaves alone when all it does is look at
    directories: the state [s1] is [s] with the probes [l] logged. *)
Definition only_probed (s s1 : State) (l : list probe) : Prop :=
  ARGUMENTS s1 = ARGUMENTS s /\ args_cache s1 = args_cache s
  /\ warned s1 = warned s /\ printed s1 = printed s /\ stdout s1 = stdout s
  /\ help_options s1 = help_options s /\ _specCache s1 = _specCache s
  /\ _cython s1 = _cython s
  /\ probes s1 = (probes s ++ l)%list /\ forallb is_dir_probe l = true.

(** The compiler the Houdini table gives for a version, [""] when it has
    none. *)
Definition hou_gcc (v : string) : string :=
  default "" (dict_get Houdini._hou_gccver v).

(** Houdini 12.0.1 in its standard place on Linux: a release the compiler
    table does not list. *)
Definition old_houdini_world : World :=
  scenario Linux ∅ ["/opt/hfs12.0.1"] [] (fun _ => "") (fun _ => "")
    (fun _ _ => None).

(** A Linux machine whose environment names a Maya location. *)
Definition maya_location_world : World :=
  scenario Linux {[ "MAYA_LOCATION" := "/opt/maya2020" ]} [] []
    (fun _ => "") (fun _ => "") (fun _ _ => None).

(** A process that remembers [with-maya=2018] from an earlier build and was
    given nothing on the command line. *)
Definition remembered_maya : State :=
  mkState ∅ {[ "with-maya" := "2018" ]} [] [] [] [] [] ∅ "".

(** The header directory of a Maya installation, when it ships one. *)
Definition maya_own_headers (w : World) (mayadir : string) : string :=
  if is_darwin (platform w) then mayadir ++ "/devkit/include/maya"
  else mayadir ++ "/include/maya".

(** The include directory inside a Maya installation. *)
Definition maya_own_include (w : World) (mayadir : string) : string :=
  if is_darwin (platform w) then mayadir ++ "/devkit/include"
  else mayadir ++ "/include".

(** The libraries every Maya plug-in links against. *)
Definition maya_libs : list string :=
  ["OpenMaya"; "OpenMayaAnim"; "OpenMayaFX"; "OpenMayaRender"; "OpenMayaUI";
   "Foundation"].

(** The environment [Maya.Require] leaves for Maya 2018 on the machine of
    [maya_world], starting from [empty_env]. *)
Definition maya_env_after : Env :=
  mkEnv ["C:/Program Files/Autodesk/Maya2018/include"]
    ["C:/Program Files/Autodesk/Maya2018/lib"] maya_libs
    ["REQUIRE_IOSTREAM"; "_BOOL"; "NT_PLUGIN"] [] [] [] [] "14.0".

(** Maya 8.5 installed with its headers on Windows: its version macro has
    three digits. *)
Definition old_maya_world : World := maya_world "8.5" "850".

(** A Maya installation whose [MTypes.h] does not define the version
    macro. *)
Definition blank_maya_world : World :=
  scenario Win32 ∅
    ["C:/Program Files/Autodesk/Maya2018";
     "C:/Program Files/Autodesk/Maya2018/include/maya"]
    ["C:/Program Files/Autodesk/Maya2018/include/maya/MTypes.h"]
    (fun _ => "// MTypes.h" ++ nl) (fun _ => "") (fun _ _ => None).

(** The warning of [Maya.Version] when it finds no version macro. *)
Definition maya_no_headers : string :=
  "Cannot find maya headers (missing with-mayadevkit= ?).".

(** What the validity check of [_GetPythonSpec] looks for: the include
    directory exists, and so does what the build links against: on macOS the
    framework directory, or the framework binary when no directory is given;
    elsewhere the library directory, with the import library in it on
    Windows, and a shared [libpython] of the running interpreter otherwise. *)
Definition checked_spec (w : World) (spec : pyspec) : Prop :=
  let '(ver, incdir, libdir, lib) := spec in
  isdir w incdir = true
  /\ match platform w, libdir with
     | Darwin, None => isfile w lib = true
     | Darwin, Some fwdir => isdir w fwdir = true
     | Win32, Some d =>
         isdir w d = true
         /\ isfile w (Excons.joinpath [d; lib ++ ".lib"]) = true
     | _, Some d =>
         isdir w d = true
         /\ Python.config_true (config_var w "Py_ENABLE_SHARED") = true
     | _, None => False
     end.

(** The descriptor of the interpreter that runs the build, under the
    version [ver]. *)
Definition running_spec (w : World) (ver : string) : pyspec :=
  (ver, python_inc w, config_var w "LIBDIR",
   "python" ++ Python.show (config_var w "LDVERSION")).

(** A Linux machine with the development files of the interpreter that runs
    the build, Python 3.9. *)
Definition linux_python_world : World :=
  scenario Linux ∅ ["/usr/include/python3.9"; "/usr/lib"] []
    (fun _ => "") (fun _ => "") (fun _ _ => None).

(** The version define and the include directory [Python.Require] adds for
    the interpreter that runs the build on [linux_python_world], without and
    with the link settings. *)
Definition python_env_compile_only : Env :=
  mkEnv ["/usr/include/python3.9"] [] [] [] ["-DPY_VER=3.9"; "-O2"] [] [] []
    "14.0".

Definition python_env_after : Env :=
  mkEnv ["/usr/include/python3.9"] [] ["python3.9"] []
    ["-DPY_VER=3.9"; "-O2"] [] [] ["-Xlinker"; "-export-dynamic"] "14.0".

(** A Mac whose running interpreter is not a framework build. *)
Definition mac_world : World :=
  scenario Darwin ∅ [] [] (fun _ => "") (fun _ => "") (fun _ _ => None).

Definition mac_env_soft : Env :=
  mkEnv ["/usr/include/python3.9"] [] [] [] ["-DPY_VER=3.9"; "-O2"] [] []
    ["-undefined"; "dynamic_lookup"] "14.0".

(** What the Windows fallback links against whatever it is told. *)
Definition windows_fallback (w : World) (e e' : Env) : Prop :=
  is_win32 (platform w) = true
  /\ LIBS e' = (LIBS e ++ [("python" ++ Python.no_dots (python_version w))%string])%list
  /\ LIBPATH e' = (LIBPATH e ++ [(sys_PREFIX w ++ String "092" "libs")%string])%list.

(** A Windows machine with Python 2.7 in [C:/Python27]; on these paths,
    which use forward slashes only, the directory and base name are the
    POSIX ones. *)
Definition windows_python_world : World :=
  {| platform := Win32;
     environ := ∅;
     isdir := fun p => mem p ["C:/Python27"; "C:/Python27/include";
                              "C:/Python27/libs"];
     isfile := fun p => mem p ["C:/Python27/python.exe";
                               "C:/Python27/libs/python27.lib"];
     isabs := fun p => starts_with "C:/" p;
     file_text := fun _ => "";
     shell_out := fun _ => "";
     glob := fun pat =>
       if String.eqb pat "C:/Python27/python*.dll"
       then ["C:/Python27/python27.dll"] else [];
     which := fun _ => None;
     arch_dir := "x64";
     Build64 := true;
     mscver := 14;
     config_var := fun _ => None;
     python_version := "2.7";
     python_inc := "C:/Python27/include";
     sys_PREFIX := "C:/Python27";
     exec_prefix := "C:/Python27";
     base_prefix := "C:/Python27";
     py3 := false;
     gcc_full_ver := fun v => v;
     nt_dirname := Python.posix_dirname;
     nt_basename := Python.posix_basename;
     search_current := fun _ _ => None |}.

(** A version of the form digit, dot, digit. *)
Definition digit_dot_digit (v : string) : Prop :=
  exists a b : ascii,
    is_digit a = true /\ is_digit b = true
    /\ v = String a (String "." (String b "")).

(** A computation that leaves the settings of the build as they are,
    however it ends: the arguments, given or remembered, and the Cython
    translator that was chosen. *)
Definition keeps_settings {A} (m : M A) : Prop :=
  forall s,
    ARGUMENTS (snd (m s)) = ARGUMENTS s
    /\ args_cache (snd (m s)) = args_cache s
    /\ _cython (snd (m s)) = _cython s.

(** The compiler the Maya table gives for a version, [""] when it has
    none. *)
Definition maya_gcc (v : string) : string :=
  default "" (dict_get Maya._maya_gccver v).

(** Maya 2018 installed with its headers in the standard place on Linux. *)
Definition linux_maya_world : World :=
  scenario Linux ∅
    ["/usr/autodesk/maya2018"; "/usr/autodesk/maya2018/include/maya"]
    ["/usr/autodesk/maya2018/include/maya/MTypes.h"]
    (fun _ => maya_header "20180000") (fun _ => "") (fun _ _ => None).

(** The scanner [RequireCython] registers for [.pyx] sources. *)
Definition pyx_scanner : Python.Scanner :=
  Python.mkScanner Python.scan_cython_includes ".pyx".

(** A Linux machine with [cython] on the search path. *)
Definition cython_world : World :=
  {| platform := Linux;
     environ := ∅;
     isdir := fun _ => false;
     isfile := fun _ => false;
     isabs := fun p => starts_with "/" p;
     file_text := fun _ => "";
     shell_out := fun _ => "";
     glob := fun _ => [];
     which := fun n =>
       if String.eqb n "cython" then Some "/usr/bin" else None;
     arch_dir := "x64";
     Build64 := true;
     mscver := 14;
     config_var := fun _ => None;
     python_version := "3.9";
     python_inc := "/usr/include/python3.9";
     sys_PREFIX := "/usr";
     exec_prefix := "/usr";
     base_prefix := "/usr";
     py3 := true;
     gcc_full_ver := fun v => v;
     nt_dirname := fun p => p;
     nt_basename := fun p => p;
     search_current := fun _ _ => None |}.

Definition no_scanners : Python.SEnv := Python.mkSEnv empty_env [].

(** An include line of a [.pyx] source: the name between two quotes [q]. *)
Definition include_line (q : ascii) (name : string) : string :=
  "include " ++ String q (name ++ String q nl).

(** A name the include pattern takes whole: not empty, and with no white
    space and no quote [q] in it. *)
Definition plain_name (q : ascii) (name : string) : bool :=
  negb (is_empty name)
  && all_chars (fun c => negb (is_space c) && negb (Ascii.eqb c q)) name.

(** The text of the include lines for the given quotes and names. *)
Fixpoint include_lines (l : list (ascii * string)) : string :=
  match l with
  | [] => ""
  | (q, name) :: r => include_line q name ++ include_lines r
  end.

(** Whether the position after [x] is the start of a line. *)
Fixpoint ends_nl (b : bool) (x : string) : bool :=
  match x with
  | EmptyString => b
  | String c x' => ends_nl (Ascii.eqb c "010") x'
  end.

(** The four macros of [ai_version.h] that make the version, without their
    common prefix. *)
Definition version_macros : list string :=
  ["ARCH_NUM"; "MAJOR_NUM"; "MINOR_NUM"; "FIX"].

(** What a header line defines, read as the preprocessor reads it: a line
    whose first word is [#define] and whose second word is
    [AI_VERSION_<macro>] for one of the four macros gives that macro the
    third word as its value; any other line defines none of them. *)
Definition macro_of_line (line : string) : option (string * string) :=
  match words line with
  | first :: name :: val :: _ =>
      if String.eqb first "#define" then
        match strip_prefix "AI_VERSION_" name with
        | Some which =>
            if existsb (String.eqb which) version_macros
            then Some (which, val) else None
        | None => None
        end
      else None
  | _ => None
  end.

(** The value the header gives a macro: that of its last definition. *)
Fixpoint last_macro (which : string) (lines : list string) : option string :=
  match lines with
  | [] => None
  | l :: r =>
      match last_macro which r with
      | Some v => Some v
      | None =>
          match macro_of_line l with
          | Some (w, v) => if String.eqb w which then Some v else None
          | None => None
          end
      end
  end.

(** Every definition of one of the three numeric macros has a run of digits
    for its value. *)
Definition numeric_header (lines : list string) : bool :=
  forallb (fun l => match macro_of_line l with
                    | Some (w, v) => String.eqb w "FIX" || is_digits v
                    | None => true
                    end) lines.

(** The digits a string starts with. *)
Fixpoint leading_digits (s : string) : string :=
  match s with
  | String c r => if is_digit c then String c (leading_digits r) else ""
  | EmptyString => ""
  end.

(** The first run of digits in a string; empty when it has no digit. *)
Fixpoint first_digit_run (s : string) : string :=
  match s with
  | String c r => if is_digit c then leading_digits s else first_digit_run r
  | EmptyString => ""
  end.

(** The number a numeric macro stands for: zero when it is not defined. *)
Definition macro_number (o : option string) : Z :=
  match o with Some v => digits_value v | None => 0 end.

(** The number [AI_VERSION_FIX] stands for: the first run of digits of its
    value, zero when the value has no digit or the macro is not defined. *)
Definition fix_number (o : option string) : Z :=
  match o with Some v => digits_value (first_digit_run v) | None => 0 end.

(** A header written with indentation, tabs and trailing comments, and with
    a first definition of the major number that a later one replaces. *)
Definition indented_header : string :=
"/* version */
#define AI_VERSION_MAJOR_NUM 0
  #define   AI_VERSION_ARCH_NUM	7
#define AI_VERSION_MAJOR_NUM 1 // major
	#define AI_VERSION_MINOR_NUM 2
#define AI_VERSION_FIX v3abc45
#define AI_VERSION_ARCH AI_TOSTRING(AI_VERSION_ARCH_NUM)
".

Definition indented_arnold_world : World :=
  scenario Linux ∅ ["/opt/arnold"; "/opt/arnold/include"]
    ["/opt/arnold/include/ai_version.h"] (fun _ => indented_header)
    (fun _ => "") (fun _ _ => None).







(** A process told to build for Python 2.7, with a translator chosen. *)
Definition python27_state : State :=
  mkState {[ "with-python" := "2.7" ]} ∅ [] [] [] [] [] ∅ "cython".

(** * Properties *)

(** ** Characters and digit strings *)

Lemma digit_not_space c : is_digit c = true -> is_space c = false.
Proof.
  destruct c as [b0 b1 b2 b3 b4 b5 b6 b7].
  destruct b0, b1, b2, b3, b4, b5, b6, b7; vm_compute; congruence.
Qed.

Lemma span_all p s : all_chars p (fst (span p s)) = true.
Proof.
  induction s as [|c r IH]; simpl; [reflexivity|].
  destruct (p c) eqn:E; [|reflexivity].
  destruct (span p r) as [a b]; simpl in *. now rewrite E, IH.
Qed.

Lemma span_app p s : fst (span p s) ++ snd (span p s) = s.
Proof.
  induction s as [|c r IH]; simpl; [reflexivity|].
  destruct (p c); [|reflexivity].
  destruct (span p r) as [a b]; simpl in *. now rewrite <- IH.
Qed.

Lemma span_none p c r : p c = false -> span p (String c r) = ("", String c r).
Proof. intros E; simpl; now rewrite E. Qed.

Lemma rstrip_id s :
  all_chars (fun c => negb (is_space c)) s = true -> rstrip s = s.
Proof.
  induction s as [|c r IH]; simpl; [reflexivity|].
  intros H; apply andb_prop in H as [Hc Hr].
  rewrite (IH Hr). apply negb_true_iff in Hc. rewrite Hc.
  now rewrite andb_false_r.
Qed.

Lemma all_chars_impl (p q : ascii -> bool) s :
  (forall c, p c = true -> q c = true) ->
  all_chars p s = true -> all_chars q s = true.
Proof.
  intros Hpq; induction s as [|c r IH]; simpl; [reflexivity|].
  intros H; apply andb_prop in H as [Hc Hr].
  now rewrite (Hpq _ Hc), IH.
Qed.

Lemma strip_digits s : all_chars is_digit s = true -> strip s = s.
Proof.
  intros H. unfold strip.
  assert (Hs : all_chars (fun c => negb (is_space c)) s = true).
  { revert H; apply all_chars_impl. intros c Hc.
    now rewrite (digit_not_space _ Hc). }
  destruct s as [|c r]; [reflexivity|].
  simpl in H; apply andb_prop in H as [Hc _].
  rewrite span_none by now apply digit_not_space.
  simpl snd. now apply rstrip_id.
Qed.

Lemma int_body_digits s : forall prev acc,
  all_chars is_digit s = true ->
  int_body prev acc s
  = match s with
    | EmptyString => if prev then Some acc else None
    | _ => Some (digits_acc acc s)
    end.
Proof.
  induction s as [|c r IH]; intros prev acc H; simpl; [reflexivity|].
  simpl in H; apply andb_prop in H as [Hc Hr].
  rewrite Hc, (IH true _ Hr). now destruct r.
Qed.

(** [int] of a run of digits is its decimal value. *)
Lemma int_digits s : is_digits s = true -> int s = Some (digits_value s).
Proof.
  unfold is_digits; intros H; apply andb_prop in H as [Hne H].
  unfold int. rewrite (strip_digits _ H).
  destruct s as [|c r]; [discriminate|].
  assert (Hc : is_digit c = true) by (simpl in H; now apply andb_prop in H).
  pose proof (int_body_digits _ false 0 H) as E.
  destruct c as [b0 b1 b2 b3 b4 b5 b6 b7].
  destruct b0, b1, b2, b3, b4, b5, b6, b7; try discriminate Hc; exact E.
Qed.

Lemma to_int_digits s : is_digits s = true -> to_int s = Return (digits_value s).
Proof. intros H; unfold to_int; now rewrite (int_digits _ H). Qed.

Lemma search_digits_digits s ds :
  search_digits s = Some ds -> is_digits ds = true.
Proof.
  induction s as [|c r IH]; [discriminate|].
  cbn [search_digits]. destruct (is_digit c) eqn:Hc; [|exact IH].
  intros [= <-]. unfold is_digits.
  apply andb_true_intro; split;
    [|exact (span_all is_digit (String c r))].
  rewrite Hc. now destruct (span is_digit r).
Qed.

(** ** Arnold: the version header *)

Lemma first_alt_in alts s a g :
  Arnold.first_alt alts s = Some (a, g) -> In a alts.
Proof.
  induction alts as [|x r IH]; simpl; [discriminate|].
  destruct (andthen _ _); [intros [= <- _]; now left|].
  intros H; right; auto.
Qed.

Lemma defexp_which l w g :
  Arnold.defexp l = Some (w, g) ->
  w = "ARCH_NUM" \/ w = "MAJOR_NUM" \/ w = "MINOR_NUM" \/ w = "FIX".
Proof.
  unfold Arnold.defexp, andthen.
  destruct (strip_prefix "#define" _); [|discriminate].
  destruct (spaces1 _); [|discriminate].
  destruct (strip_prefix "AI_VERSION_" _); [|discriminate].
  intros H; apply first_alt_in in H. simpl in H. intuition auto.
Qed.

Ltac split_defs r :=
  destruct (last_def "ARCH_NUM" r), (last_def "MAJOR_NUM" r),
    (last_def "MINOR_NUM" r), (last_def "FIX" r).

(** The loop leaves, for each macro, the value of its last definition. *)
Lemma scan_lines_last lines : forall a b c d,
  numeric_macros lines = true ->
  Arnold.scan_lines lines (a, b, c, d)
  = Return (upd_int (last_def "ARCH_NUM" lines) a,
            upd_int (last_def "MAJOR_NUM" lines) b,
            upd_int (last_def "MINOR_NUM" lines) c,
            upd_fix (last_def "FIX" lines) d).
Proof.
  induction lines as [|l r IH]; intros a b c d H; [reflexivity|].
  simpl in H. apply andb_prop in H as [Hl Hr].
  cbn [Arnold.scan_lines last_def]. unfold Arnold.scan_line.
  destruct (Arnold.defexp l) as [[w g]|] eqn:E.
  - destruct (defexp_which _ _ _ E) as [-> | [-> | [-> | ->]]];
      cbn [String.eqb Ascii.eqb Bool.eqb] in *; simpl in Hl.
    + rewrite (to_int_digits _ Hl). simpl obind. rewrite (IH _ _ _ _ Hr).
      split_defs r; reflexivity.
    + rewrite (to_int_digits _ Hl). simpl obind. rewrite (IH _ _ _ _ Hr).
      split_defs r; reflexivity.
    + rewrite (to_int_digits _ Hl). simpl obind. rewrite (IH _ _ _ _ Hr).
      split_defs r; reflexivity.
    + destruct (search_digits g) as [ds|] eqn:Eds.
      * rewrite (to_int_digits _ (search_digits_digits _ _ Eds)).
        simpl obind. rewrite (IH _ _ _ _ Hr).
        split_defs r; simpl; rewrite ?Eds; reflexivity.
      * simpl obind. rewrite (IH _ _ _ _ Hr).
        split_defs r; simpl; rewrite ?Eds; reflexivity.
  - simpl obind. rewrite (IH _ _ _ _ Hr). split_defs r; reflexivity.
Qed.

Lemma GetDirs_reads name l s :
  exists d, Excons.GetDirs name l s = (Return d, s).
Proof. eexists; reflexivity. Qed.

Lemma GetDirs_fst name l s d :
  fst (Excons.GetDirs name l s) = Return d ->
  Excons.GetDirs name l s = (Return d, s).
Proof.
  destruct (GetDirs_reads name l s) as [d' E]. rewrite E; simpl.
  now intros [= ->].
Qed.

(** What [Version] returns in terms of the scan of the header: each macro
    contributes the value of the last line that [defexp] matches for it. *)
Lemma arnold_version_scanned (w : World) (s : State) (inc : string)
    (lib : option string) :
  fst (Excons.GetDirs "arnold" (Arnold.libdirname w) s)
  = Return (Some inc, lib) ->
  isfile w (Excons.joinpath [inc; "ai_version.h"]) = true ->
  numeric_macros
    (readlines (file_text w (Excons.joinpath [inc; "ai_version.h"]))) = true ->
  let lines :=
    readlines (file_text w (Excons.joinpath [inc; "ai_version.h"])) in
  let varch := macro_int (last_def "ARCH_NUM" lines) in
  let vmaj := macro_int (last_def "MAJOR_NUM" lines) in
  let vmin := macro_int (last_def "MINOR_NUM" lines) in
  let vfix := macro_fix (last_def "FIX" lines) in
  fst (Arnold.Version w false false s)
  = Return (VTuple [varch; vmaj; vmin; vfix])
  /\ fst (Arnold.Version w true false s)
     = Return (VStr (str varch ++ "." ++ str vmaj ++ "." ++ str vmin ++ "."
                     ++ str vfix)).
Proof.
  intros Hd Hf Hn lines varch vmaj vmin vfix.
  apply GetDirs_fst in Hd.
  assert (E : forall asString,
    fst (Arnold.Version w asString false s)
    = Return (Arnold.render asString false (varch, vmaj, vmin, vfix))).
  { intros asString. unfold Arnold.Version, bind at 1. rewrite Hd.
    unfold os_path_isfile, read_lines, log_probe, modify, bind, ret, lift.
    rewrite Hf. rewrite (scan_lines_last _ 0 0 0 0 Hn). reflexivity. }
  split; apply E.
Qed.

(** C8: when the include directory is known but holds no [ai_version.h],
    [Version] returns, in each of its four shapes, the all-zero result it
    returns when no root is configured, and does not raise. *)
Theorem arnold_version_no_header (w : World) (s s0 : State) (inc : string)
    (lib lib0 : option string) (asString compat : bool) :
  fst (Excons.GetDirs "arnold" (Arnold.libdirname w) s)
  = Return (Some inc, lib) ->
  isdir w inc = true ->
  isfile w (Excons.joinpath [inc; "ai_version.h"]) = false ->
  fst (Excons.GetDirs "arnold" (Arnold.libdirname w) s0)
  = Return (None, lib0) ->
  fst (Arnold.Version w asString compat s)
  = Return (zero_version asString compat)
  /\ fst (Arnold.Version w asString compat s0)
     = Return (zero_version asString compat).
Proof.
  intros Hd _ Hf Hd0. apply GetDirs_fst in Hd. apply GetDirs_fst in Hd0.
  split.
  - unfold Arnold.Version, bind at 1. rewrite Hd.
    unfold os_path_isfile, read_lines, log_probe, modify, bind, ret, lift.
    rewrite Hf. now destruct asString, compat.
  - unfold Arnold.Version, bind at 1. rewrite Hd0.
    now destruct asString, compat.
Qed.

Lemma arnold_version_no_header_witness :
  fst (Arnold.Version
         (scenario Linux ∅ ["/opt/arnold/include"] [] (fun _ => "")
            (fun _ => "") (fun _ _ => None))
         true false (fresh arnold_args))
  = Return (VStr "0.0.0.0").
Proof.
  exact (proj1 (arnold_version_no_header
                  (scenario Linux ∅ ["/opt/arnold/include"] [] (fun _ => "")
                     (fun _ => "") (fun _ _ => None))
                  (fresh arnold_args) (fresh ∅) "/opt/arnold/include"
                  (Some "/opt/arnold/bin") None true false
                  eq_refl eq_refl eq_refl eq_refl)).
Defined.

(** ** Houdini: resolving the version and the root *)

Lemma GetArgument_reads name s :
  Excons.GetArgument name s = (Return (argument s name), s).
Proof. reflexivity. Qed.

Ltac run :=
  unfold Houdini.fail, os_path_isdir, os_path_isfile, read_lines, run_shell,
    log_probe, Excons.WarnOnce, Excons.PrintOnce, modify, bind, ret, raise,
    sys_exit, lift, get, when, warn_once; cbn [fst snd warned].

Lemma houdini_failure_run (w : World) (s : State) (msg : string)
    (noexc : bool) :
  houdini_failure w s msg ->
  exists s',
    Houdini.GetVersionAndDirectory w noexc s
    = (if noexc then Return (None, None) else Raise msg, s')
    /\ warned s' = (if noexc then warn_once (warned s) msg else warned s).
Proof.
  intros H. unfold Houdini.GetVersionAndDirectory, bind.
  rewrite GetArgument_reads.
  destruct H as [Ha | ver Ha Hd Hm | hfs Ha Hd Hm | ver Ha Hd [g Hm] Hr
                 | hfs Ha Hd [g Hm] Hr]; rewrite Ha; run;
    rewrite ?Hd, ?Hm; cbn; rewrite ?Hr; cbn;
    destruct noexc; run; eexists; (split; [reflexivity|]); cbn;
    try reflexivity; now destruct (mem _ _).
Qed.

(** C7: in each of the failure cases of the Houdini resolver (no
    specification, malformed version, no version in the path, root that is
    not a directory) the call raises an exception carrying the message of that
    case when [noexc] is false; when [noexc] is true it does not raise, records
    the message in the print-once warning log (once only) and returns
    [(None, None)]. *)
Theorem houdini_failure_modes (w : World) (s : State) (msg : string)
    (noexc : bool) :
  houdini_failure w s msg ->
  fst (Houdini.GetVersionAndDirectory w noexc s)
  = (if noexc then Return (None, None) else Raise msg)
  /\ warned (snd (Houdini.GetVersionAndDirectory w noexc s))
     = (if noexc then warn_once (warned s) msg else warned s).
Proof.
  intros H. destruct (houdini_failure_run w s msg noexc H) as (s' & E & Hw).
  now rewrite E.
Qed.

(** Conversely, the resolver raises only in those cases and only when
    [noexc] is false. *)
Lemma houdini_raise_inv (w : World) (s : State) (noexc : bool) (msg : string) :
  fst (Houdini.GetVersionAndDirectory w noexc s) = Raise msg ->
  noexc = false /\ houdini_failure w s msg.
Proof.
  unfold Houdini.GetVersionAndDirectory, bind. rewrite GetArgument_reads.
  destruct (argument s "with-houdini") as [h|] eqn:Ha; run.
  - destruct (isdir w h) eqn:Hd; cbn.
    + destruct (Houdini.verexp_search h) as [g|] eqn:Hm; run.
      * destruct (isdir w (Houdini.given_root w h)) eqn:Hr; cbn;
          [discriminate|].
        destruct noexc; run; cbn; [discriminate|]. intros [= <-].
        split; [reflexivity|]. eapply hf_root_of_path; eauto.
      * destruct noexc; run; cbn; [discriminate|]. intros [= <-].
        split; [reflexivity|]. now apply hf_path.
    + destruct (Houdini.verexp_match h) as [g|] eqn:Hm; run.
      * destruct (isdir w (Houdini.install_root w h)) eqn:Hr; cbn;
          [discriminate|].
        destruct noexc; run; cbn; [discriminate|]. intros [= <-].
        split; [reflexivity|]. eapply hf_root_of_version; eauto.
      * destruct noexc; run; cbn; [discriminate|]. intros [= <-].
        split; [reflexivity|]. now apply hf_format.
  - destruct noexc; run; cbn; [discriminate|]. intros [= <-].
    split; [reflexivity|]. now apply hf_missing.
Qed.

(** What a successful resolution looks like. *)
Lemma houdini_return_inv (w : World) (s : State) (noexc : bool)
    (ver : string) (hfs : option string) :
  fst (Houdini.GetVersionAndDirectory w noexc s) = Return (Some ver, hfs) ->
  exists spec,
    argument s "with-houdini" = Some spec
    /\ (isdir w spec = false /\ ver = spec
        /\ is_Some (Houdini.verexp_match spec)
        \/ isdir w spec = true /\ Houdini.verexp_search spec = Some ver).
Proof.
  unfold Houdini.GetVersionAndDirectory, bind. rewrite GetArgument_reads.
  destruct (argument s "with-houdini") as [h|] eqn:Ha; run.
  - intros H. exists h. split; [reflexivity|].
    destruct (isdir w h) eqn:Hd; cbn in H.
    + right. split; [reflexivity|].
      destruct (Houdini.verexp_search h) as [g|] eqn:Hm; revert H; run.
      * destruct (isdir w (Houdini.given_root w h)); cbn.
        -- now intros [= -> _].
        -- destruct noexc; run; cbn; discriminate.
      * destruct noexc; run; cbn; discriminate.
    + left. split; [reflexivity|].
      destruct (Houdini.verexp_match h) as [g|] eqn:Hm; revert H; run.
      * destruct (isdir w (Houdini.install_root w h)); cbn.
        -- intros [= -> _]. split; [reflexivity|]. now exists g.
        -- destruct noexc; run; cbn; discriminate.
      * destruct noexc; run; cbn; discriminate.
  - destruct noexc; run; cbn; discriminate.
Qed.

Lemma houdini_failure_modes_witness :
  fst (Houdini.GetVersionAndDirectory bare_world false (fresh ∅))
  = Raise "Please set Houdini version or directory using with-houdini="
  /\ warned (snd (Houdini.GetVersionAndDirectory bare_world false (fresh ∅)))
     = [].
Proof.
  exact (houdini_failure_modes bare_world (fresh ∅) _ false
           (hf_missing bare_world (fresh ∅) eq_refl)).
Defined.

(** ** Houdini: the shape of a resolved version *)

Lemma app_cons c a b : String c a ++ b = String c (a ++ b).
Proof. reflexivity. Qed.

Lemma app_empty b : "" ++ b = b.
Proof. reflexivity. Qed.

Lemma str_app_assoc a b c : (a ++ b) ++ c = a ++ (b ++ c).
Proof.
  induction a as [|x a IH]; [reflexivity|].
  now rewrite !app_cons, IH.
Qed.

Lemma str_app_nil_r a : a ++ "" = a.
Proof. induction a as [|x a IH]; [reflexivity|]. now rewrite app_cons, IH. Qed.

Lemma all_chars_app p a b :
  all_chars p (a ++ b) = all_chars p a && all_chars p b.
Proof.
  induction a as [|x a IH]; [reflexivity|].
  rewrite app_cons; simpl. now rewrite IH, andb_assoc.
Qed.

(** A run of characters satisfying [p], followed by one that does not. *)
Lemma span_stop p d c r :
  all_chars p d = true -> p c = false ->
  span p (d ++ String c r) = (d, String c r).
Proof.
  intros Hd Hc. induction d as [|x d IH].
  - rewrite app_empty. now apply span_none.
  - simpl in Hd. apply andb_prop in Hd as [Hx Hd].
    rewrite app_cons. simpl. now rewrite Hx, (IH Hd).
Qed.

Lemma digits1_spec s d r :
  Houdini.digits1 s = Some (d, r) -> s = d ++ r /\ is_digits d = true.
Proof.
  unfold Houdini.digits1. pose proof (span_app is_digit s) as Ha.
  pose proof (span_all is_digit s) as Hd.
  destruct (span is_digit s) as [a b]; simpl in *.
  destruct (is_empty a) eqn:E; [discriminate|]. intros [= <- <-].
  split; [now symmetry|]. unfold is_digits. now rewrite E, Hd.
Qed.

Lemma dot_spec s r : Houdini.dot s = Some r -> s = "." ++ r.
Proof.
  destruct s as [|c s]; [discriminate|]. simpl.
  destruct c as [b0 b1 b2 b3 b4 b5 b6 b7].
  destruct b0, b1, b2, b3, b4, b5, b6, b7; try discriminate.
  now intros [= ->].
Qed.

Lemma verexp_match_dotted s g :
  Houdini.verexp_match s = Some g -> dotted s /\ dotted g.
Proof.
  unfold Houdini.verexp_match, andthen.
  destruct (Houdini.digits1 s) as [[d1 r1]|] eqn:E1; [|discriminate].
  destruct (Houdini.dot r1) as [r2|] eqn:E2; [|discriminate].
  destruct (Houdini.digits1 r2) as [[d2 r3]|] eqn:E3; [|discriminate].
  destruct (Houdini.dot r3) as [r4|] eqn:E4; [|discriminate].
  destruct (Houdini.digits1 r4) as [[d3 r5]|] eqn:E5; [|discriminate].
  apply digits1_spec in E1 as [-> H1]. apply dot_spec in E2 as ->.
  apply digits1_spec in E3 as [-> H2]. apply dot_spec in E4 as ->.
  intros Hg. split.
  - exists d1, d2, r4. now repeat split.
  - destruct (Houdini.dot r5) as [r6|]; simpl in Hg;
      [destruct (Houdini.digits1 r6) as [[d4 r7]|]|];
      injection Hg as <-; eexists d1, d2, _; rewrite ?str_app_assoc;
      (split; [reflexivity|now split]).
Qed.

Lemma verexp_search_dotted s g : Houdini.verexp_search s = Some g -> dotted g.
Proof.
  induction s as [|c r IH]; cbn [Houdini.verexp_search].
  - destruct (Houdini.verexp_match "") eqn:E; [|discriminate].
    intros [= <-]. now apply verexp_match_dotted in E.
  - destruct (Houdini.verexp_match (String c r)) eqn:E; [|exact IH].
    intros [= <-]. now apply verexp_match_dotted in E.
Qed.

Lemma digit_not_dot c : is_digit c = true -> Ascii.eqb c "." = false.
Proof.
  destruct c as [b0 b1 b2 b3 b4 b5 b6 b7].
  destruct b0, b1, b2, b3, b4, b5, b6, b7; vm_compute; congruence.
Qed.

Lemma split_digits d r :
  all_chars is_digit d = true ->
  split "." (d ++ "." ++ r) = d :: split "." r.
Proof.
  induction d as [|c d IH]; intros H.
  - reflexivity.
  - simpl in H. apply andb_prop in H as [Hc Hd].
    rewrite app_cons. cbn [split]. rewrite (digit_not_dot _ Hc).
    now rewrite (IH Hd).
Qed.

Lemma is_digits_all d : is_digits d = true -> all_chars is_digit d = true.
Proof. unfold is_digits. intros H. now apply andb_prop in H. Qed.

Lemma major_minor_dotted d1 d2 rest :
  is_digits d1 = true -> is_digits d2 = true ->
  Houdini.major_minor (d1 ++ "." ++ d2 ++ "." ++ rest) = d1 ++ "." ++ d2.
Proof.
  intros H1 H2. unfold Houdini.major_minor.
  rewrite (split_digits _ _ (is_digits_all _ H1)).
  rewrite (split_digits _ _ (is_digits_all _ H2)).
  reflexivity.
Qed.

Lemma strip_nospace s :
  all_chars (fun c => negb (is_space c)) s = true -> strip s = s.
Proof.
  intros H. unfold strip. destruct s as [|c r]; [reflexivity|].
  pose proof H as H'. simpl in H'. apply andb_prop in H' as [Hc _].
  apply negb_true_iff in Hc. rewrite (span_none _ _ _ Hc).
  now apply rstrip_id.
Qed.

Lemma digitpart_digits d rest prev :
  all_chars is_digit d = true ->
  match rest with
  | String c _ => is_digit c = false /\ Ascii.eqb c "_" = false
  | EmptyString => True
  end ->
  digitpart prev (d ++ rest) = (d, rest).
Proof.
  intros Hd Hr. revert prev. induction d as [|x d IH]; intros prev.
  - rewrite app_empty. destruct rest as [|c r]; [reflexivity|].
    destruct Hr as [H1 H2]. cbn [digitpart]. now rewrite H1, H2.
  - simpl in Hd. apply andb_prop in Hd as [Hx Hd].
    rewrite app_cons. cbn [digitpart]. now rewrite Hx, (IH Hd).
Qed.

(** The exact value of a literal made of two runs of digits with a dot
    between them. *)
Lemma float_body_major_minor d1 d2 :
  is_digits d1 = true -> is_digits d2 = true ->
  float_body (d1 ++ "." ++ d2)
  = Some (scale10 (digits_value (d1 ++ d2))
            (0 - Z.of_nat (String.length d2))).
Proof.
  intros H1 H2. unfold float_body. change ("." ++ d2) with (String "." d2).
  rewrite (digitpart_digits d1 (String "." d2) false (is_digits_all _ H1))
    by now split.
  pose proof (digitpart_digits d2 "" false (is_digits_all _ H2) I) as E2.
  rewrite str_app_nil_r in E2. rewrite E2.
  unfold is_digits in H1. apply andb_prop in H1 as [Hn _].
  apply negb_true_iff in Hn. now rewrite Hn.
Qed.

Lemma float_of_major_minor d1 d2 :
  is_digits d1 = true -> is_digits d2 = true ->
  float_of (d1 ++ "." ++ d2)
  = Some (Finite (scale10 (digits_value (d1 ++ d2))
                    (0 - Z.of_nat (String.length d2)))).
Proof.
  intros H1 H2. unfold float_of.
  rewrite strip_nospace.
  2:{ rewrite !all_chars_app.
      rewrite (all_chars_impl is_digit _ d1), (all_chars_impl is_digit _ d2);
        try reflexivity; try now apply is_digits_all.
      all: intros c Hc; now rewrite (digit_not_space _ Hc). }
  assert (E : unsigned_float (d1 ++ "." ++ d2)
              = Some (Finite (scale10 (digits_value (d1 ++ d2))
                                (0 - Z.of_nat (String.length d2)))))
    by (unfold unsigned_float; now rewrite (float_body_major_minor _ _ H1 H2)).
  destruct d1 as [|c d1]; [discriminate|].
  assert (Hc : is_digit c = true).
  { apply is_digits_all in H1. simpl in H1. now apply andb_prop in H1. }
  rewrite app_cons in *.
  destruct c as [b0 b1 b2 b3 b4 b5 b6 b7].
  destruct b0, b1, b2, b3, b4, b5, b6, b7; try discriminate Hc;
    exact E.
Qed.

Lemma float_finite s q : float s = Some q -> float_of s = Some (Finite q).
Proof.
  unfold float. destruct (float_of s) as [[x| |]|]; try discriminate.
  now intros [= ->].
Qed.

Lemma float_major_minor d1 d2 :
  is_digits d1 = true -> is_digits d2 = true ->
  exists q, float (d1 ++ "." ++ d2) = Some q.
Proof.
  intros H1 H2. unfold float. rewrite (float_of_major_minor _ _ H1 H2).
  now eexists.
Qed.

Lemma houdini_version_dotted w s noexc ver hfs :
  fst (Houdini.GetVersionAndDirectory w noexc s) = Return (Some ver, hfs) ->
  dotted ver.
Proof.
  intros H. apply houdini_return_inv in H as (spec & _ & [(_ & -> & g & Hg) | (_ & Hg)]).
  - now apply verexp_match_dotted in Hg.
  - now apply verexp_search_dotted in Hg.
Qed.

(** C9: once the Houdini version is resolved, the numeric form of [Version]
    is the float of its first two dotted components only, whether [full] is
    true or false, so it never carries the patch component; and with
    [asString] true and [full] false the result is the major.minor string.
    Both components are runs of digits, so the conversion to a float does
    not fail. *)
Theorem houdini_version_two_components (w : World) (s : State) (ver : string)
    (hfs : option string) :
  fst (Houdini.GetVersionAndDirectory w true s) = Return (Some ver, hfs) ->
  exists major minor q,
    is_digits major = true /\ is_digits minor = true
    /\ Houdini.major_minor ver = major ++ "." ++ minor
    /\ float (major ++ "." ++ minor) = Some q
    /\ fst (Houdini.Version w false true s) = Return (VFloat q)
    /\ fst (Houdini.Version w false false s) = Return (VFloat q)
    /\ fst (Houdini.Version w true false s)
       = Return (VStr (major ++ "." ++ minor)).
Proof.
  intros H. destruct (houdini_version_dotted _ _ _ _ _ H)
    as (d1 & d2 & rest & -> & H1 & H2).
  destruct (float_major_minor d1 d2 H1 H2) as [q Hq].
  exists d1, d2, q. pose proof (major_minor_dotted d1 d2 rest H1 H2) as Hm.
  repeat (split; [assumption|]).
  unfold Houdini.Version, bind.
  destruct (Houdini.GetVersionAndDirectory w true s) as [o s'].
  simpl in H; subst o. cbn [negb orb]. rewrite Hm.
  unfold lift, to_float, ret. rewrite (float_finite _ _ Hq).
  now repeat split.
Qed.

Lemma houdini_version_two_components_witness :
  exists major minor q,
    is_digits major = true /\ is_digits minor = true
    /\ Houdini.major_minor "18.5.351" = major ++ "." ++ minor
    /\ float (major ++ "." ++ minor) = Some q
    /\ fst (Houdini.Version houdini_world false true (fresh houdini_args))
       = Return (VFloat q)
    /\ fst (Houdini.Version houdini_world false false (fresh houdini_args))
       = Return (VFloat q)
    /\ fst (Houdini.Version houdini_world true false (fresh houdini_args))
       = Return (VStr (major ++ "." ++ minor)).
Proof.
  exact (houdini_version_two_components houdini_world (fresh houdini_args)
           "18.5.351" (Some "/opt/hfs18.5.351") eq_refl).
Defined.

(** Houdini 18.5.351 reports 18.5 as a number and as a short string. *)
Example houdini_version_18_5 :
  fst (Houdini.Version houdini_world false true (fresh houdini_args))
  = Return (VFloat (37 # 2))
  /\ fst (Houdini.Version houdini_world true false (fresh houdini_args))
     = Return (VStr "18.5")
  /\ fst (Houdini.Version houdini_world true true (fresh houdini_args))
     = Return (VStr "18.5.351").
Proof. vm_compute. now repeat split. Qed.

(** ** Compiler selection *)

Lemma maya_mscver_kept w s v :
  ARGUMENTS s !! "mscver" = Some v -> Maya.SetupMscver w s = (Return tt, s).
Proof.
  intros H. unfold Maya.SetupMscver, Excons.InitGlobals, bind, ret, get.
  destruct (is_win32 (platform w)); [|reflexivity]. now rewrite H.
Qed.

Lemma maya_gccver_kept w s v :
  ARGUMENTS s !! "devtoolset" = Some v -> Maya.SetupGccver w s = (Return tt, s).
Proof.
  intros H. unfold Maya.SetupGccver, Excons.InitGlobals, bind, ret, get.
  destruct (is_linux (platform w)); [|reflexivity]. now rewrite H.
Qed.

Lemma houdini_mscver_kept w s v :
  ARGUMENTS s !! "mscver" = Some v -> Houdini.SetupMscver w s = (Return tt, s).
Proof.
  intros H. unfold Houdini.SetupMscver, Excons.InitGlobals, bind, ret.
  destruct (is_win32 (platform w)); [|reflexivity].
  rewrite GetArgument_reads. unfold argument. now rewrite H.
Qed.

Lemma houdini_gccver_kept w s v :
  ARGUMENTS s !! "devtoolset" = Some v ->
  Houdini.SetupGccver w s = (Return tt, s).
Proof.
  intros H. unfold Houdini.SetupGccver, Excons.InitGlobals, bind, ret, get.
  destruct (is_linux (platform w)); [|reflexivity]. now rewrite H.
Qed.

(** C6: when the compiler-version argument of the platform ([mscver] on
    Windows, [devtoolset] elsewhere) is already set on the command line, the
    Maya and Houdini [SetupCompiler], and the [SetupMscver] / [SetupGccver]
    step behind each, return without changing the state: the argument keeps
    the caller's value whatever version the lookup tables hold. *)
Theorem setup_compiler_keeps_explicit (w : World) (s : State) (v : string) :
  ARGUMENTS s !! (if is_win32 (platform w) then "mscver" else "devtoolset")
  = Some v ->
  Maya.SetupCompiler w s = (Return tt, s)
  /\ Houdini.SetupCompiler w s = (Return tt, s)
  /\ (if is_win32 (platform w)
      then Maya.SetupMscver w s = (Return tt, s)
           /\ Houdini.SetupMscver w s = (Return tt, s)
      else Maya.SetupGccver w s = (Return tt, s)
           /\ Houdini.SetupGccver w s = (Return tt, s)).
Proof.
  unfold Maya.SetupCompiler, Houdini.SetupCompiler.
  destruct (is_win32 (platform w)); intros H.
  - pose proof (maya_mscver_kept w s v H).
    pose proof (houdini_mscver_kept w s v H). now repeat split.
  - pose proof (maya_gccver_kept w s v H).
    pose proof (houdini_gccver_kept w s v H). now repeat split.
Qed.

Lemma setup_compiler_keeps_explicit_witness :
  Maya.SetupCompiler (maya_world "2018" "20180000") explicit_mscver
  = (Return tt, explicit_mscver)
  /\ Houdini.SetupCompiler (maya_world "2018" "20180000") explicit_mscver
     = (Return tt, explicit_mscver)
  /\ Maya.SetupMscver (maya_world "2018" "20180000") explicit_mscver
     = (Return tt, explicit_mscver)
  /\ Houdini.SetupMscver (maya_world "2018" "20180000") explicit_mscver
     = (Return tt, explicit_mscver).
Proof.
  exact (setup_compiler_keeps_explicit (maya_world "2018" "20180000")
           explicit_mscver "11.0" eq_refl).
Defined.

(** Without the explicit argument the table value is selected: Maya 2018
    picks msvc 14.0. *)
Example maya_2018_selects_msvc :
  ARGUMENTS (snd (Maya.SetupCompiler (maya_world "2018" "20180000")
                    (fresh (maya_args "2018")))) !! "mscver"
  = Some "14.0".
Proof. vm_compute. reflexivity. Qed.

(** ** Maya: the nice version *)

Lemma maya_defexp_digits l g : Maya.defexp l = Some g -> is_digits g = true.
Proof.
  unfold Maya.defexp, andthen.
  destruct (strip_prefix "#define" _); [|discriminate].
  destruct (spaces1 _); [|discriminate].
  destruct (strip_prefix "MAYA_API_VERSION" _); [|discriminate].
  destruct (spaces1 _) as [r4|]; [|discriminate].
  destruct (is_empty _) eqn:E; [discriminate|]. intros [= <-].
  unfold is_digits. now rewrite E, span_all.
Qed.

Lemma first_define_digits lines g :
  first_define lines = Some g -> is_digits g = true.
Proof.
  induction lines as [|l r IH]; simpl; [discriminate|].
  destruct (Maya.defexp l) eqn:E; [|exact IH].
  intros [= <-]. now apply maya_defexp_digits in E.
Qed.

Lemma maya_scan_first asString nice wv lines g :
  first_define lines = Some g ->
  Maya.scan_lines asString nice wv lines
  = bind (Maya.report asString nice wv g) (fun v => ret (Some v)).
Proof.
  induction lines as [|l r IH]; simpl; [discriminate|].
  destruct (Maya.defexp l); [now intros [= ->]|exact IH].
Qed.

Lemma str_take_digits n g :
  all_chars is_digit g = true -> all_chars is_digit (str_take n g) = true.
Proof.
  revert g; induction n as [|n IH]; intros [|c g]; simpl; try reflexivity.
  intros H; apply andb_prop in H as [Hc Hg]. now rewrite Hc, IH.
Qed.

Lemma str_index_digit n g c :
  all_chars is_digit g = true -> str_index n g = Some c -> is_digit c = true.
Proof.
  revert n; induction g as [|x g IH]; intros n H; [now destruct n|].
  simpl in H; apply andb_prop in H as [Hx Hg].
  destruct n; simpl; [now intros [= <-]|]. now apply IH.
Qed.

Lemma when_warn_returns b msg s :
  exists s', when b (Excons.WarnOnce msg) s = (Return tt, s').
Proof. destruct b; eexists; reflexivity. Qed.

(** The body of the loop on a line with at least five digits. *)
Lemma report_nice asString wv g c s :
  is_digits g = true -> str_index 4 g = Some c ->
  fst (Maya.report asString true wv g s)
  = Return (nice_version asString (digits_value (str_take 4 g)) (digit_val c)).
Proof.
  intros Hg Hc. pose proof (is_digits_all _ Hg) as Ha.
  assert (H4 : is_digits (str_take 4 g) = true).
  { unfold is_digits. rewrite (str_take_digits 4 g Ha), andb_true_r.
    now destruct g. }
  assert (H1 : is_digits (String c "") = true).
  { unfold is_digits; simpl. now rewrite (str_index_digit _ _ _ Ha Hc). }
  unfold Maya.report. rewrite Hc, (to_int_digits _ H4), (to_int_digits _ H1).
  replace (digits_value (String c "")) with (digit_val c)
    by (unfold digits_value; simpl; lia).
  unfold bind at 1 2. unfold lift. unfold bind.
  set (eff := match wv with Some _ => _ | None => _ end).
  assert (He : exists s', eff s = (Return tt, s')).
  { subst eff. destruct wv; [apply when_warn_returns|now eexists]. }
  destruct He as [s' ->]. unfold nice_version, Maya.incompatible_year.
  destruct (_ && _), asString; reflexivity.
Qed.

Lemma bind_run {A B} (m : M A) (k : A -> M B) s a s' :
  m s = (Return a, s') -> bind m k s = k a s'.
Proof. intros E. unfold bind. now rewrite E. Qed.

Lemma bind_bind {A B C} (m : M A) (f : A -> M B) (k : B -> M C) s :
  bind (bind m f) k s = bind m (fun a => bind (f a) k) s.
Proof. unfold bind. destruct (m s) as [[a|e|c] s']; reflexivity. Qed.

Lemma run_pair {A} (m : M A) s a :
  fst (m s) = Return a -> m s = (Return a, snd (m s)).
Proof. destruct (m s); simpl. now intros ->. Qed.

(** C3: when the Maya header is found and its first [MAYA_API_VERSION]
    definition has at least five digits (a year and a sub-release digit),
    [Version(nice=True)] returns the year with a .5 suffix, as a string or as
    year + 0.5, exactly when the sub-release digit is at least 5 and the year
    is 2013 or 2016; otherwise it returns the bare year. *)
Theorem maya_nice_version (w : World) (s : State) (asString : bool)
    (mayadir inc g : string) (c : ascii) :
  fst (Maya.GetMayaRoot w true s) = Return (Some mayadir) ->
  is_empty mayadir = false ->
  fst (Maya.GetMayaInc w mayadir (snd (Maya.GetMayaRoot w true s)))
  = Return inc ->
  isfile w (Excons.joinpath [inc; "maya"; "MTypes.h"]) = true ->
  first_define
    (readlines (file_text w (Excons.joinpath [inc; "maya"; "MTypes.h"])))
  = Some g ->
  str_index 4 g = Some c ->
  fst (Maya.Version w asString true s)
  = Return (nice_version asString (digits_value (str_take 4 g)) (digit_val c)).
Proof.
  intros H1 Hne H2 Hf Hl Hc.
  apply run_pair in H1. apply run_pair in H2.
  set (s1 := snd (Maya.GetMayaRoot w true s)) in *.
  set (s2 := snd (Maya.GetMayaInc w mayadir s1)) in *.
  unfold Maya.Version.
  rewrite (bind_run _ _ _ _ _ H1).
  unfold truthy. rewrite Hne. cbn [negb default].
  rewrite (bind_run _ _ _ _ _ H2).
  rewrite (bind_run _ _ _ _ _ (GetArgument_reads _ _)).
  match goal with |- context [bind ?m _ s2] =>
    assert (Hw : exists v s3, m s2 = (Return v, s3))
      by (destruct (argument s2 "with-maya"); repeat eexists) end.
  destruct Hw as (v & s3 & Ew). rewrite (bind_run _ _ _ _ _ Ew).
  erewrite bind_run by reflexivity. cbn beta. rewrite Hf.
  rewrite bind_bind. erewrite bind_run by reflexivity.
  rewrite (maya_scan_first _ _ _ _ _ Hl), bind_bind.
  match goal with |- context [bind (Maya.report asString true v g) _ ?st] =>
    pose proof (run_pair _ _ _
                  (report_nice asString v g c st
                     (first_define_digits _ _ Hl) Hc)) as Hr end.
  rewrite (bind_run _ _ _ _ _ Hr). reflexivity.
Qed.

Lemma maya_nice_version_witness :
  fst (Maya.Version (maya_world "2016" "201650") true true
         (fresh (maya_args "2016")))
  = Return (VStr "2016.5").
Proof.
  exact (maya_nice_version (maya_world "2016" "201650")
           (fresh (maya_args "2016")) true
           "C:/Program Files/Autodesk/Maya2016"
           "C:/Program Files/Autodesk/Maya2016/include" "201650" "5"
           eq_refl eq_refl eq_refl eq_refl eq_refl eq_refl).
Defined.

Lemma not_own_suffix a b : b <> "" -> a ++ b <> a.
Proof.
  intros Hb. induction a as [|c a IH]; [exact Hb|].
  rewrite app_cons. intros [= E]. now apply IH.
Qed.

(** The two forms are different values, so the suffix appears exactly in
    the stated case. *)
Lemma nice_version_half_iff year sub :
  nice_version true year sub = VStr (str year ++ ".5")
  <-> (5 <= sub /\ (year = 2013 \/ year = 2016)).
Proof.
  unfold nice_version.
  destruct (5 <=? sub) eqn:E5, (year =? 2013) eqn:E3, (year =? 2016) eqn:E6;
    cbn [andb orb]; split; intros H; try reflexivity; try lia.
  all: try (injection H as H; symmetry in H;
            now apply not_own_suffix in H).
Qed.

(** Other years ignore the sub-release digit; 2013 and 2016 do not. *)
Example maya_nice_examples :
  fst (Maya.Version (maya_world "2018" "20180500") true true
         (fresh (maya_args "2018"))) = Return (VStr "2018")
  /\ fst (Maya.Version (maya_world "2018" "20180500") false true
            (fresh (maya_args "2018"))) = Return (VInt 2018)
  /\ fst (Maya.Version (maya_world "2016" "201650") false true
            (fresh (maya_args "2016"))) = Return (VFloat (4033 # 2))
  /\ fst (Maya.Version (maya_world "2016" "201600") true true
            (fresh (maya_args "2016"))) = Return (VStr "2016").
Proof. vm_compute. now repeat split. Qed.

(** ** Nothing configured *)

Lemma GetDirs_unconfigured w s l :
  unconfigured w s ->
  Excons.GetDirs "arnold" l s = (Return (None, None), s).
Proof.
  intros (Ha & Hi & Hl & _). unfold Excons.GetDirs.
  rewrite (bind_run _ _ _ _ _ (GetArgument_reads _ _)).
  rewrite (bind_run _ _ _ _ _ (GetArgument_reads _ _)).
  rewrite (bind_run _ _ _ _ _ (GetArgument_reads _ _)).
  cbn. change (argument s "with-arnold") with (argument s "with-arnold").
  unfold ret. repeat f_equal.
  - change ("with-" ++ "arnold" ++ "-inc") with "with-arnold-inc".
    change ("with-" ++ "arnold") with "with-arnold". now rewrite Hi, Ha.
  - change ("with-" ++ "arnold" ++ "-lib") with "with-arnold-lib".
    change ("with-" ++ "arnold") with "with-arnold". now rewrite Hl, Ha.
Qed.

Lemma arnold_version_unconfigured w s a c :
  unconfigured w s ->
  Arnold.Version w a c s = (Return (zero_version a c), s).
Proof.
  intros H. unfold Arnold.Version.
  rewrite (bind_run _ _ _ _ _ (GetDirs_unconfigured w s _ H)).
  reflexivity.
Qed.

Lemma arnold_require_unconfigured w s env :
  unconfigured w s ->
  fst (Arnold.Require w env s) = Return (Append_LIBS ["ai"] env).
Proof.
  intros H. unfold Arnold.Require.
  rewrite (bind_run _ _ _ _ _ (GetDirs_unconfigured w s _ H)).
  cbn [truthy].
  rewrite (bind_run _ _ _ _ _ (arnold_version_unconfigured w s false false H)).
  reflexivity.
Qed.

Lemma houdini_gvd_unconfigured w s :
  unconfigured w s ->
  exists s', Houdini.GetVersionAndDirectory w true s = (Return (None, None), s').
Proof.
  intros (_ & _ & _ & Hh & _). unfold Houdini.GetVersionAndDirectory.
  rewrite (bind_run _ _ _ _ _ (GetArgument_reads _ _)), Hh.
  eexists; reflexivity.
Qed.

Lemma houdini_version_unconfigured w s a f :
  unconfigured w s ->
  fst (Houdini.Version w a f s) = Return (empty_version a).
Proof.
  intros H. destruct (houdini_gvd_unconfigured w s H) as [s' E].
  unfold Houdini.Version. rewrite (bind_run _ _ _ _ _ E).
  now destruct a.
Qed.

Lemma AddHelpOptions_returns tool text s :
  exists s', Excons.AddHelpOptions tool text s = (Return tt, s')
             /\ ARGUMENTS s' = ARGUMENTS s /\ args_cache s' = args_cache s.
Proof. eexists; repeat split. Qed.

Lemma argument_ext s s' name :
  ARGUMENTS s' = ARGUMENTS s -> args_cache s' = args_cache s ->
  argument s' name = argument s name.
Proof. intros Ha Hc. unfold argument. now rewrite Ha, Hc. Qed.

Lemma unconfigured_ext w s s' :
  ARGUMENTS s' = ARGUMENTS s -> args_cache s' = args_cache s ->
  unconfigured w s -> unconfigured w s'.
Proof.
  intros Ha Hc. unfold unconfigured.
  now rewrite !(argument_ext s s' _ Ha Hc).
Qed.

Lemma houdini_require_unconfigured w s env :
  unconfigured w s -> fst (Houdini.Require w env s) = Return env.
Proof.
  intros H. unfold Houdini.Require.
  destruct (AddHelpOptions_returns "houdini" Houdini.GetOptionsString s)
    as (s1 & E1 & Ha & Hc).
  rewrite (bind_run _ _ _ _ _ E1).
  destruct (houdini_gvd_unconfigured w s1 (unconfigured_ext _ _ _ Ha Hc H))
    as [s2 E2].
  rewrite (bind_run _ _ _ _ _ E2). reflexivity.
Qed.

Lemma maya_root_unconfigured w s noWarn :
  unconfigured w s ->
  exists s', Maya.GetMayaRoot w noWarn s = (Return None, s').
Proof.
  intros (_ & _ & _ & _ & Hm & _ & He). unfold Maya.GetMayaRoot.
  rewrite (bind_run _ _ _ _ _ (GetArgument_reads _ _)), Hm.
  erewrite bind_run by reflexivity. rewrite He. cbn [truthy negb].
  destruct noWarn; eexists; reflexivity.
Qed.

Lemma maya_version_unconfigured w s a n :
  unconfigured w s -> fst (Maya.Version w a n s) = Return (empty_version a).
Proof.
  intros H. destruct (maya_root_unconfigured w s true H) as [s' E].
  unfold Maya.Version. rewrite (bind_run _ _ _ _ _ E).
  now destruct a.
Qed.

Lemma maya_require_unconfigured w s env :
  unconfigured w s -> fst (Maya.Require w env s) = Return env.
Proof.
  intros H. unfold Maya.Require.
  destruct (AddHelpOptions_returns "maya" Maya.GetOptionsString s)
    as (s1 & E1 & Ha & Hc).
  rewrite (bind_run _ _ _ _ _ E1).
  destruct (maya_root_unconfigured w s1 false
              (unconfigured_ext _ _ _ Ha Hc H)) as [s2 E2].
  rewrite (bind_run _ _ _ _ _ E2). reflexivity.
Qed.

Lemma python_version_unconfigured w s :
  unconfigured w s -> Python.Version w s = (Return (python_version w), s).
Proof.
  intros (_ & _ & _ & _ & _ & Hp & _). unfold Python.Version.
  now rewrite (bind_run _ _ _ _ _ (GetArgument_reads _ _)), Hp.
Qed.

Lemma python_require_unconfigured w s env ign :
  unconfigured w s ->
  Python.Require w env ign s = Python.require_current w env ign s.
Proof.
  intros (_ & _ & _ & _ & _ & Hp & _). unfold Python.Require.
  now rewrite (bind_run _ _ _ _ _ (GetArgument_reads _ _)), Hp.
Qed.

Lemma require_current_plain w s env :
  Python.config_true (config_var w "PYTHONFRAMEWORK") = false ->
  exists e, fst (Python.require_current w env false s) = Return e
            /\ LIBS e = (LIBS env ++ [current_python_lib w])%list.
Proof.
  intros Hf. unfold Python.require_current, current_python_lib. rewrite Hf.
  destruct (is_win32 (platform w)); eexists; split; reflexivity.
Qed.

(** C2, as amended: with no SDK root configured at all, the Arnold
    [Version] variants return the all-zero default, the Houdini and Maya
    variants the empty default, and the Python [Version] the version of the
    running interpreter; the Houdini and Maya [Require] return normally and
    leave the environment as it was; the Arnold [Require] returns normally
    and adds only its fixed library [ai]; the Python [Require] falls back to
    the running interpreter and, when that is not a framework build, returns
    normally and adds the library of that interpreter. *)
Theorem no_root_defaults (w : World) (s : State) (env : Env) :
  unconfigured w s ->
  (forall a c, fst (Arnold.Version w a c s) = Return (zero_version a c))
  /\ (forall a f, fst (Houdini.Version w a f s) = Return (empty_version a))
  /\ (forall a n, fst (Maya.Version w a n s) = Return (empty_version a))
  /\ fst (Python.Version w s) = Return (python_version w)
  /\ fst (Houdini.Require w env s) = Return env
  /\ fst (Maya.Require w env s) = Return env
  /\ fst (Arnold.Require w env s) = Return (Append_LIBS ["ai"] env)
  /\ (forall ign,
        Python.Require w env ign s = Python.require_current w env ign s)
  /\ (Python.config_true (config_var w "PYTHONFRAMEWORK") = false ->
      exists e, fst (Python.Require w env false s) = Return e
                /\ LIBS e = (LIBS env ++ [current_python_lib w])%list).
Proof.
  intros H. repeat split.
  - intros a c. now rewrite arnold_version_unconfigured.
  - intros a f. now apply houdini_version_unconfigured.
  - intros a n. now apply maya_version_unconfigured.
  - now rewrite python_version_unconfigured.
  - now apply houdini_require_unconfigured.
  - now apply maya_require_unconfigured.
  - now apply arnold_require_unconfigured.
  - intros ign. now apply python_require_unconfigured.
  - intros Hf. rewrite python_require_unconfigured by assumption.
    now apply require_current_plain.
Qed.

Lemma unconfigured_bare : unconfigured bare_world (fresh ∅).
Proof. now repeat split. Qed.

Lemma no_root_defaults_witness :
  fst (Arnold.Require bare_world empty_env (fresh ∅))
  = Return (Append_LIBS ["ai"] empty_env)
  /\ fst (Maya.Require bare_world empty_env (fresh ∅)) = Return empty_env
  /\ fst (Houdini.Require bare_world empty_env (fresh ∅)) = Return empty_env
  /\ fst (Python.Version bare_world (fresh ∅)) = Return "3.9".
Proof.
  assert (H : unconfigured bare_world (fresh ∅)) by now repeat split.
  pose proof (no_root_defaults bare_world (fresh ∅) empty_env H)
    as (_ & _ & _ & Hp & Hh & Hm & Ha & _).
  now repeat split.
Defined.

(** With nothing configured the Arnold [Require] still links against [ai],
    and the Python one against the running interpreter. *)
Example require_with_nothing_configured :
  option_map LIBS
    (match fst (Arnold.Require bare_world empty_env (fresh ∅)) with
     | Return e => Some e
     | _ => None
     end) = Some ["ai"]
  /\ option_map LIBS
       (match fst (Python.Require bare_world empty_env false (fresh ∅)) with
        | Return e => Some e
        | _ => None
        end) = Some ["python3.9"].
Proof. vm_compute. now split. Qed.

(** The property as stated does not hold: the Arnold [Require] changes the
    library list of the bare machine. *)
Lemma no_root_property_fails : ~ no_root_property.
Proof.
  intros H.
  destruct (H bare_world (fresh ∅) empty_env unconfigured_bare)
    as (_ & _ & _ & _ & (e & He & Hl) & _).
  rewrite (arnold_require_unconfigured _ _ _ unconfigured_bare) in He.
  injection He as <-. discriminate Hl.
Qed.

(** ** Python: specifications that are not version numbers *)

Lemma bind_return {A B} (m : M A) (k : A -> M B) s b s2 :
  bind m k s = (Return b, s2) ->
  exists a s1, m s = (Return a, s1) /\ k a s1 = (Return b, s2).
Proof.
  unfold bind. destruct (m s) as [[a|e|c] s1]; try discriminate.
  intros H. now exists a, s1.
Qed.

Lemma from_path_some w spec s ss sp s' :
  Python.from_path w spec s = (Return (ss, sp), s') -> is_Some sp.
Proof.
  unfold Python.from_path. intros H.
  apply bind_return in H as ([[a b] c] & s1 & _ & H).
  destruct b as [candidate|].
  - injection H as <- <- <-. now eexists.
  - apply bind_return in H as (? & ? & _ & H). discriminate H.
Qed.

Lemma get_spec_uncached w spec s :
  _specCache s !! spec = None ->
  Python._GetPythonSpec w spec s
  = bind (if Python.is_version spec
          then bind (Python.from_version w spec) (fun sp => ret (spec, sp))
          else Python.from_path w spec)
      (fun '(specString, sp) =>
         bind match sp with
              | Some candidate =>
                  bind (Python.validate w candidate) (fun checked =>
                    match checked with
                    | Some _ => ret checked
                    | None =>
                        Excons.PrintOnce
                          ("[2] Invalid python specification " ++ dq
                           ++ specString ++ dq ++ ". Aborting build.") >>
                        sys_exit 1
                    end)
              | None => ret None
              end
           (fun sp' =>
              Excons.PrintOnce
                ("Resolved python for " ++ dq ++ specString ++ dq ++ ": "
                 ++ match sp' with
                    | Some x => Python.repr_spec x
                    | None => "<current>"
                    end) >>
              Python.cache_store specString sp' >> ret sp')) s.
Proof.
  intros H. unfold Python._GetPythonSpec.
  erewrite bind_run by reflexivity. rewrite H. reflexivity.
Qed.

(** A specification that is not a version number never resolves to the
    null descriptor. *)
Lemma path_spec_never_null w spec s r :
  _specCache s !! spec = None -> Python.is_version spec = false ->
  fst (Python._GetPythonSpec w spec s) = Return r -> is_Some r.
Proof.
  intros Hc Hv H. apply run_pair in H. rewrite (get_spec_uncached _ _ _ Hc) in H.
  rewrite Hv in H.
  apply bind_return in H as ([ss sp] & s1 & Hp & H).
  apply from_path_some in Hp as [candidate ->].
  apply bind_return in H as (sp' & s2 & Hval & H).
  apply bind_return in Hval as (checked & s3 & _ & Hval).
  destruct checked as [x|].
  - injection Hval as <- _.
    apply bind_return in H as (? & ? & _ & H).
    apply bind_return in H as (? & ? & _ & H).
    injection H as <- _. now eexists.
  - apply bind_return in Hval as (? & ? & _ & Hval). discriminate Hval.
Qed.

(** On the shared-library platforms, a path in which [ldd] shows no
    libpython ends the process. *)
Lemma posix_path_exits w spec s text :
  _specCache s !! spec = None -> Python.is_version spec = false ->
  is_darwin (platform w) = false -> is_win32 (platform w) = false ->
  Python.decode w (shell_out w ("ldd " ++ spec ++ " | grep libpython"))
  = Return text ->
  Python.libpython_search text = None ->
  fst (Python._GetPythonSpec w spec s) = Exit 1
  /\ _specCache (snd (Python._GetPythonSpec w spec s)) = _specCache s
  /\ invalid_message spec ∈ printed (snd (Python._GetPythonSpec w spec s)).
Proof.
  intros Hc Hv Hd Hw Ht Hs. rewrite (get_spec_uncached _ _ _ Hc), Hv.
  unfold Python.from_path.
  assert (E : exists s1,
    Python._GetPythonVersionUNIX w spec s = (Return None, s1)
    /\ _specCache s1 = _specCache s).
  { unfold Python._GetPythonVersionUNIX.
    erewrite bind_run by reflexivity. rewrite Ht.
    erewrite bind_run by reflexivity. rewrite Hs.
    eexists; split; reflexivity. }
  destruct E as (s1 & E & Hc1).
  destruct (platform w); try discriminate.
  all: rewrite !bind_bind, !(bind_run _ _ _ _ _ E).
  all: unfold bind, ret, sys_exit, Excons.PrintOnce, modify; cbn iota beta.
  all: destruct (mem _ (printed s1)) eqn:Em; cbn [fst snd _specCache printed];
    (split; [reflexivity|]); split; try assumption.
  all: try (apply bool_decide_eq_true in Em; exact Em).
  all: apply elem_of_app; right; constructor.
Qed.

(** C4, as amended: the resolver has no no-warn mode and never hands back
    the null descriptor for a specification that is not a version number
    (an existing directory included): what it returns is a validated
    descriptor, and on the shared-library platforms a path in which [ldd]
    shows no libpython makes it print the invalid-specification message and
    end the process with [sys.exit(1)], leaving the cache as it was. *)
Theorem invalid_path_spec_exits (w : World) (s : State) (spec : string) :
  _specCache s !! spec = None -> Python.is_version spec = false ->
  (forall r, fst (Python._GetPythonSpec w spec s) = Return r -> is_Some r)
  /\ (is_darwin (platform w) = false -> is_win32 (platform w) = false ->
      forall text,
        Python.decode w (shell_out w ("ldd " ++ spec ++ " | grep libpython"))
        = Return text ->
        Python.libpython_search text = None ->
        fst (Python._GetPythonSpec w spec s) = Exit 1
        /\ _specCache (snd (Python._GetPythonSpec w spec s)) = _specCache s
        /\ invalid_message spec
           ∈ printed (snd (Python._GetPythonSpec w spec s))).
Proof.
  intros Hc Hv. split.
  - intros r. now apply path_spec_never_null.
  - intros Hd Hw text. now apply posix_path_exits.
Qed.

Lemma invalid_path_spec_exits_witness :
  fst (Python._GetPythonSpec empty_dir_world "/opt/empty" (fresh ∅)) = Exit 1
  /\ _specCache
       (snd (Python._GetPythonSpec empty_dir_world "/opt/empty" (fresh ∅)))
     = ∅
  /\ invalid_message "/opt/empty"
     ∈ printed
         (snd (Python._GetPythonSpec empty_dir_world "/opt/empty" (fresh ∅))).
Proof.
  exact (proj2 (invalid_path_spec_exits empty_dir_world (fresh ∅)
                  "/opt/empty" eq_refl eq_refl)
           eq_refl eq_refl "" eq_refl eq_refl).
Defined.

Lemma empty_dir_no_structure : no_structure empty_dir_world "/opt/empty".
Proof.
  intros p Hp. split; [|reflexivity].
  apply bool_decide_eq_false. intros Hin.
  apply list_elem_of_singleton in Hin. subst p. discriminate Hp.
Qed.

(** The property as stated does not hold: on the empty directory the
    resolver ends the process instead of returning the null descriptor. *)
Lemma null_descriptor_property_fails : ~ null_descriptor_property.
Proof.
  intros H.
  specialize (H empty_dir_world (fresh ∅) "/opt/empty" eq_refl
                empty_dir_no_structure).
  vm_compute in H. discriminate H.
Qed.

(** ** Python: the Cython language level *)

Lemma strip_prefix_app x b : strip_prefix x (x ++ b) = Some b.
Proof.
  induction x as [|c x IH]; [reflexivity|].
  rewrite app_cons. simpl. now rewrite Ascii.eqb_refl.
Qed.

Lemma contains_eq x s :
  contains x s
  = match strip_prefix x s with
    | Some _ => true
    | None => match s with
              | String _ r => contains x r
              | EmptyString => false
              end
    end.
Proof. destruct s; reflexivity. Qed.

Lemma contains_middle x a b : contains x (a ++ x ++ b) = true.
Proof.
  induction a as [|c a IH].
  - now rewrite app_empty, contains_eq, strip_prefix_app.
  - rewrite app_cons, contains_eq.
    destruct (strip_prefix x _); [reflexivity|exact IH].
Qed.

Lemma strip_prefix_more x s r b :
  strip_prefix x s = Some r -> strip_prefix x (s ++ b) = Some (r ++ b).
Proof.
  revert s; induction x as [|c x IH]; intros s; simpl.
  - now intros [= ->].
  - destruct s as [|c' s]; [discriminate|]. rewrite app_cons.
    destruct (Ascii.eqb c c'); [apply IH|discriminate].
Qed.


Lemma contains_app_l x a s : contains x s = true -> contains x (a ++ s) = true.
Proof.
  intros H. induction a as [|c a IH]; [exact H|].
  rewrite app_cons, contains_eq.
  destruct (strip_prefix x _); [reflexivity|exact IH].
Qed.
















(** The caller asked for level 2; interpreter 3.9 makes it 3. *)
Example cython_command_3_9 :
  fst (Python.CythonGenerate bare_world "mod.pyx" None None None false None
         (Some caller_directives) cython_state)
  = Return
      ([("language_level", Python.DInt 3); ("boundscheck", Python.DBool false)],
       Some (Python.mkCommand ["mod.c"; "mod.h"] "mod.pyx"
               ("cython  --directive language_level=3"
                ++ " --directive boundscheck=False"
                ++ " --embed-positions -o $TARGET $SOURCE") "" "")).
Proof. vm_compute. reflexivity. Qed.

(** The caller asked for level 2 and the build is for Python 2.7: level 2;
    and a version written as 3.9e0 is level 3. *)
Example cython_levels_by_version :
  fst (Python.CythonGenerate linux_python_world "mod.pyx" None None None
         false None (Some caller_directives) python27_state)
  = Return
      ([("language_level", Python.DInt 2); ("boundscheck", Python.DBool false)],
       Some (Python.mkCommand ["mod.c"; "mod.h"] "mod.pyx"
               ("cython  --directive language_level=2"
                ++ " --directive boundscheck=False"
                ++ " --embed-positions -o $TARGET $SOURCE") "" ""))
  /\ float_of "3.9e0" = Some (Finite (39 # 10))
  /\ lt_3 (Finite (39 # 10)) = false
  /\ float_of "2.99999999999999999999" = Some (Finite (299999999999999999999 # 100000000000000000000))
  /\ lt_3 (Finite (299999999999999999999 # 100000000000000000000)) = false
  /\ float_of "1_0.5E-1" = Some (Finite (21 # 20))
  /\ float_of "-Infinity" = Some (Inf true)
  /\ float_of "3.7m" = None.
Proof. vm_compute. now repeat split. Qed.

(** ** Python: the descriptor cache *)

(** A call whose specification is in the cache returns the cached value
    and touches nothing. *)
Lemma cached_call w spec s r :
  _specCache s !! spec = Some r ->
  Python._GetPythonSpec w spec s = (Return r, s).
Proof.
  intros H. unfold Python._GetPythonSpec.
  erewrite bind_run by reflexivity. now rewrite H.
Qed.

(** Peels the computation in [H], which returned, down to its last step. *)
Ltac peel H :=
  repeat first
    [ apply bind_return in H as (? & ? & _ & H)
    | match type of H with
      | (if ?b then _ else _) _ = (Return _, _) => destruct b
      | (match ?x with _ => _ end) _ = (Return _, _) => destruct x
      | raise _ _ = (Return _, _) => discriminate H
      | sys_exit _ _ = (Return _, _) => discriminate H
      end ].

Lemma from_path_darwin_key w spec s a b c s' :
  Python.from_path_darwin w spec s = (Return (a, b, c), s') ->
  a = if ends_with_slash spec then drop_last spec else spec.
Proof.
  unfold Python.from_path_darwin. intros H.
  destruct spec as [|x spec]; [discriminate H|].
  set (ss := if ends_with_slash (String x spec) then _ else _) in *.
  clearbody ss. peel H; now injection H as <- _ _.
Qed.

Lemma from_path_key w spec s ss sp s' :
  Python.from_path w spec s = (Return (ss, sp), s') ->
  is_darwin (platform w) = false \/ ends_with_slash spec = false ->
  ss = spec.
Proof.
  unfold Python.from_path. intros H Hk.
  apply bind_return in H as ([[a b] c] & s1 & Hx & H).
  assert (Ha : a = spec).
  { destruct (platform w) eqn:Ep.
    - peel Hx; now injection Hx as <- _ _.
    - apply from_path_darwin_key in Hx. destruct Hk as [Hk|Hk];
        [discriminate Hk|]. now rewrite Hk in Hx.
    - peel Hx; now injection Hx as <- _ _.
    - peel Hx; now injection Hx as <- _ _. }
  subst a. destruct b; peel H. now injection H as <- _.
Qed.

(** When the first call returns, the cache holds its result under the
    specification it was called with, unless that is a path with a trailing
    slash on macOS. *)
Lemma first_call_stores w spec s r :
  fst (Python._GetPythonSpec w spec s) = Return r ->
  is_darwin (platform w) = false \/ Python.is_version spec = true
  \/ ends_with_slash spec = false ->
  _specCache (snd (Python._GetPythonSpec w spec s)) !! spec = Some r.
Proof.
  intros H Hk. apply run_pair in H.
  set (s' := snd (Python._GetPythonSpec w spec s)) in *. clearbody s'.
  destruct (_specCache s !! spec) as [r'|] eqn:Hc.
  - rewrite (cached_call _ _ _ _ Hc) in H. now injection H as <- <-.
  - rewrite (get_spec_uncached _ _ _ Hc) in H.
    apply bind_return in H as ([ss sp] & s1 & Hp & H).
    assert (Hs : ss = spec).
    { destruct (Python.is_version spec) eqn:Ev.
      - peel Hp. now injection Hp as <- _.
      - eapply from_path_key; [exact Hp|].
        destruct Hk as [Hk|[Hk|Hk]]; auto; discriminate. }
    subst ss.
    apply bind_return in H as (sp' & s2 & _ & H).
    apply bind_return in H as ([] & s3 & _ & H).
    apply bind_return in H as ([] & s4 & Hst & H).
    injection H as <- <-. unfold Python.cache_store, modify in Hst.
    injection Hst as <-. cbn. apply lookup_insert_eq.
Qed.

(** Where the key is kept, a second call with the same specification
    returns what the first did, from the cache, without any probe. *)
Lemma second_call_cached w spec s r :
  fst (Python._GetPythonSpec w spec s) = Return r ->
  is_darwin (platform w) = false \/ Python.is_version spec = true
  \/ ends_with_slash spec = false ->
  Python._GetPythonSpec w spec (snd (Python._GetPythonSpec w spec s))
  = (Return r, snd (Python._GetPythonSpec w spec s)).
Proof.
  intros H Hk. apply cached_call. now apply first_call_stores.
Qed.

(** C5, at the input where the code departs from it: on macOS the resolver
    drops the trailing slash of a path specification before it stores the
    result, so the cache holds the descriptor under the shortened string and
    nothing under the string it was called with; a second call with the
    identical string returns the same descriptor but misses the cache and
    makes the four probes of the first call again. *)
Theorem spec_cache_misses_trailing_slash :
  let first := Python._GetPythonSpec framework_world framework_slash (fresh ∅) in
  let second :=
    Python._GetPythonSpec framework_world framework_slash (snd first) in
  fst first = Return (Some framework_spec)
  /\ _specCache (snd first) !! framework_slash = None
  /\ _specCache (snd first) !! framework_bare = Some (Some framework_spec)
  /\ fst second = Return (Some framework_spec)
  /\ length (probes (snd first)) = 4%nat
  /\ probes (snd second) = (probes (snd first) ++ probes (snd first))%list.
Proof. vm_compute. now repeat split. Qed.

(** ** Arnold: definition lines and the digits a FIX value starts with *)

(** A run of characters satisfying [p] that ends the string or is followed
    by a character that does not. *)
Lemma span_run p d rest :
  all_chars p d = true ->
  match rest with String c _ => p c = false | EmptyString => True end ->
  span p (d ++ rest) = (d, rest).
Proof.
  intros Hd Hr. destruct rest as [|c r].
  - rewrite str_app_nil_r. clear Hr.
    induction d as [|x d IH]; [reflexivity|].
    simpl in Hd. apply andb_prop in Hd as [Hx Hd].
    simpl. now rewrite Hx, (IH Hd).
  - now apply span_stop.
Qed.

(** The digits a FIX value starts with are the ones [Version] keeps. *)
Lemma search_digits_leading ds rest :
  is_digits ds = true ->
  match rest with String c _ => is_digit c = false | EmptyString => True end ->
  search_digits (ds ++ rest) = Some ds.
Proof.
  intros Hd Hr. pose proof (is_digits_all _ Hd) as Ha.
  pose proof (span_run is_digit ds rest Ha Hr) as Hs.
  destruct ds as [|c ds]; [discriminate|].
  rewrite app_cons in *. cbn [search_digits].
  simpl in Ha. apply andb_prop in Ha as [Hc _]. rewrite Hc.
  now rewrite Hs.
Qed.

Lemma macro_fix_leading ds rest :
  is_digits ds = true ->
  match rest with String c _ => is_digit c = false | EmptyString => True end ->
  macro_fix (Some (ds ++ rest)) = digits_value ds.
Proof.
  intros Hd Hr. unfold macro_fix. now rewrite (search_digits_leading _ _ Hd Hr).
Qed.

Lemma skip_spaces_nonspace s :
  match s with String c _ => is_space c = false | EmptyString => True end ->
  skip_spaces s = s.
Proof.
  destruct s as [|c r]; [reflexivity|]. intros Hc.
  unfold skip_spaces. now rewrite (span_none _ _ _ Hc).
Qed.

Lemma spaces1_single r :
  match r with String c _ => is_space c = false | EmptyString => True end ->
  spaces1 (String " " r) = Some r.
Proof.
  intros Hr. unfold spaces1. cbn [span].
  change (is_space " ") with true. cbn iota.
  destruct r as [|c r]; [reflexivity|]. now rewrite (span_none _ _ _ Hr).
Qed.

(** A plain definition line of one of the four macros is recognised, with
    its value as written. *)
Lemma defexp_define which v :
  In which ["ARCH_NUM"; "MAJOR_NUM"; "MINOR_NUM"; "FIX"] ->
  is_empty v = false ->
  all_chars (fun c => negb (is_space c)) v = true ->
  Arnold.defexp ("#define AI_VERSION_" ++ which ++ " " ++ v ++ nl)
  = Some (which, v).
Proof.
  intros Hw Hne Hv.
  assert (Hs : span (fun c => negb (is_space c)) (v ++ nl) = (v, nl))
    by (apply span_run; [assumption|reflexivity]).
  assert (Hg : Arnold.nonspace1 (v ++ nl) = Some v)
    by (unfold Arnold.nonspace1; rewrite Hs; cbn [fst]; now rewrite Hne).
  assert (Hf : match v ++ nl with
               | String c _ => is_space c = false
               | EmptyString => True
               end).
  { destruct v as [|c v]; [discriminate|]. rewrite app_cons. simpl in Hv.
    apply andb_prop in Hv as [Hc _]. now apply negb_true_iff in Hc. }
  pose proof (spaces1_single _ Hf) as Hsp.
  unfold Arnold.defexp.
  change ("#define AI_VERSION_" ++ which ++ " " ++ v ++ nl)
    with ("#define" ++ String " " ("AI_VERSION_" ++ which
                                   ++ String " " (v ++ nl))).
  rewrite skip_spaces_nonspace by reflexivity.
  rewrite strip_prefix_app. cbn [andthen].
  rewrite spaces1_single by reflexivity. cbn [andthen].
  rewrite strip_prefix_app. cbn [andthen].
  simpl in Hw. destruct Hw as [<-|[<-|[<-|[<-|[]]]]];
    rewrite !app_cons, app_empty;
    cbn [Arnold.first_alt strip_prefix Ascii.eqb Bool.eqb andthen];
    rewrite Hsp; cbn [andthen]; now rewrite Hg.
Qed.

#[local] Notation "'nonspace'" := (fun c : ascii => negb (is_space c))
  (at level 0).

Lemma span_rest p s :
  match snd (span p s) with
  | String c _ => p c = false
  | EmptyString => True
  end.
Proof.
  induction s as [|c r IH]; simpl; [exact I|].
  destruct (p c) eqn:E; [|exact E].
  destruct (span p r) as [a b]; exact IH.
Qed.

Lemma span_pair p s : span p s = (fst (span p s), snd (span p s)).
Proof. now destruct (span p s). Qed.

Lemma strip_prefix_eq p s x : strip_prefix p s = Some x -> s = p ++ x.
Proof.
  revert s; induction p as [|a p IH]; intros s; simpl.
  - now intros [= ->].
  - destruct s as [|b s]; [discriminate|].
    destruct (Ascii.eqb a b) eqn:E; [|discriminate].
    apply Ascii.eqb_eq in E. subst b. intros H. rewrite app_cons.
    now rewrite <- (IH _ H).
Qed.

Lemma span_prefix p n x :
  all_chars p n = true ->
  span p (n ++ x) = (n ++ fst (span p x), snd (span p x)).
Proof.
  intros H. induction n as [|c n IH].
  - rewrite !app_empty. apply span_pair.
  - simpl in H. apply andb_prop in H as [Hc Hn].
    rewrite !app_cons. simpl. now rewrite Hc, (IH Hn).
Qed.

Lemma skip_spaces_cons c r :
  skip_spaces (String c r) = if is_space c then skip_spaces r else String c r.
Proof.
  unfold skip_spaces. simpl. destruct (is_space c); [|reflexivity].
  now destruct (span is_space r).
Qed.

Lemma skip_spaces_head s :
  match skip_spaces s with
  | String c _ => is_space c = false
  | EmptyString => True
  end.
Proof. apply span_rest. Qed.

(** The words of a string, one at a time. *)
Lemma words_aux_eq s : forall cur,
  words_aux cur s
  = if is_empty (cur ++ fst (span nonspace s))
    then words_aux "" (snd (span nonspace s))
    else (cur ++ fst (span nonspace s)) :: words_aux "" (snd (span nonspace s)).
Proof.
  induction s as [|c r IH]; intros cur.
  - cbn [span fst snd words_aux]. rewrite str_app_nil_r.
    now destruct (is_empty cur).
  - cbn [span words_aux]. destruct (is_space c) eqn:Ec; cbn [negb].
    + cbn [fst snd]. rewrite str_app_nil_r. cbn [words_aux]. rewrite Ec.
      now destruct (is_empty cur).
    + rewrite IH. destruct (span nonspace r) as [t r'] eqn:Es. cbn [fst snd].
      rewrite str_app_assoc, app_cons, app_empty.
      replace (is_empty (cur ++ String c t)) with false
        by (now destruct cur).
      reflexivity.
Qed.

Lemma words_aux_skip s : words_aux "" s = words_aux "" (skip_spaces s).
Proof.
  induction s as [|c r IH]; [reflexivity|].
  rewrite skip_spaces_cons. destruct (is_space c) eqn:Ec; [|reflexivity].
  cbn [words_aux]. rewrite Ec. exact IH.
Qed.

Lemma words_unfold s :
  words s
  = if is_empty (fst (span nonspace (skip_spaces s))) then []
    else fst (span nonspace (skip_spaces s))
         :: words (snd (span nonspace (skip_spaces s))).
Proof.
  unfold words. rewrite words_aux_skip, words_aux_eq, app_empty.
  pose proof (skip_spaces_head s) as Hh.
  destruct (skip_spaces s) as [|c r]; [reflexivity|].
  cbn [span]. rewrite Hh. cbn [negb].
  now destruct (span nonspace r).
Qed.

Lemma andthen_assoc {A B C} (o : option A) (f : A -> option B)
    (g : B -> option C) :
  andthen o (fun a => andthen (f a) g) = andthen (andthen o f) g.
Proof. now destruct o. Qed.

Lemma spaces1_skip x :
  spaces1 x = if is_empty (fst (span is_space x)) then None
              else Some (skip_spaces x).
Proof. unfold spaces1, skip_spaces. now destruct (span is_space x). Qed.

Lemma str_length_app a b :
  String.length (a ++ b) = (String.length a + String.length b)%nat.
Proof.
  induction a as [|c a IH]; [reflexivity|].
  rewrite app_cons. cbn [String.length]. now rewrite IH.
Qed.

Lemma app_longer n c t : String.eqb (n ++ String c t) n = false.
Proof.
  apply String.eqb_neq. intros H.
  apply (f_equal String.length) in H.
  rewrite str_length_app in H. cbn [String.length] in H. lia.
Qed.

(** A word [n] followed by white space, and then something else. *)
Lemma tok_step {B} n x (k : string -> option B) :
  all_chars nonspace n = true ->
  andthen (andthen (strip_prefix n x) spaces1) k
  = if String.eqb (fst (span nonspace x)) n
       && negb (is_empty (snd (span nonspace x)))
    then k (skip_spaces (snd (span nonspace x))) else None.
Proof.
  intros Hn. destruct (strip_prefix n x) as [x4|] eqn:E; cbn [andthen].
  - apply strip_prefix_eq in E. subst x. rewrite (span_prefix _ _ _ Hn).
    cbn [fst snd]. rewrite spaces1_skip.
    destruct x4 as [|c r].
    + cbn [span fst snd is_empty negb andthen]. now rewrite andb_false_r.
    + cbn [span]. destruct (is_space c) eqn:Ec; cbn [negb].
      * cbn [fst snd is_empty negb]. rewrite str_app_nil_r, String.eqb_refl.
        cbn [andb]. destruct (span is_space r); reflexivity.
      * cbn [fst is_empty andthen].
        destruct (span nonspace r) as [t r']. cbn [fst snd].
        now rewrite app_longer.
  - destruct (String.eqb (fst (span nonspace x)) n) eqn:Eq; [|reflexivity].
    apply String.eqb_eq in Eq. exfalso.
    pose proof (span_app nonspace x) as Hx. rewrite Eq in Hx.
    rewrite <- Hx, strip_prefix_app in E. discriminate E.
Qed.

Lemma nonspace1_eq x :
  Arnold.nonspace1 x
  = if is_empty (fst (span nonspace x)) then None
    else Some (fst (span nonspace x)).
Proof. reflexivity. Qed.

(** The alternation, in terms of the word it is tried on and the word that
    follows. *)
Lemma first_alt_words x :
  Arnold.first_alt version_macros x
  = if existsb (String.eqb (fst (span nonspace x))) version_macros
    then (if is_empty (fst (span nonspace
                               (skip_spaces (snd (span nonspace x)))))
          then None
          else Some (fst (span nonspace x),
                     fst (span nonspace
                            (skip_spaces (snd (span nonspace x))))))
    else None.
Proof.
  unfold version_macros. cbn [Arnold.first_alt existsb].
  rewrite (tok_step "ARCH_NUM" _ _ eq_refl), (tok_step "MAJOR_NUM" _ _ eq_refl),
    (tok_step "MINOR_NUM" _ _ eq_refl), (tok_step "FIX" _ _ eq_refl),
    !nonspace1_eq.
  set (w := fst (span nonspace x)).
  set (r := snd (span nonspace x)).
  set (t := fst (span nonspace (skip_spaces r))).
  assert (Hr : is_empty r = true -> is_empty t = true).
  { subst t. destruct r; [reflexivity|discriminate]. }
  destruct (is_empty r) eqn:Er; cbn [negb].
  { rewrite (Hr eq_refl), !andb_false_r.
    now destruct (_ || _). }
  rewrite !andb_true_r.
  destruct (String.eqb w "ARCH_NUM") eqn:E1.
  { apply String.eqb_eq in E1. rewrite E1. cbn. now destruct (is_empty t). }
  destruct (String.eqb w "MAJOR_NUM") eqn:E2.
  { apply String.eqb_eq in E2. rewrite E2. cbn. now destruct (is_empty t). }
  destruct (String.eqb w "MINOR_NUM") eqn:E3.
  { apply String.eqb_eq in E3. rewrite E3. cbn. now destruct (is_empty t). }
  destruct (String.eqb w "FIX") eqn:E4.
  { apply String.eqb_eq in E4. rewrite E4. cbn. now destruct (is_empty t). }
  reflexivity.
Qed.

Lemma strip_prefix_word p x :
  all_chars nonspace p = true ->
  strip_prefix p (fst (span nonspace x))
  = match strip_prefix p x with
    | Some y => Some (fst (span nonspace y))
    | None => None
    end.
Proof.
  intros Hp. destruct (strip_prefix p x) as [y|] eqn:E.
  - apply strip_prefix_eq in E. subst x. rewrite (span_prefix _ _ _ Hp).
    cbn [fst]. apply strip_prefix_app.
  - destruct (strip_prefix p (fst (span nonspace x))) as [z|] eqn:Ez;
      [|reflexivity].
    apply (strip_prefix_more _ _ _ (snd (span nonspace x))) in Ez.
    rewrite span_app in Ez. congruence.
Qed.

(** The regular expression of [Version] and the reading of a line by its
    words agree on every line. *)
Lemma defexp_macro_of_line line : Arnold.defexp line = macro_of_line line.
Proof.
  unfold Arnold.defexp, macro_of_line.
  rewrite (andthen_assoc _ spaces1 _), (tok_step "#define" _ _ eq_refl).
  rewrite words_unfold.
  remember (skip_spaces line) as l1 eqn:Hl1.
  remember (fst (span nonspace l1)) as t0 eqn:Ht0.
  remember (snd (span nonspace l1)) as r0 eqn:Hr0.
  destruct (String.eqb t0 "#define") eqn:E0; cbn [andb].
  2:{ destruct (is_empty t0); [reflexivity|].
      destruct (words r0) as [|name [|val rest]]; try reflexivity.
      now rewrite E0. }
  apply String.eqb_eq in E0. rewrite E0. cbn [is_empty].
  rewrite String.eqb_refl.
  rewrite words_unfold.
  remember (skip_spaces r0) as l2 eqn:Hl2.
  destruct (is_empty r0) eqn:Er0; cbn [negb].
  { destruct r0; [|discriminate]. subst l2. reflexivity. }
  pose proof (strip_prefix_word "AI_VERSION_" l2 eq_refl) as Hw.
  destruct (strip_prefix "AI_VERSION_" l2) as [x3|] eqn:E2; cbn [andthen].
  - pose proof (strip_prefix_eq _ _ _ E2) as Hx.
    pose proof (span_prefix nonspace "AI_VERSION_" x3 eq_refl) as Hs.
    rewrite <- Hx in Hs. rewrite Hs in *. cbn [fst snd] in *.
    change ["ARCH_NUM"; "MAJOR_NUM"; "MINOR_NUM"; "FIX"] with version_macros.
    rewrite first_alt_words, words_unfold.
    change (is_empty ("AI_VERSION_" ++ fst (span nonspace x3))) with false.
    cbn iota. rewrite Hw.
    destruct (is_empty (fst (span nonspace (skip_spaces _))));
      [now destruct (existsb _ _)|reflexivity].
  - destruct (is_empty (fst (span nonspace l2))); [reflexivity|].
    rewrite words_unfold.
    destruct (is_empty (fst (span nonspace (skip_spaces _))));
      [reflexivity|]. now rewrite Hw.
Qed.

Lemma last_def_macro which lines : last_def which lines = last_macro which lines.
Proof.
  induction lines as [|l r IH]; [reflexivity|].
  cbn [last_def last_macro]. now rewrite IH, defexp_macro_of_line.
Qed.

Lemma numeric_macros_header lines : numeric_macros lines = numeric_header lines.
Proof.
  unfold numeric_macros, numeric_header.
  induction lines as [|l r IH]; [reflexivity|].
  cbn [forallb]. now rewrite IH, defexp_macro_of_line.
Qed.

Lemma leading_digits_span s : leading_digits s = fst (span is_digit s).
Proof.
  induction s as [|c r IH]; [reflexivity|]. cbn [leading_digits span].
  destruct (is_digit c); [|reflexivity].
  rewrite IH. now destruct (span is_digit r).
Qed.

(** The search for digits finds the first run of digits, if there is one. *)
Lemma search_digits_run v :
  search_digits v
  = if is_empty (first_digit_run v) then None else Some (first_digit_run v).
Proof.
  induction v as [|c r IH]; [reflexivity|].
  cbn [search_digits first_digit_run]. destruct (is_digit c) eqn:Ec.
  - rewrite leading_digits_span. cbn [span]. rewrite Ec.
    now destruct (span is_digit r).
  - exact IH.
Qed.

Lemma macro_fix_number o : macro_fix o = fix_number o.
Proof.
  destruct o as [v|]; [|reflexivity]. unfold macro_fix, fix_number.
  rewrite search_digits_run.
  now destruct (first_digit_run v).
Qed.

(** C1: when the Arnold include directory holds [ai_version.h], [Version]
    returns the four numbers the header gives the macros
    [AI_VERSION_ARCH_NUM], [AI_VERSION_MAJOR_NUM], [AI_VERSION_MINOR_NUM] and
    [AI_VERSION_FIX], in that order, as a tuple and as a dotted string.  A
    line gives a macro a value when its first three words are [#define], the
    name of the macro and the value, however the line is indented and spaced
    and whatever follows; the last such line of a macro counts.  The three
    numeric macros need digits for their values; of the value of
    [AI_VERSION_FIX] the first run of digits is taken, or zero when it has
    none; a macro the header does not define contributes zero. *)
Theorem arnold_version_macros (w : World) (s : State) (inc : string)
    (lib : option string) :
  fst (Excons.GetDirs "arnold" (Arnold.libdirname w) s)
  = Return (Some inc, lib) ->
  isfile w (Excons.joinpath [inc; "ai_version.h"]) = true ->
  numeric_header
    (readlines (file_text w (Excons.joinpath [inc; "ai_version.h"]))) = true ->
  let lines :=
    readlines (file_text w (Excons.joinpath [inc; "ai_version.h"])) in
  let varch := macro_number (last_macro "ARCH_NUM" lines) in
  let vmaj := macro_number (last_macro "MAJOR_NUM" lines) in
  let vmin := macro_number (last_macro "MINOR_NUM" lines) in
  let vfix := fix_number (last_macro "FIX" lines) in
  fst (Arnold.Version w false false s)
  = Return (VTuple [varch; vmaj; vmin; vfix])
  /\ fst (Arnold.Version w true false s)
     = Return (VStr (str varch ++ "." ++ str vmaj ++ "." ++ str vmin ++ "."
                     ++ str vfix)).
Proof.
  intros Hd Hf Hn lines varch vmaj vmin vfix.
  rewrite <- numeric_macros_header in Hn.
  pose proof (arnold_version_scanned w s inc lib Hd Hf Hn) as H.
  cbn zeta in H. rewrite !last_def_macro, macro_fix_number in H.
  exact H.
Qed.

(** The fabricated header with 7, 1, 2 and 3abc gives (7, 1, 2, 3) and
    7.1.2.3; so does a header that is indented, spaced with tabs and
    commented, whose first major number is replaced and whose FIX value has
    its digits after a letter. *)
Lemma arnold_version_fabricated :
  (fst (Arnold.Version arnold_world false false (fresh arnold_args))
   = Return (VTuple [7; 1; 2; 3])
   /\ fst (Arnold.Version arnold_world true false (fresh arnold_args))
      = Return (VStr "7.1.2.3"))
  /\ (fst (Arnold.Version indented_arnold_world false false (fresh arnold_args))
      = Return (VTuple [7; 1; 2; 3])
      /\ fst (Arnold.Version indented_arnold_world true false
                (fresh arnold_args))
         = Return (VStr "7.1.2.3")).
Proof.
  split.
  - exact (arnold_version_macros arnold_world (fresh arnold_args)
             "/opt/arnold/include" (Some "/opt/arnold/bin")
             eq_refl eq_refl eq_refl).
  - exact (arnold_version_macros indented_arnold_world (fresh arnold_args)
             "/opt/arnold/include" (Some "/opt/arnold/bin")
             eq_refl eq_refl eq_refl).
Defined.

(** * Further properties *)

(** ** Arnold: the shapes of a version, and what [Require] adds *)

(** [Version] parses once and renders: its four shapes show one tuple, or
    all fail alike. *)
Lemma arnold_version_shapes w s :
  exists o : outcome (Z * Z * Z * Z),
    forall a c,
      fst (Arnold.Version w a c s)
      = obind o (fun rv => Return (Arnold.render a c rv)).
Proof.
  destruct (GetDirs_reads "arnold" (Arnold.libdirname w) s) as [[inc lib] E].
  destruct inc as [inc|].
  - destruct (isfile w (Excons.joinpath [inc; "ai_version.h"])) eqn:Hf.
    + exists (Arnold.scan_lines
                (readlines
                   (file_text w (Excons.joinpath [inc; "ai_version.h"])))
                (0, 0, 0, 0)).
      intros a c. unfold Arnold.Version. rewrite (bind_run _ _ _ _ _ E).
      erewrite bind_run by reflexivity. rewrite Hf.
      rewrite bind_bind. erewrite bind_run by reflexivity.
      unfold lift, bind. now destruct (Arnold.scan_lines _ _).
    + exists (Return (0, 0, 0, 0)). intros a c. unfold Arnold.Version.
      rewrite (bind_run _ _ _ _ _ E). erewrite bind_run by reflexivity.
      now rewrite Hf.
  - exists (Return (0, 0, 0, 0)). intros a c. unfold Arnold.Version.
    rewrite (bind_run _ _ _ _ _ E). now destruct a, c.
Qed.

(** X1: the compatibility version is the first two numbers of the full
    one, and the string forms are the same numbers joined with dots: once
    the four-number tuple is known, the other three shapes follow. *)
Theorem arnold_compat_is_prefix (w : World) (s : State) (a b c d : Z) :
  fst (Arnold.Version w false false s) = Return (VTuple [a; b; c; d]) ->
  fst (Arnold.Version w false true s) = Return (VTuple [a; b])
  /\ fst (Arnold.Version w true true s) = Return (VStr (str a ++ "." ++ str b))
  /\ fst (Arnold.Version w true false s)
     = Return (VStr (str a ++ "." ++ str b ++ "." ++ str c ++ "." ++ str d)).
Proof.
  intros H.
  destruct (arnold_version_shapes w s) as [[rv|e|n] E];
    rewrite E in H; try discriminate H.
  destruct rv as [[[a' b'] c'] d']. injection H as -> -> -> ->.
  rewrite !E. now repeat split.
Qed.

Lemma arnold_compat_is_prefix_witness :
  fst (Arnold.Version arnold_world false true (fresh arnold_args))
  = Return (VTuple [7; 1])
  /\ fst (Arnold.Version arnold_world true true (fresh arnold_args))
     = Return (VStr (str 7 ++ "." ++ str 1))
  /\ fst (Arnold.Version arnold_world true false (fresh arnold_args))
     = Return (VStr (str 7 ++ "." ++ str 1 ++ "." ++ str 2 ++ "." ++ str 3)).
Proof.
  exact (arnold_compat_is_prefix arnold_world (fresh arnold_args) 7 1 2 3
           eq_refl).
Defined.

Lemma scan_lines_app pre rest acc :
  Arnold.scan_lines (pre ++ rest)%list acc
  = obind (Arnold.scan_lines pre acc) (Arnold.scan_lines rest).
Proof.
  revert acc; induction pre as [|l pre IH]; intros acc; [reflexivity|].
  cbn [app Arnold.scan_lines].
  destruct (Arnold.scan_line acc l); cbn [obind]; [apply IH|reflexivity..].
Qed.

(** X2: a header in which ARCH_NUM, MAJOR_NUM or MINOR_NUM is defined
    with a value [int] does not accept makes [Version] raise [ValueError],
    in every shape asked for; only FIX is parsed leniently. *)
Theorem arnold_bad_number_raises (w : World) (s : State) (inc : string)
    (lib : option string) (pre post : list string) (l which g : string)
    (asString compat : bool) :
  fst (Excons.GetDirs "arnold" (Arnold.libdirname w) s)
  = Return (Some inc, lib) ->
  isfile w (Excons.joinpath [inc; "ai_version.h"]) = true ->
  readlines (file_text w (Excons.joinpath [inc; "ai_version.h"]))
  = (pre ++ l :: post)%list ->
  numeric_macros pre = true ->
  Arnold.defexp l = Some (which, g) ->
  which <> "FIX" ->
  int g = None ->
  fst (Arnold.Version w asString compat s) = Raise "ValueError".
Proof.
  intros Hd Hf Hl Hn Hm Hw Hi. apply GetDirs_fst in Hd.
  unfold Arnold.Version. rewrite (bind_run _ _ _ _ _ Hd).
  erewrite bind_run by reflexivity. rewrite Hf.
  rewrite bind_bind. erewrite bind_run by reflexivity.
  rewrite Hl, scan_lines_app, (scan_lines_last _ 0 0 0 0 Hn).
  cbn [obind Arnold.scan_lines]. unfold Arnold.scan_line. rewrite Hm.
  unfold to_int. rewrite Hi.
  destruct (defexp_which _ _ _ Hm) as [-> | [-> | [-> | ->]]];
    try contradiction; reflexivity.
Qed.

Lemma arnold_bad_number_raises_witness :
  fst (Arnold.Version broken_arnold_world true false (fresh arnold_args))
  = Raise "ValueError".
Proof.
  exact (arnold_bad_number_raises broken_arnold_world (fresh arnold_args)
           "/opt/arnold/include" (Some "/opt/arnold/bin")
           ["#define AI_VERSION_ARCH_NUM 7" ++ nl]
           ["#define AI_VERSION_MINOR_NUM 2" ++ nl]
           ("#define AI_VERSION_MAJOR_NUM 1.2" ++ nl) "MAJOR_NUM" "1.2"
           true false eq_refl eq_refl eq_refl eq_refl eq_refl
           ltac:(discriminate) eq_refl).
Defined.

Lemma contains_self x : contains x x = true.
Proof.
  pose proof (contains_middle x "" "") as H.
  now rewrite app_empty, str_app_nil_r in H.
Qed.

Lemma contains_join_last sep l x :
  contains x (join sep (l ++ [x])%list) = true.
Proof.
  induction l as [|y l IH]; [apply contains_self|].
  cbn [app join]. destruct (l ++ [x])%list eqn:E.
  - now destruct l.
  - do 2 apply contains_app_l. exact IH.
Qed.

Lemma when_returns b (m : M unit) s :
  (forall s0, exists s1, m s0 = (Return tt, s1)) ->
  exists s', when b m s = (Return tt, s').
Proof. intros Hm. destruct b; [apply Hm|now eexists]. Qed.

(** X3: whenever [Require] returns, it has appended the include and
    library directories that are set, the library [ai], and at most the
    C++11 flag; the other construction variables are as they were. *)
Theorem arnold_require_effect (w : World) (env e : Env) (s : State)
    (inc lib : option string) :
  fst (Excons.GetDirs "arnold" (Arnold.libdirname w) s) = Return (inc, lib) ->
  fst (Arnold.Require w env s) = Return e ->
  CPPPATH e = (CPPPATH env ++ if truthy inc then option_list inc else [])%list
  /\ LIBPATH e
     = (LIBPATH env ++ if truthy lib then option_list lib else [])%list
  /\ LIBS e = (LIBS env ++ ["ai"])%list
  /\ CPPDEFINES e = CPPDEFINES env
  /\ CCFLAGS e = CCFLAGS env
  /\ CPPFLAGS e = CPPFLAGS env
  /\ LINKFLAGS e = LINKFLAGS env
  /\ (CXXFLAGS e = CXXFLAGS env
      \/ CXXFLAGS e = (CXXFLAGS env ++ ["-std=c++11"])%list).
Proof.
  intros Hd H. apply GetDirs_fst in Hd. apply run_pair in H.
  unfold Arnold.Require in H. rewrite (bind_run _ _ _ _ _ Hd) in H.
  apply bind_return in H as (aver & s1 & _ & H).
  apply bind_return in H as ([] & s2 & _ & H).
  apply bind_return in H as (env2 & s3 & Hb & H).
  apply bind_return in H as ([] & s4 & _ & H).
  injection H as <- _.
  assert (He : env2
               = (if truthy lib then Append_LIBPATH (option_list lib)
                    (if truthy inc then Append_CPPPATH (option_list inc) env
                     else env)
                  else (if truthy inc then Append_CPPPATH (option_list inc) env
                        else env))
               \/ env2
                  = Append_CXXFLAGS " -std=c++11"
                      (if truthy lib then Append_LIBPATH (option_list lib)
                         (if truthy inc
                          then Append_CPPPATH (option_list inc) env else env)
                       else (if truthy inc
                             then Append_CPPPATH (option_list inc) env
                             else env))).
  { destruct (_ && _) in Hb.
    - apply bind_return in Hb as (u & s5 & _ & Hb).
      apply bind_return in Hb as ([] & s6 & _ & Hb).
      injection Hb as <- _. destruct (contains _ _); auto.
    - injection Hb as <- _. now left. }
  destruct He as [-> | ->]; destruct (truthy lib), (truthy inc); cbn;
    rewrite ?app_nil_r; repeat split; auto.
Qed.

Lemma arnold_require_effect_witness :
  CPPPATH arnold_env_after
  = (CPPPATH empty_env
     ++ if truthy (Some "/opt/arnold/include")
        then option_list (Some "/opt/arnold/include") else [])%list
  /\ LIBPATH arnold_env_after
     = (LIBPATH empty_env
        ++ if truthy (Some "/opt/arnold/bin")
           then option_list (Some "/opt/arnold/bin") else [])%list
  /\ LIBS arnold_env_after = (LIBS empty_env ++ ["ai"])%list
  /\ CPPDEFINES arnold_env_after = CPPDEFINES empty_env
  /\ CCFLAGS arnold_env_after = CCFLAGS empty_env
  /\ CPPFLAGS arnold_env_after = CPPFLAGS empty_env
  /\ LINKFLAGS arnold_env_after = LINKFLAGS empty_env
  /\ (CXXFLAGS arnold_env_after = CXXFLAGS empty_env
      \/ CXXFLAGS arnold_env_after
         = (CXXFLAGS empty_env ++ ["-std=c++11"])%list).
Proof.
  exact (arnold_require_effect arnold_world empty_env arnold_env_after
           (fresh arnold_args) (Some "/opt/arnold/include")
           (Some "/opt/arnold/bin") eq_refl eq_refl).
Defined.

(** X4: Arnold 6 and later on a platform other than Windows: the C++11
    flag is among the C++ flags afterwards, and an environment that already
    has it keeps its C++ flags as they are. *)
Theorem arnold_require_cxx11 (w : World) (env e : Env) (s : State) (a : Z)
    (rest : list Z) :
  fst (Arnold.Version w false false s) = Return (VTuple (a :: rest)) ->
  6 <= a ->
  is_win32 (platform w) = false ->
  fst (Arnold.Require w env s) = Return e ->
  contains "-std=c++11" (join " " (CXXFLAGS e)) = true
  /\ (contains "-std=c++11" (join " " (CXXFLAGS env)) = true ->
      CXXFLAGS e = CXXFLAGS env).
Proof.
  intros Hv Ha Hw H. apply run_pair in Hv. apply run_pair in H.
  destruct (GetDirs_reads "arnold" (Arnold.libdirname w) s) as [[inc lib] Hd].
  unfold Arnold.Require in H. rewrite (bind_run _ _ _ _ _ Hd) in H.
  rewrite (bind_run _ _ _ _ _ Hv) in H.
  apply bind_return in H as ([] & s2 & _ & H).
  apply bind_return in H as (env2 & s3 & Hb & H).
  apply bind_return in H as ([] & s4 & _ & H).
  injection H as <- _.
  rewrite Hw in Hb. replace (6 <=? a) with true in Hb by (symmetry; lia).
  cbn [andb negb] in Hb.
  apply bind_return in Hb as (u & s5 & _ & Hb).
  apply bind_return in Hb as ([] & s6 & _ & Hb).
  injection Hb as <- _.
  set (env1 := if truthy lib then _ else _).
  assert (Hc : CXXFLAGS env1 = CXXFLAGS env)
    by (subst env1; now destruct (truthy lib), (truthy inc)).
  rewrite Hc. destruct (contains "-std=c++11" (join " " (CXXFLAGS env))) eqn:Ec.
  - cbn. rewrite Hc. now split.
  - cbn. rewrite Hc. split; [|discriminate].
    apply contains_join_last.
Qed.

Lemma arnold_require_cxx11_witness :
  contains "-std=c++11" (join " " (CXXFLAGS arnold_env_after)) = true
  /\ (contains "-std=c++11" (join " " (CXXFLAGS empty_env)) = true ->
      CXXFLAGS arnold_env_after = CXXFLAGS empty_env).
Proof.
  exact (arnold_require_cxx11 arnold_world empty_env arnold_env_after
           (fresh arnold_args) 7 [1; 2; 3] eq_refl ltac:(lia) eq_refl
           eq_refl).
Defined.

(** ** Houdini: what the resolver returns, and what depends on it *)

(** Every run of the resolver, spelled out: the specification is read, at
    most two directories are looked at, and the end is a failure with a
    message or a version with a root that is a directory; [noexc] only
    chooses how a failure is reported. *)
Lemma houdini_run_cases w s :
  exists s1 l,
    only_probed s s1 l
    /\ ((exists msg,
           houdini_failure w s msg
           /\ forall noexc,
                Houdini.GetVersionAndDirectory w noexc s
                = Houdini.fail noexc msg s1)
        \/ (exists ver hfs,
              (forall noexc,
                 Houdini.GetVersionAndDirectory w noexc s
                 = (Return (Some ver, Some hfs), s1))
              /\ isdir w hfs = true /\ dotted ver)).
Proof.
  unfold Houdini.GetVersionAndDirectory.
  destruct (argument s "with-houdini") as [h|] eqn:Ha.
  - destruct (isdir w h) eqn:Hd.
    + destruct (Houdini.verexp_search h) as [g|] eqn:Hm.
      * exists (mkState (ARGUMENTS s) (args_cache s) (warned s) (printed s)
                  (stdout s) (help_options s)
                  ((probes s ++ [PIsDir h]) ++ [PIsDir (Houdini.given_root w h)])
                  (_specCache s) (_cython s)),
          [PIsDir h; PIsDir (Houdini.given_root w h)].
        split; [repeat split; cbn; now rewrite <- ?app_assoc|].
        destruct (isdir w (Houdini.given_root w h)) eqn:Hr.
        -- right. exists g, (Houdini.given_root w h).
           split; [|split; [exact Hr|exact (verexp_search_dotted _ _ Hm)]].
           intros noexc.
           rewrite (bind_run _ _ _ _ _ (GetArgument_reads _ _)), Ha.
           erewrite bind_run by reflexivity. rewrite Hd, Hm. cbn [negb].
           erewrite bind_run by reflexivity. rewrite Hr. reflexivity.
        -- left. eexists.
           split; [exact (hf_root_of_path w s h Ha Hd (ex_intro _ g Hm) Hr)|].
           intros noexc.
           rewrite (bind_run _ _ _ _ _ (GetArgument_reads _ _)), Ha.
           erewrite bind_run by reflexivity. rewrite Hd, Hm. cbn [negb].
           erewrite bind_run by reflexivity. rewrite Hr. reflexivity.
      * exists (mkState (ARGUMENTS s) (args_cache s) (warned s) (printed s)
                  (stdout s) (help_options s) (probes s ++ [PIsDir h])
                  (_specCache s) (_cython s)), [PIsDir h].
        split; [now repeat split|].
        left. eexists. split; [exact (hf_path w s h Ha Hd Hm)|].
        intros noexc.
        rewrite (bind_run _ _ _ _ _ (GetArgument_reads _ _)), Ha.
        erewrite bind_run by reflexivity. rewrite Hd, Hm. reflexivity.
    + destruct (Houdini.verexp_match h) as [g|] eqn:Hm.
      * exists (mkState (ARGUMENTS s) (args_cache s) (warned s) (printed s)
                  (stdout s) (help_options s)
                  ((probes s ++ [PIsDir h])
                   ++ [PIsDir (Houdini.install_root w h)])
                  (_specCache s) (_cython s)),
          [PIsDir h; PIsDir (Houdini.install_root w h)].
        split; [repeat split; cbn; now rewrite <- ?app_assoc|].
        destruct (isdir w (Houdini.install_root w h)) eqn:Hr.
        -- right. exists h, (Houdini.install_root w h).
           split; [|split; [exact Hr
                           |exact (proj1 (verexp_match_dotted _ _ Hm))]].
           intros noexc.
           rewrite (bind_run _ _ _ _ _ (GetArgument_reads _ _)), Ha.
           erewrite bind_run by reflexivity. rewrite Hd, Hm. cbn [negb].
           erewrite bind_run by reflexivity. rewrite Hr. reflexivity.
        -- left. eexists.
           split;
             [exact (hf_root_of_version w s h Ha Hd (ex_intro _ g Hm) Hr)|].
           intros noexc.
           rewrite (bind_run _ _ _ _ _ (GetArgument_reads _ _)), Ha.
           erewrite bind_run by reflexivity. rewrite Hd, Hm. cbn [negb].
           erewrite bind_run by reflexivity. rewrite Hr. reflexivity.
      * exists (mkState (ARGUMENTS s) (args_cache s) (warned s) (printed s)
                  (stdout s) (help_options s) (probes s ++ [PIsDir h])
                  (_specCache s) (_cython s)), [PIsDir h].
        split; [now repeat split|].
        left. eexists. split; [exact (hf_format w s h Ha Hd Hm)|].
        intros noexc.
        rewrite (bind_run _ _ _ _ _ (GetArgument_reads _ _)), Ha.
        erewrite bind_run by reflexivity. rewrite Hd, Hm. reflexivity.
  - exists s, []. split; [repeat split; cbn; now rewrite ?app_nil_r|].
    left. eexists. split; [exact (hf_missing w s Ha)|].
    intros noexc.
    rewrite (bind_run _ _ _ _ _ (GetArgument_reads _ _)), Ha. reflexivity.
Qed.

Lemma fail_fst noexc msg s :
  fst (Houdini.fail noexc msg s)
  = if noexc then Return (None, None) else Raise msg.
Proof. now destruct noexc. Qed.

Lemma fail_true msg s :
  exists s',
    Houdini.fail true msg s = (Return (None, None), s')
    /\ warned s' = warn_once (warned s) msg
    /\ ARGUMENTS s' = ARGUMENTS s /\ stdout s' = stdout s
    /\ probes s' = probes s.
Proof.
  unfold Houdini.fail, Excons.WarnOnce, bind, modify, ret, warn_once. cbn.
  eexists. split; [reflexivity|]. now destruct (mem msg (warned s)).
Qed.

(** X5: what the resolver hands back is nothing at all, and then only in
    [noexc] mode, or a version that starts with two dotted numbers together
    with a root that is a directory; never one without the other. *)
Theorem houdini_result_shape (w : World) (s : State) (noexc : bool)
    (ov oh : option string) :
  fst (Houdini.GetVersionAndDirectory w noexc s) = Return (ov, oh) ->
  match ov, oh with
  | None, None => noexc = true
  | Some ver, Some hfs => isdir w hfs = true /\ dotted ver
  | _, _ => False
  end.
Proof.
  destruct (houdini_run_cases w s)
    as (s1 & l & _ & [(msg & _ & E)|(ver & hfs & E & Hd & Hv)]); rewrite E.
  - rewrite fail_fst. destruct noexc; [|discriminate]. now intros [= <- <-].
  - cbn. now intros [= <- <-].
Qed.

Lemma houdini_result_shape_witness :
  isdir houdini_world "/opt/hfs18.5.351" = true /\ dotted "18.5.351".
Proof.
  exact (houdini_result_shape houdini_world (fresh houdini_args) false
           (Some "18.5.351") (Some "/opt/hfs18.5.351") eq_refl).
Defined.

(** X6: when the resolver succeeds, [noexc] makes no difference at all:
    the result and everything the run leaves behind are the same. *)
Theorem houdini_noexc_only_matters_on_failure (w : World) (s : State)
    (r : option string * option string) :
  fst (Houdini.GetVersionAndDirectory w false s) = Return r ->
  Houdini.GetVersionAndDirectory w true s
  = Houdini.GetVersionAndDirectory w false s.
Proof.
  destruct (houdini_run_cases w s)
    as (s1 & l & _ & [(msg & _ & E)|(ver & hfs & E & _)]); rewrite !E.
  - discriminate.
  - reflexivity.
Qed.

Lemma houdini_noexc_only_matters_on_failure_witness :
  Houdini.GetVersionAndDirectory houdini_world true (fresh houdini_args)
  = Houdini.GetVersionAndDirectory houdini_world false (fresh houdini_args).
Proof.
  exact (houdini_noexc_only_matters_on_failure houdini_world
           (fresh houdini_args) (Some "18.5.351", Some "/opt/hfs18.5.351")
           eq_refl).
Defined.

(** The version as a string is always there: [""] when nothing resolves. *)
Lemma houdini_version_string w full s :
  exists v s2,
    Houdini.Version w true full s = (Return (VStr v), s2)
    /\ ARGUMENTS s2 = ARGUMENTS s /\ stdout s2 = stdout s.
Proof.
  unfold Houdini.Version.
  destruct (houdini_run_cases w s)
    as (s1 & l & Hp & [(msg & _ & E)|(ver & hfs & E & _)]);
    destruct Hp as (Ha & _ & _ & _ & Ho & _).
  - destruct (fail_true msg s1) as (s2 & E2 & _ & Ha2 & Ho2 & _).
    exists "", s2. rewrite (bind_run _ _ _ _ _ (eq_trans (E true) E2)).
    split; [reflexivity|]. split; congruence.
  - eexists. exists s1. rewrite (bind_run _ _ _ _ _ (E true)).
    split; [reflexivity|]. now split.
Qed.

(** X7: on Linux, when [devtoolset] is not on the command line,
    [SetupGccver] always returns and always sets it: to the compiler the
    table lists for the major.minor version, and to the empty string for a
    version the table does not list or when no Houdini is resolved. *)
Theorem houdini_gccver_always_set (w : World) (s : State) :
  is_linux (platform w) = true ->
  ARGUMENTS s !! "devtoolset" = None ->
  exists v s',
    fst (Houdini.Version w true false s) = Return (VStr v)
    /\ Houdini.SetupGccver w s = (Return tt, s')
    /\ ARGUMENTS s' !! "devtoolset" = Some (hou_gcc v)
    /\ stdout s'
       = (stdout s ++ [("Using gcc " ++ gcc_full_ver w (hou_gcc v))%string])%list.
Proof.
  intros Hl Hn.
  destruct (houdini_version_string w false s) as (v & s2 & E & Ha & Ho).
  exists v,
    (mkState (<["devtoolset" := hou_gcc v]> (ARGUMENTS s2)) (args_cache s2)
       (warned s2) (printed s2)
       (stdout s2 ++ [("Using gcc " ++ gcc_full_ver w (hou_gcc v))%string])
       (help_options s2) (probes s2) (_specCache s2) (_cython s2)).
  split; [now rewrite E|]. split.
  - unfold Houdini.SetupGccver. rewrite Hl.
    unfold Excons.InitGlobals.
    erewrite bind_run by reflexivity. erewrite bind_run by reflexivity.
    rewrite Hn. rewrite (bind_run _ _ _ _ _ E).
    unfold hou_gcc. now destruct (dict_get Houdini._hou_gccver v).
  - cbn. rewrite lookup_insert_eq, Ho. now split.
Qed.

Lemma houdini_gccver_always_set_witness :
  exists v s',
    fst (Houdini.Version old_houdini_world true false
           (fresh {[ "with-houdini" := "12.0.1" ]}))
    = Return (VStr v)
    /\ Houdini.SetupGccver old_houdini_world
         (fresh {[ "with-houdini" := "12.0.1" ]}) = (Return tt, s')
    /\ ARGUMENTS s' !! "devtoolset" = Some (hou_gcc v)
    /\ stdout s'
       = (stdout (fresh {[ "with-houdini" := "12.0.1" ]})
          ++ [("Using gcc " ++ gcc_full_ver old_houdini_world (hou_gcc v))%string])%list.
Proof.
  exact (houdini_gccver_always_set old_houdini_world
           (fresh {[ "with-houdini" := "12.0.1" ]}) eq_refl eq_refl).
Defined.

Lemma houdini_failure_ext w s s' msg :
  (forall k, argument s' k = argument s k) ->
  houdini_failure w s msg -> houdini_failure w s' msg.
Proof.
  intros He H. destruct H.
  - apply hf_missing. now rewrite He.
  - apply hf_format; [now rewrite He|assumption..].
  - apply hf_path; [now rewrite He|assumption..].
  - apply hf_root_of_version; [now rewrite He|assumption..].
  - apply hf_root_of_path; [now rewrite He|assumption..].
Qed.

Lemma houdini_failure_det w s m1 m2 :
  houdini_failure w s m1 -> houdini_failure w s m2 -> m1 = m2.
Proof.
  intros H1 H2.
  destruct H1; destruct H2; try congruence;
    repeat match goal with
           | H : is_Some _ |- _ => destruct H
           end; congruence.
Qed.

(** X8: whenever the resolver fails, whatever the reason, [Require] still
    returns, leaves the environment exactly as it was, warns once with the
    message of the failure, and runs no subprocess: all it has done is look
    at directories. *)
Theorem houdini_require_unresolved (w : World) (env : Env) (s : State)
    (msg : string) :
  houdini_failure w s msg ->
  exists s' l,
    Houdini.Require w env s = (Return env, s')
    /\ warned s' = warn_once (warned s) msg
    /\ probes s' = (probes s ++ l)%list
    /\ forallb is_dir_probe l = true.
Proof.
  intros Hf. unfold Houdini.Require.
  erewrite bind_run by reflexivity.
  match goal with |- context [bind _ _ ?st] => set (s0 := st) end.
  assert (Hf0 : houdini_failure w s0 msg)
    by (apply (houdini_failure_ext w s); [reflexivity|assumption]).
  destruct (houdini_run_cases w s0)
    as (s1 & l & Hp & [(m & Hm & E)|(ver & hfs & E & _)]).
  - rewrite (houdini_failure_det _ _ _ _ Hm Hf0) in E.
    destruct Hp as (_ & _ & Hw & _ & _ & _ & _ & _ & Hl & Hd).
    destruct (fail_true msg s1) as (s2 & E2 & Hw2 & _ & _ & Hp2).
    exists s2, l. rewrite (bind_run _ _ _ _ _ (eq_trans (E true) E2)).
    split; [reflexivity|]. rewrite Hw2, Hw, Hp2, Hl. now repeat split.
  - pose proof (houdini_failure_run w s0 msg false Hf0) as (s' & E' & _).
    rewrite (E false) in E'. discriminate E'.
Qed.

Lemma houdini_require_unresolved_witness :
  exists s' l,
    Houdini.Require bare_world empty_env (fresh ∅) = (Return empty_env, s')
    /\ warned s'
       = warn_once (warned (fresh ∅))
           "Please set Houdini version or directory using with-houdini="
    /\ probes s' = (probes (fresh ∅) ++ l)%list
    /\ forallb is_dir_probe l = true.
Proof.
  exact (houdini_require_unresolved bare_world empty_env (fresh ∅) _
           (hf_missing bare_world (fresh ∅) eq_refl)).
Defined.

(** ** Maya: the root, the header and the environment *)

(** X9: when the environment names a Maya location and [with-maya] is not
    on the command line, that location is the root, even if a [with-maya]
    value is remembered from an earlier build; no directory is looked at and
    no warning is given, whatever [noWarn] says. *)
Theorem maya_location_wins (w : World) (s : State) (noWarn : bool)
    (loc : string) :
  environ w !! "MAYA_LOCATION" = Some loc ->
  ARGUMENTS s !! "with-maya" = None ->
  exists s',
    Maya.GetMayaRoot w noWarn s = (Return (Some loc), s')
    /\ probes s' = probes s /\ warned s' = warned s
    /\ printed s' = warn_once (printed s) "Using MAYA_LOCATION environment.".
Proof.
  intros He Ha. unfold Maya.GetMayaRoot.
  rewrite (bind_run _ _ _ _ _ (GetArgument_reads _ _)).
  erewrite bind_run by reflexivity. rewrite He, Ha.
  unfold Excons.PrintOnce, bind, modify, ret, warn_once. cbn.
  eexists. split; [reflexivity|].
  now destruct (mem _ (printed s)).
Qed.

Lemma maya_location_wins_witness :
  exists s',
    Maya.GetMayaRoot maya_location_world false remembered_maya
    = (Return (Some "/opt/maya2020"), s')
    /\ probes s' = probes remembered_maya
    /\ warned s' = warned remembered_maya
    /\ printed s'
       = warn_once (printed remembered_maya)
           "Using MAYA_LOCATION environment.".
Proof.
  exact (maya_location_wins maya_location_world remembered_maya false
           "/opt/maya2020" eq_refl eq_refl).
Defined.

Lemma print_once_log msg s :
  exists s', Excons.PrintOnce msg s = (Return tt, s')
             /\ warned s' = warned s /\ ARGUMENTS s' = ARGUMENTS s
             /\ args_cache s' = args_cache s /\ stdout s' = stdout s
             /\ printed s' = warn_once (printed s) msg.
Proof.
  unfold Excons.PrintOnce, modify, warn_once. eexists.
  split; [reflexivity|].
  now destruct (mem msg (printed s)).
Qed.

(** X10: with [noWarn] the root lookup cannot fail and gives no warning: it
    always returns, and the warning log, the build arguments, the cache and
    what was written to the standard output are as they were.  The one thing
    it may record is its note on [MAYA_LOCATION] in the print-once log: when
    the environment names a Maya location, the note says the location is
    used if [with-maya] is not on the command line and ignored if it is;
    when the environment names none, the print-once log is as it was. *)
Theorem maya_root_nowarn_silent (w : World) (s : State) :
  exists r s',
    Maya.GetMayaRoot w true s = (Return r, s')
    /\ warned s' = warned s /\ ARGUMENTS s' = ARGUMENTS s
    /\ args_cache s' = args_cache s /\ stdout s' = stdout s
    /\ printed s'
       = match environ w !! "MAYA_LOCATION" with
         | None => printed s
         | Some _ =>
             warn_once (printed s)
               (match ARGUMENTS s !! "with-maya" with
                | None => "Using MAYA_LOCATION environment."
                | Some _ => "Ignoring MAYA_LOCATION environment."
                end)
         end.
Proof.
  unfold Maya.GetMayaRoot.
  rewrite (bind_run _ _ _ _ _ (GetArgument_reads _ _)).
  erewrite bind_run by reflexivity.
  assert (Hr : forall s0 log,
    warned s0 = warned s -> ARGUMENTS s0 = ARGUMENTS s ->
    args_cache s0 = args_cache s -> stdout s0 = stdout s ->
    printed s0 = log ->
    exists r s',
      (if negb (truthy (argument s "with-maya"))
       then when (negb true) Excons.WarnConfig >> ret None
       else
         let mayaspec := default "" (argument s "with-maya") in
         let* d := os_path_isdir w mayaspec in
         if negb d then
           if negb (Maya.starts_with_digit mayaspec) then
             when (negb true)
               (Excons.WarnOnce
                  ("Invalid Maya specification " ++ dq ++ mayaspec ++ dq
                   ++ ": Must be a directory or a version number")) >>
             ret None
           else
             let ver := mayaspec in
             match platform w with
             | Win32 =>
                 ret (Some (if String.eqb (arch_dir w) "x64"
                            then "C:/Program Files/Autodesk/Maya" ++ ver
                            else "C:/Program Files (x86)/Autodesk/Maya" ++ ver))
             | Darwin => ret (Some ("/Applications/Autodesk/maya" ++ ver))
             | _ =>
                 let mayadir := "/usr/autodesk/maya" ++ ver in
                 if String.eqb (arch_dir w) "x64" then
                   let* x := os_path_isdir w (mayadir ++ "-x64") in
                   ret (Some (if x then mayadir ++ "-x64" else mayadir))
                 else ret (Some mayadir)
             end
         else ret (Some (clean_dir mayaspec))) s0 = (Return r, s')
      /\ warned s' = warned s /\ ARGUMENTS s' = ARGUMENTS s
      /\ args_cache s' = args_cache s /\ stdout s' = stdout s
      /\ printed s' = log).
  { intros s0 log H1 H2 H3 H4 H5.
    destruct (negb (truthy (argument s "with-maya"))).
    - do 2 eexists. split; [reflexivity|]. now repeat split.
    - cbn zeta. erewrite bind_run by reflexivity.
      destruct (negb (isdir w _)).
      + destruct (negb (Maya.starts_with_digit _)).
        * do 2 eexists. split; [reflexivity|]. now repeat split.
        * destruct (platform w);
            try (do 2 eexists; split; [reflexivity|]; now repeat split).
          all: destruct (String.eqb (arch_dir w) "x64");
            do 2 eexists; (split; [reflexivity|]); now repeat split.
      + do 2 eexists. split; [reflexivity|]. now repeat split. }
  destruct (environ w !! "MAYA_LOCATION") as [loc|]; [|now apply Hr].
  destruct (ARGUMENTS s !! "with-maya").
  - destruct (print_once_log "Ignoring MAYA_LOCATION environment." s)
      as (sp & E & H1 & H2 & H3 & H4 & H5).
    rewrite (bind_run _ _ _ _ _ E). now apply Hr.
  - destruct (print_once_log "Using MAYA_LOCATION environment." s)
      as (sp & E & H1 & H2 & H3 & H4 & H5).
    rewrite (bind_run _ _ _ _ _ E). do 2 eexists.
    split; [reflexivity|]. now repeat split.
Qed.

Lemma maya_root_nowarn_silent_witness :
  exists r s',
    Maya.GetMayaRoot maya_location_world true
      (fresh {[ "with-maya" := "2018" ]})
    = (Return r, s')
    /\ warned s' = [] /\ ARGUMENTS s' = {[ "with-maya" := "2018" ]}
    /\ args_cache s' = ∅ /\ stdout s' = []
    /\ printed s' = ["Ignoring MAYA_LOCATION environment."].
Proof.
  exact (maya_root_nowarn_silent maya_location_world
           (fresh {[ "with-maya" := "2018" ]})).
Defined.

(** With a Maya location in the environment and [with-maya=2018] on the
    command line, the quiet lookup resolves the version and records that
    the location is ignored; with nothing on the command line it records
    that the location is used; neither warns. *)
Example maya_root_nowarn_notes :
  (let r := Maya.GetMayaRoot maya_location_world true
              (fresh {[ "with-maya" := "2018" ]}) in
   fst r = Return (Some "/usr/autodesk/maya2018")
   /\ printed (snd r) = ["Ignoring MAYA_LOCATION environment."]
   /\ warned (snd r) = [])
  /\ (let r := Maya.GetMayaRoot maya_location_world true remembered_maya in
      fst r = Return (Some "/opt/maya2020")
      /\ printed (snd r) = ["Using MAYA_LOCATION environment."]
      /\ warned (snd r) = []).
Proof. vm_compute. now repeat split. Qed.

(** [Version] up to the point where the header is looked for. *)
Lemma maya_version_to_header w s asString nice mayadir inc :
  fst (Maya.GetMayaRoot w true s) = Return (Some mayadir) ->
  is_empty mayadir = false ->
  fst (Maya.GetMayaInc w mayadir (snd (Maya.GetMayaRoot w true s)))
  = Return inc ->
  exists wv st,
    warned st = warned (snd (Maya.GetMayaInc w mayadir
                               (snd (Maya.GetMayaRoot w true s))))
    /\ Maya.Version w asString nice s
       = bind (if isfile w (Excons.joinpath [inc; "maya"; "MTypes.h"])
               then let* lines :=
                      read_lines w (Excons.joinpath [inc; "maya"; "MTypes.h"])
                    in Maya.scan_lines asString nice wv lines
               else ret None)
           (fun hit =>
              match hit with
              | Some v => ret v
              | None =>
                  Excons.WarnOnce maya_no_headers
                  >> ret (if negb asString then VNone else VStr "")
              end) st.
Proof.
  intros H1 Hne H2.
  apply run_pair in H1. apply run_pair in H2.
  set (s1 := snd (Maya.GetMayaRoot w true s)) in *.
  set (s2 := snd (Maya.GetMayaInc w mayadir s1)) in *.
  unfold Maya.Version.
  rewrite (bind_run _ _ _ _ _ H1).
  unfold truthy. rewrite Hne. cbn [negb default].
  rewrite (bind_run _ _ _ _ _ H2).
  rewrite (bind_run _ _ _ _ _ (GetArgument_reads _ _)).
  match goal with |- context [bind ?m _ s2] =>
    assert (Hw : exists v s3, m s2 = (Return v, s3) /\ warned s3 = warned s2)
      by (destruct (argument s2 "with-maya"); repeat eexists) end.
  destruct Hw as (v & s3 & Ew & Hw3). rewrite (bind_run _ _ _ _ _ Ew).
  erewrite bind_run by reflexivity. cbn beta.
  exists v. eexists. split; [|reflexivity]. exact Hw3.
Qed.

Lemma report_short asString nice wv g s :
  is_digits g = true -> str_index 4 g = None ->
  fst (Maya.report asString nice wv g s) = Raise "IndexError".
Proof.
  intros Hg Hc. pose proof (is_digits_all _ Hg) as Ha.
  assert (H4 : is_digits (str_take 4 g) = true).
  { unfold is_digits. rewrite (str_take_digits 4 g Ha), andb_true_r.
    now destruct g. }
  unfold Maya.report. rewrite Hc, (to_int_digits _ H4).
  reflexivity.
Qed.

(** X11: a header whose first [MAYA_API_VERSION] has fewer than five digits
    makes [Version] raise [IndexError], whatever form of the version is
    asked for: the sub-release digit is read before [nice] is looked at. *)
Theorem maya_short_macro_raises (w : World) (s : State)
    (asString nice : bool) (mayadir inc g : string) :
  fst (Maya.GetMayaRoot w true s) = Return (Some mayadir) ->
  is_empty mayadir = false ->
  fst (Maya.GetMayaInc w mayadir (snd (Maya.GetMayaRoot w true s)))
  = Return inc ->
  isfile w (Excons.joinpath [inc; "maya"; "MTypes.h"]) = true ->
  first_define
    (readlines (file_text w (Excons.joinpath [inc; "maya"; "MTypes.h"])))
  = Some g ->
  str_index 4 g = None ->
  fst (Maya.Version w asString nice s) = Raise "IndexError".
Proof.
  intros H1 Hne H2 Hf Hl Hc.
  destruct (maya_version_to_header w s asString nice mayadir inc H1 Hne H2)
    as (wv & st & _ & ->).
  rewrite Hf, bind_bind. erewrite bind_run by reflexivity.
  rewrite (maya_scan_first _ _ _ _ _ Hl), bind_bind.
  match goal with |- context [bind (Maya.report _ _ _ _) _ ?st] =>
    pose proof (report_short asString nice wv g st
                  (first_define_digits _ _ Hl) Hc) as Hr end.
  unfold bind at 1.
  destruct (Maya.report asString nice wv g _) as [[v|e|c] s']; cbn in Hr;
    try discriminate Hr. now injection Hr as ->.
Qed.

Lemma maya_short_macro_raises_witness :
  fst (Maya.Version old_maya_world true true (fresh (maya_args "8.5")))
  = Raise "IndexError".
Proof.
  exact (maya_short_macro_raises old_maya_world (fresh (maya_args "8.5"))
           true true "C:/Program Files/Autodesk/Maya8.5"
           "C:/Program Files/Autodesk/Maya8.5/include" "850"
           eq_refl eq_refl eq_refl eq_refl eq_refl eq_refl).
Defined.

Lemma report_raw asString wv g c s :
  is_digits g = true -> str_index 4 g = Some c ->
  fst (Maya.report asString false wv g s)
  = Return (if asString then VStr g else VInt (digits_value g)).
Proof.
  intros Hg Hc. pose proof (is_digits_all _ Hg) as Ha.
  assert (H4 : is_digits (str_take 4 g) = true).
  { unfold is_digits. rewrite (str_take_digits 4 g Ha), andb_true_r.
    now destruct g. }
  assert (H1 : is_digits (String c "") = true).
  { unfold is_digits; simpl. now rewrite (str_index_digit _ _ _ Ha Hc). }
  unfold Maya.report. rewrite Hc, (to_int_digits _ H4), (to_int_digits _ H1).
  unfold bind at 1 2. unfold lift. unfold bind.
  set (eff := match wv with Some _ => _ | None => _ end).
  assert (He : exists s', eff s = (Return tt, s')).
  { subst eff. destruct wv; [apply when_warn_returns|now eexists]. }
  destruct He as [s' ->]. rewrite (to_int_digits _ Hg).
  now destruct asString.
Qed.

(** X12: without [nice], [Version] hands back the digits of the first
    [MAYA_API_VERSION] definition as they are written, or the number they
    spell, once there are at least five of them. *)
Theorem maya_raw_version (w : World) (s : State) (asString : bool)
    (mayadir inc g : string) (c : ascii) :
  fst (Maya.GetMayaRoot w true s) = Return (Some mayadir) ->
  is_empty mayadir = false ->
  fst (Maya.GetMayaInc w mayadir (snd (Maya.GetMayaRoot w true s)))
  = Return inc ->
  isfile w (Excons.joinpath [inc; "maya"; "MTypes.h"]) = true ->
  first_define
    (readlines (file_text w (Excons.joinpath [inc; "maya"; "MTypes.h"])))
  = Some g ->
  str_index 4 g = Some c ->
  fst (Maya.Version w asString false s)
  = Return (if asString then VStr g else VInt (digits_value g)).
Proof.
  intros H1 Hne H2 Hf Hl Hc.
  destruct (maya_version_to_header w s asString false mayadir inc H1 Hne H2)
    as (wv & st & _ & ->).
  rewrite Hf, bind_bind. erewrite bind_run by reflexivity.
  rewrite (maya_scan_first _ _ _ _ _ Hl), bind_bind.
  match goal with |- context [bind (Maya.report _ _ _ _) _ ?st] =>
    pose proof (run_pair _ _ _
                  (report_raw asString wv g c st
                     (first_define_digits _ _ Hl) Hc)) as Hr end.
  rewrite (bind_run _ _ _ _ _ Hr). reflexivity.
Qed.

Lemma maya_raw_version_witness :
  fst (Maya.Version (maya_world "2016" "201650") false false
         (fresh (maya_args "2016")))
  = Return (if false then VStr "201650" else VInt (digits_value "201650")).
Proof.
  exact (maya_raw_version (maya_world "2016" "201650")
           (fresh (maya_args "2016")) false
           "C:/Program Files/Autodesk/Maya2016"
           "C:/Program Files/Autodesk/Maya2016/include" "201650" "5"
           eq_refl eq_refl eq_refl eq_refl eq_refl eq_refl).
Defined.

Lemma maya_scan_none asString nice wv lines s :
  first_define lines = None ->
  Maya.scan_lines asString nice wv lines s = (Return None, s).
Proof.
  induction lines as [|l r IH]; [reflexivity|]. cbn [first_define].
  cbn [Maya.scan_lines]. destruct (Maya.defexp l); [discriminate|exact IH].
Qed.

(** X13: when the root is known but the header is missing, or is there
    and has no [MAYA_API_VERSION] definition, [Version] warns that the Maya
    headers cannot be found and returns its empty default. *)
Theorem maya_version_no_macro (w : World) (s : State)
    (asString nice : bool) (mayadir inc : string) :
  fst (Maya.GetMayaRoot w true s) = Return (Some mayadir) ->
  is_empty mayadir = false ->
  fst (Maya.GetMayaInc w mayadir (snd (Maya.GetMayaRoot w true s)))
  = Return inc ->
  isfile w (Excons.joinpath [inc; "maya"; "MTypes.h"]) = false
  \/ first_define
       (readlines (file_text w (Excons.joinpath [inc; "maya"; "MTypes.h"])))
     = None ->
  fst (Maya.Version w asString nice s) = Return (empty_version asString)
  /\ maya_no_headers ∈ warned (snd (Maya.Version w asString nice s)).
Proof.
  intros H1 Hne H2 Hn.
  destruct (maya_version_to_header w s asString nice mayadir inc H1 Hne H2)
    as (wv & st & _ & ->).
  assert (E : exists st',
    (if isfile w (Excons.joinpath [inc; "maya"; "MTypes.h"])
     then let* lines :=
            read_lines w (Excons.joinpath [inc; "maya"; "MTypes.h"])
          in Maya.scan_lines asString nice wv lines
     else ret None) st = (Return None, st')).
  { destruct (isfile w _) eqn:Hf; [|now eexists].
    destruct Hn as [Hn|Hn]; [discriminate|].
    erewrite bind_run by reflexivity. rewrite (maya_scan_none _ _ _ _ _ Hn).
    now eexists. }
  destruct E as (st' & E). rewrite (bind_run _ _ _ _ _ E).
  unfold Excons.WarnOnce, bind, modify, ret, maya_no_headers. cbn.
  split; [now destruct asString|].
  unfold mem. destruct (bool_decide _) eqn:Hm.
  - now apply bool_decide_eq_true in Hm.
  - cbn. apply elem_of_app. right. constructor.
Qed.

Lemma maya_version_no_macro_witness :
  fst (Maya.Version blank_maya_world true true (fresh (maya_args "2018")))
  = Return (empty_version true)
  /\ maya_no_headers
     ∈ warned (snd (Maya.Version blank_maya_world true true
                      (fresh (maya_args "2018")))).
Proof.
  exact (maya_version_no_macro blank_maya_world (fresh (maya_args "2018"))
           true true "C:/Program Files/Autodesk/Maya2018"
           "C:/Program Files/Autodesk/Maya2018/include"
           eq_refl eq_refl eq_refl (or_intror eq_refl)).
Defined.

(** X14: once the Maya installation ships its own headers, the include
    directory is decided without [with-mayadevkit]: it is [MAYA_INCLUDE]
    when the environment has it, and the directory inside the installation
    otherwise. *)
Theorem maya_inc_ignores_devkit (w : World) (s : State) (mayadir : string) :
  isdir w (maya_own_headers w mayadir) = true ->
  fst (Maya.GetMayaInc w mayadir s)
  = Return (default (maya_own_include w mayadir)
              (environ w !! "MAYA_INCLUDE")).
Proof.
  intros Hd. unfold Maya.GetMayaInc, maya_own_headers in *.
  erewrite bind_run by reflexivity. rewrite Hd. cbn [negb].
  erewrite bind_run by reflexivity. erewrite bind_run by reflexivity.
  destruct (environ w !! "MAYA_INCLUDE") as [inc|]; [|reflexivity].
  cbn [orb]. now erewrite bind_run by reflexivity.
Qed.

Lemma maya_inc_ignores_devkit_witness :
  fst (Maya.GetMayaInc (maya_world "2018" "20180000")
         "C:/Program Files/Autodesk/Maya2018"
         (fresh {[ "with-mayadevkit" := "/opt/devkit" ]}))
  = Return (default
              (maya_own_include (maya_world "2018" "20180000")
                 "C:/Program Files/Autodesk/Maya2018")
              (environ (maya_world "2018" "20180000") !! "MAYA_INCLUDE")).
Proof.
  exact (maya_inc_ignores_devkit (maya_world "2018" "20180000")
           (fresh {[ "with-mayadevkit" := "/opt/devkit" ]})
           "C:/Program Files/Autodesk/Maya2018" eq_refl).
Defined.

(** ** Python: descriptors, and what [Require] adds *)

Lemma either_missing_false (a b : M bool) s s' :
  Python.either_missing a b s = (Return false, s') ->
  exists s1, a s = (Return true, s1) /\ b s1 = (Return true, s').
Proof.
  unfold Python.either_missing. intros H.
  apply bind_return in H as (x & s1 & Ha & H).
  destruct x; cbn [negb] in H; [|discriminate H].
  apply bind_return in H as (y & s2 & Hb & H).
  destruct y; [|discriminate H]. injection H as <-. now exists s1.
Qed.

Lemma isdir_true w p s s' :
  os_path_isdir w p s = (Return true, s') -> isdir w p = true.
Proof. unfold os_path_isdir, log_probe, bind, modify, ret. cbn. congruence. Qed.

Lemma isfile_true w p s s' :
  os_path_isfile w p s = (Return true, s') -> isfile w p = true.
Proof. unfold os_path_isfile, log_probe, bind, modify, ret. cbn. congruence. Qed.

(** A candidate that passes the validity check is handed back unchanged,
    and what the check looked for is there. *)
Lemma validate_some w spec s sp s' :
  Python.validate w spec s = (Return (Some sp), s') ->
  sp = spec /\ checked_spec w spec.
Proof.
  destruct spec as [[[ver incdir] libdir] lib].
  unfold Python.validate, checked_spec. intros H.
  destruct (platform w) eqn:Ep; cbn [is_win32] in H.
  -     apply bind_return in H as (bad & s1 & Hb & H).
    destruct bad.
    { apply bind_return in H as (? & ? & _ & H). discriminate H. }
    apply either_missing_false in Hb as (s0 & Hi & Hl).
    apply isdir_true in Hi.
    destruct libdir as [d|]; [|discriminate Hl]. apply isdir_true in Hl.
    apply bind_return in H as (f & s2 & Hf & H).
    destruct f; cbn [negb] in H.
    + apply isfile_true in Hf. injection H as <-. now repeat split.
    + apply bind_return in H as (? & ? & _ & H). discriminate H.
  -     destruct libdir as [d|].
    + apply bind_return in H as (bad & s1 & Hb & H).
      destruct bad.
      { apply bind_return in H as (? & ? & _ & H). discriminate H. }
      apply either_missing_false in Hb as (s0 & Hi & Hl).
      apply isdir_true in Hi. apply isdir_true in Hl.
      injection H as <-. now repeat split.
    + apply bind_return in H as (bad & s1 & Hb & H).
      destruct bad.
      { apply bind_return in H as (? & ? & _ & H). discriminate H. }
      apply either_missing_false in Hb as (s0 & Hi & Hl).
      apply isdir_true in Hi. apply isfile_true in Hl.
      injection H as <-. now repeat split.
  - apply bind_return in H as (bad & s1 & Hb & H).
    destruct bad.
    { apply bind_return in H as (? & ? & _ & H). discriminate H. }
    apply either_missing_false in Hb as (s0 & Hi & Hl).
    apply isdir_true in Hi.
    destruct libdir as [d|]; [|discriminate Hl]. apply isdir_true in Hl.
    destruct (Python.config_true _) eqn:Ec; cbn [negb] in H.
    + injection H as <-. now repeat split.
    + apply bind_return in H as (? & ? & _ & H). discriminate H.
  - apply bind_return in H as (bad & s1 & Hb & H).
    destruct bad.
    { apply bind_return in H as (? & ? & _ & H). discriminate H. }
    apply either_missing_false in Hb as (s0 & Hi & Hl).
    apply isdir_true in Hi.
    destruct libdir as [d|]; [|discriminate Hl]. apply isdir_true in Hl.
    destruct (Python.config_true _) eqn:Ec; cbn [negb] in H.
    + injection H as <-. now repeat split.
    + apply bind_return in H as (? & ? & _ & H). discriminate H.
Qed.

(** How a resolution that is not in the cache ends with a descriptor: a
    candidate was found and passed the validity check. *)
Lemma get_spec_some w spec s d :
  _specCache s !! spec = None ->
  fst (Python._GetPythonSpec w spec s) = Return (Some d) ->
  checked_spec w d
  /\ exists ss s0 s1,
       (if Python.is_version spec
        then bind (Python.from_version w spec) (fun sp => ret (spec, sp))
        else Python.from_path w spec) s = (Return (ss, Some d), s0)
       /\ Python.validate w d s0 = (Return (Some d), s1).
Proof.
  intros Hc H. apply run_pair in H.
  rewrite (get_spec_uncached _ _ _ Hc) in H.
  apply bind_return in H as ([ss sp] & s0 & Hp & H).
  apply bind_return in H as (sp' & s2 & Hv & H).
  apply bind_return in H as ([] & s3 & _ & H).
  apply bind_return in H as ([] & s4 & _ & H).
  injection H as -> _.
  destruct sp as [cand|]; [|discriminate Hv].
  apply bind_return in Hv as (chk & s1 & Hv & Hr).
  destruct chk as [c|].
  - injection Hr as -> _. pose proof Hv as Hv'.
    apply validate_some in Hv as [-> Hk]. split; [exact Hk|].
    now exists ss, s0, s1.
  - apply bind_return in Hr as (? & ? & _ & Hr). discriminate Hr.
Qed.

(** X17: a descriptor that a resolution hands back (one not taken from the
    cache) has been checked against the file system: its include directory
    exists, and so does the library directory, framework or import library
    the build will link against. *)
Theorem python_spec_checked (w : World) (s : State) (spec : string)
    (d : pyspec) :
  _specCache s !! spec = None ->
  fst (Python._GetPythonSpec w spec s) = Return (Some d) ->
  checked_spec w d.
Proof. intros Hc H. exact (proj1 (get_spec_some w spec s d Hc H)). Qed.

Lemma python_spec_checked_witness :
  checked_spec linux_python_world (running_spec linux_python_world "3.9").
Proof.
  exact (python_spec_checked linux_python_world (fresh ∅) "3.9"
           (running_spec linux_python_world "3.9") eq_refl eq_refl).
Defined.

(** X18: on a platform other than macOS and Windows, a specification that
    is a version number is not searched for: the descriptor is the include
    directory, library directory and library of the interpreter that runs
    the build, under the version that was asked for, whichever it is. *)
Theorem python_version_spec_is_running (w : World) (s : State)
    (ver : string) (d : pyspec) :
  is_darwin (platform w) = false -> is_win32 (platform w) = false ->
  Python.is_version ver = true ->
  _specCache s !! ver = None ->
  fst (Python._GetPythonSpec w ver s) = Return (Some d) ->
  d = running_spec w ver
  /\ forall ver',
       Python.is_version ver' = true -> _specCache s !! ver' = None ->
       fst (Python._GetPythonSpec w ver' s)
       = Return (Some (running_spec w ver')).
Proof.
  intros Hd Hw Hv Hc H.
  destruct (get_spec_some w ver s d Hc H) as (Hk & ss & s0 & s1 & Hp & Hval).
  rewrite Hv in Hp.
  assert (Hf : forall v, Python.from_version w v s
                         = (Return (Some (running_spec w v)), s)).
  { intros v. unfold Python.from_version.
    destruct (platform w); try discriminate; reflexivity. }
  rewrite (bind_run _ _ _ _ _ (Hf ver)) in Hp. injection Hp as <- <- <-.
  split; [reflexivity|]. intros ver' Hv' Hc'.
  rewrite (get_spec_uncached _ _ _ Hc'), Hv'.
  assert (Hfv : bind (Python.from_version w ver') (fun sp => ret (ver', sp)) s
                = (Return (ver', Some (running_spec w ver')), s))
    by now rewrite (bind_run _ _ _ _ _ (Hf ver')).
  rewrite (bind_run _ _ _ _ _ Hfv). rewrite bind_bind.
  assert (Hval' : Python.validate w (running_spec w ver') s
                  = (Return (Some (running_spec w ver')), s1)).
  { revert Hval. unfold Python.validate, running_spec.
    destruct (platform w); try discriminate.
    all: intros Hval.
    all: apply bind_return in Hval as (bad & s2 & Hb & Hval).
    all: rewrite (bind_run _ _ _ _ _ Hb).
    all: destruct bad; [apply bind_return in Hval as (? & ? & _ & Hval);
                         discriminate Hval|].
    all: cbn [is_win32] in *.
    all: destruct (Python.config_true _); cbn [negb] in *;
         [now injection Hval as <-|].
    all: apply bind_return in Hval as (? & ? & _ & Hval); discriminate Hval. }
  rewrite (bind_run _ _ _ _ _ Hval').
  erewrite bind_run by reflexivity.
  unfold bind, Excons.PrintOnce, Python.cache_store, modify, ret. reflexivity.
Qed.

Lemma python_version_spec_is_running_witness :
  running_spec linux_python_world "2.7" = running_spec linux_python_world "2.7"
  /\ forall ver',
       Python.is_version ver' = true ->
       _specCache (fresh ∅) !! ver' = None ->
       fst (Python._GetPythonSpec linux_python_world ver' (fresh ∅))
       = Return (Some (running_spec linux_python_world ver')).
Proof.
  exact (python_version_spec_is_running linux_python_world (fresh ∅) "2.7"
           (running_spec linux_python_world "2.7")
           eq_refl eq_refl eq_refl eq_refl eq_refl).
Defined.

(** What the default settings do to the environment. *)
Lemma require_current_effect w e ign s e' :
  fst (Python.require_current w e ign s) = Return e' ->
  (exists rest,
      CCFLAGS e'
      = (CCFLAGS e ++ words (" -DPY_VER=" ++ python_version w)%string ++ rest)%list)
  /\ CPPPATH e' = (CPPPATH e ++ [python_inc w])%list
  /\ (ign = true ->
      LINKFLAGS e' = LINKFLAGS e
      /\ ((LIBS e' = LIBS e /\ LIBPATH e' = LIBPATH e)
          \/ windows_fallback w e e')).
Proof.
  intros H. apply run_pair in H. unfold Python.require_current in H.
  apply bind_return in H as (e1 & s1 & Hb & H).
  apply bind_return in H as ([] & s2 & _ & H). injection H as <- _.
  destruct (Python.config_true (config_var w "PYTHONFRAMEWORK")).
  - destruct ign; cbn [negb] in Hb.
    + injection Hb as <- _. cbn. split; [exists []; now rewrite app_nil_r|].
      split; [reflexivity|]. intros _. split; [reflexivity|]. now left.
    + apply bind_return in Hb as (cur & s3 & _ & Hb).
      destruct (negb (Python.same _ cur)); injection Hb as <- _; cbn;
        (split; [exists []; now rewrite app_nil_r|]);
        (split; [reflexivity|]); discriminate.
  - destruct (is_win32 (platform w)) eqn:Ew.
    + injection Hb as <- _. cbn. split; [exists []; now rewrite app_nil_r|].
      split; [reflexivity|]. intros _. split; [reflexivity|]. right.
      unfold windows_fallback. now rewrite Ew.
    + destruct ign; cbn [negb] in Hb; injection Hb as <- _; cbn;
        (split; [eexists; now rewrite <- app_assoc|]);
        (split; [reflexivity|]); [|discriminate].
      intros _. split; [reflexivity|]. now left.
Qed.

(** [Require] and [Version] started from the same state: the version
    define is the version [Version] reports, one include directory is added,
    and with [ignoreLinkFlags] the link settings are left alone except in
    the Windows fallback. *)
Lemma python_require_effect w e ign s e' :
  fst (Python.Require w e ign s) = Return e' ->
  exists ver inc,
    fst (Python.Version w s) = Return ver
    /\ (exists rest,
           CCFLAGS e'
           = (CCFLAGS e ++ words (" -DPY_VER=" ++ ver)%string ++ rest)%list)
    /\ CPPPATH e' = (CPPPATH e ++ [inc])%list
    /\ (ign = true ->
        LINKFLAGS e' = LINKFLAGS e
        /\ ((LIBS e' = LIBS e /\ LIBPATH e' = LIBPATH e)
            \/ windows_fallback w e e')).
Proof.
  unfold Python.Require, Python.Version.
  rewrite !(bind_run _ _ _ _ _ (GetArgument_reads _ _)).
  destruct (argument s "with-python") as [po|].
  - unfold bind at 1 2.
    destruct (Python._GetPythonSpec w po s) as [[rv|x|x] s1]; cbn [fst];
      try discriminate.
    destruct rv as [[[[ver incdir] libdir] lib]|].
    + intros H. exists ver, incdir. split; [reflexivity|].
      destruct ign; cbn [negb] in H.
      * injection H as <-. cbn.
        split; [exists []; now rewrite app_nil_r|]. split; [reflexivity|].
        intros _. split; [reflexivity|]. now left.
      * destruct (is_darwin (platform w)); [destruct (truthy libdir)|];
          injection H as <-; cbn;
          (split; [exists []; now rewrite app_nil_r|]);
          (split; [reflexivity|]); discriminate.
    + intros H. exists (python_version w), (python_inc w).
      split; [reflexivity|]. exact (require_current_effect _ _ _ _ _ H).
  - intros H. exists (python_version w), (python_inc w).
    split; [reflexivity|]. exact (require_current_effect _ _ _ _ _ H).
Qed.

(** The flag that defines [PY_VER] is one word when the version has no
    white space in it. *)
Lemma words_py_ver ver :
  all_chars (fun c => negb (is_space c)) ver = true ->
  words (" -DPY_VER=" ++ ver) = ["-DPY_VER=" ++ ver].
Proof.
  intros Hv. rewrite words_unfold.
  change (" -DPY_VER=" ++ ver) with (String " " ("-DPY_VER=" ++ ver)).
  rewrite skip_spaces_cons. change (is_space " ") with true. cbn iota.
  rewrite skip_spaces_nonspace by reflexivity.
  pose proof (span_run (fun c => negb (is_space c)) ("-DPY_VER=" ++ ver) ""
                ltac:(rewrite all_chars_app, Hv; reflexivity) I) as Hs.
  rewrite str_app_nil_r in Hs. rewrite Hs. cbn [fst snd].
  reflexivity.
Qed.

(** X19: [Require] and [Version] agree: the flags [Require] appends to the
    C flags start with the words of the [PY_VER] definition of the version
    that [Version] reports from the same state, and one include directory
    is added.  When that version has no white space in it, the definition
    is the single flag [-DPY_VER=] followed by the version; a version with
    white space in it is cut into several flags. *)
Theorem python_require_defines_version (w : World) (e e' : Env)
    (ign : bool) (s : State) (ver : string) :
  fst (Python.Version w s) = Return ver ->
  fst (Python.Require w e ign s) = Return e' ->
  (exists rest,
      CCFLAGS e' = (CCFLAGS e ++ words (" -DPY_VER=" ++ ver)%string ++ rest)%list)
  /\ (all_chars (fun c => negb (is_space c)) ver = true ->
      exists rest,
        CCFLAGS e' = (CCFLAGS e ++ ("-DPY_VER=" ++ ver)%string :: rest)%list)
  /\ exists inc, CPPPATH e' = (CPPPATH e ++ [inc])%list.
Proof.
  intros Hv H.
  destruct (python_require_effect w e ign s e' H)
    as (v & inc & Hv' & (rest & Hc) & Hp & _).
  rewrite Hv in Hv'. injection Hv' as <-.
  split; [now exists rest|]. split; [|now exists inc].
  intros Hs. exists rest. now rewrite Hc, (words_py_ver _ Hs).
Qed.

Lemma python_require_defines_version_witness :
  (exists rest,
      CCFLAGS python_env_after
      = (CCFLAGS empty_env ++ words (" -DPY_VER=" ++ "3.9")%string ++ rest)%list)
  /\ (exists rest,
         CCFLAGS python_env_after
         = (CCFLAGS empty_env ++ "-DPY_VER=3.9" :: rest)%list)
  /\ exists inc, CPPPATH python_env_after = (CPPPATH empty_env ++ [inc])%list.
Proof.
  pose proof (python_require_defines_version linux_python_world empty_env
                python_env_after false (fresh ∅) "3.9" eq_refl eq_refl)
    as (H1 & H2 & H3).
  exact (conj H1 (conj (H2 eq_refl) H3)).
Defined.

(** A version with a space in it is cut where the space is. *)
Example py_ver_flag_with_space :
  words " -DPY_VER=3.9 -DEVIL" = ["-DPY_VER=3.9"; "-DEVIL"]
  /\ words " -DPY_VER=3.9" = ["-DPY_VER=3.9"].
Proof. vm_compute. now split. Qed.

(** X20: with [ignoreLinkFlags], [Require] leaves the linker flags alone,
    and the libraries and library path too, except in one case: the
    fallback to the running interpreter on Windows, which appends its
    library and library directory whatever the flag says. *)
Theorem python_ignore_link_flags (w : World) (e e' : Env) (s : State) :
  fst (Python.Require w e true s) = Return e' ->
  LINKFLAGS e' = LINKFLAGS e
  /\ ((LIBS e' = LIBS e /\ LIBPATH e' = LIBPATH e)
      \/ windows_fallback w e e').
Proof.
  intros H.
  destruct (python_require_effect w e true s e' H) as (_ & _ & _ & _ & _ & Hi).
  now apply Hi.
Qed.

Lemma python_ignore_link_flags_witness :
  LINKFLAGS python_env_compile_only = LINKFLAGS empty_env
  /\ ((LIBS python_env_compile_only = LIBS empty_env
       /\ LIBPATH python_env_compile_only = LIBPATH empty_env)
      \/ windows_fallback linux_python_world empty_env
           python_env_compile_only).
Proof.
  exact (python_ignore_link_flags linux_python_world empty_env
           python_env_compile_only (fresh ∅) eq_refl).
Defined.

(** X21: on macOS [SoftRequire] leaves the symbols of the interpreter to be
    looked up when the module is loaded: the only link setting it adds is
    [-undefined dynamic_lookup]; no library or library directory is added. *)
Theorem python_soft_require_darwin (w : World) (e e' : Env) (s : State) :
  is_darwin (platform w) = true ->
  fst (Python.SoftRequire w e s) = Return e' ->
  LINKFLAGS e' = (LINKFLAGS e ++ ["-undefined"; "dynamic_lookup"])%list
  /\ LIBS e' = LIBS e /\ LIBPATH e' = LIBPATH e.
Proof.
  intros Hd H. unfold Python.SoftRequire in H. rewrite Hd in H.
  destruct (python_require_effect w _ true s e' H) as (_ & _ & _ & _ & _ & Hi).
  destruct (Hi eq_refl) as [Hl [[Hb Hp]|[Hw _]]].
  - now rewrite Hl, Hb, Hp.
  - destruct (platform w); discriminate.
Qed.

Lemma python_soft_require_darwin_witness :
  LINKFLAGS mac_env_soft
  = (LINKFLAGS empty_env ++ ["-undefined"; "dynamic_lookup"])%list
  /\ LIBS mac_env_soft = LIBS empty_env
  /\ LIBPATH mac_env_soft = LIBPATH empty_env.
Proof.
  exact (python_soft_require_darwin mac_world empty_env mac_env_soft
           (fresh ∅) eq_refl eq_refl).
Defined.

Lemma python_dll_digits name a b :
  Python.python_dll name = Some (a, b) ->
  is_digit a = true /\ is_digit b = true.
Proof.
  unfold Python.python_dll.
  destruct (Python.strip_prefix_nocase "python" name) as [[|x [|y r]]|];
    try discriminate.
  destruct (is_digit x) eqn:Ex; [|discriminate].
  destruct (is_digit y) eqn:Ey; [|discriminate].
  destruct (starts_with _ _); [|discriminate].
  now intros [= <- <-].
Qed.

(** X22: on Windows the version of an interpreter given by its path is
    read off the name of the one [python*.dll] that lies next to it, and it
    always has the form digit, dot, digit: a name with a longer version
    number, or more than one such library, gives no version. *)
Theorem python_windows_version_shape (w : World) (s : State)
    (pythonPath v : string) :
  fst (Python._GetPythonVersionWIN w pythonPath s) = Return (Some v) ->
  (exists f,
      glob w (Excons.joinpath [Python.dirname w pythonPath; "python*.dll"])
      = [f])
  /\ digit_dot_digit v.
Proof.
  unfold Python._GetPythonVersionWIN. erewrite bind_run by reflexivity.
  destruct (glob w _) as [|f [|g l]]; try discriminate.
  destruct (Python.python_dll _) as [[a b]|] eqn:E; [|discriminate].
  intros [= <-]. split; [now exists f|].
  exists a, b. destruct (python_dll_digits _ _ _ E) as [Ha Hb].
  now repeat split.
Qed.

Lemma python_windows_version_shape_witness :
  (exists f,
      glob windows_python_world
        (Excons.joinpath
           [Python.dirname windows_python_world "C:/Python27/python.exe";
            "python*.dll"])
      = [f])
  /\ digit_dot_digit "2.7".
Proof.
  exact (python_windows_version_shape windows_python_world (fresh ∅)
           "C:/Python27/python.exe" "2.7" eq_refl).
Defined.



(** ** What leaves the build settings alone *)

Lemma keeps_ret {A} (a : A) : keeps_settings (ret a).
Proof. now intros s. Qed.
Lemma keeps_raise {A} e : keeps_settings (@raise A e).
Proof. now intros s. Qed.
Lemma keeps_sys_exit {A} c : keeps_settings (@sys_exit A c).
Proof. now intros s. Qed.
Lemma keeps_lift {A} (o : outcome A) : keeps_settings (lift o).
Proof. now intros s. Qed.
Lemma keeps_get : keeps_settings get.
Proof. now intros s. Qed.
Lemma keeps_log_probe p : keeps_settings (log_probe p).
Proof. now intros s. Qed.
Lemma keeps_cache_store k v : keeps_settings (Python.cache_store k v).
Proof. now intros s. Qed.
Lemma keeps_AddHelpOptions t x : keeps_settings (Excons.AddHelpOptions t x).
Proof. now intros s. Qed.
Lemma keeps_PrintOnce msg : keeps_settings (Excons.PrintOnce msg).
Proof.
  intros s. unfold Excons.PrintOnce, modify. cbn.
  now destruct (mem msg (printed s)).
Qed.
Lemma keeps_WarnOnce msg : keeps_settings (Excons.WarnOnce msg).
Proof.
  intros s. unfold Excons.WarnOnce, modify. cbn.
  now destruct (mem msg (warned s)).
Qed.

Lemma keeps_bind {A B} (m : M A) (k : A -> M B) :
  keeps_settings m -> (forall a, keeps_settings (k a)) ->
  keeps_settings (bind m k).
Proof.
  intros Hm Hk s. unfold bind. specialize (Hm s).
  destruct (m s) as [[a|e|c] s1]; cbn [snd] in *; try exact Hm.
  destruct (Hk a s1) as (H1 & H2 & H5). destruct Hm as (H3 & H4 & H6).
  repeat split; congruence.
Qed.

Create HintDb keeps.

#[local] Hint Resolve keeps_ret keeps_raise keeps_sys_exit keeps_lift
  keeps_get keeps_log_probe keeps_cache_store keeps_AddHelpOptions
  keeps_PrintOnce keeps_WarnOnce : keeps.

(** One step through a computation written with [bind] and case
    distinctions. *)
Ltac keeps_step :=
  first
    [ solve [auto with keeps]
    | apply keeps_bind; [|intros ?]
    | match goal with
      | |- keeps_settings (match ?x with _ => _ end) => destruct x
      | |- keeps_settings (when ?b _) => destruct b; cbn [when]
      end ].
Ltac keeps_all := repeat keeps_step.

Lemma keeps_isdir w p : keeps_settings (os_path_isdir w p).
Proof. unfold os_path_isdir. keeps_all. Qed.
Lemma keeps_isfile w p : keeps_settings (os_path_isfile w p).
Proof. unfold os_path_isfile. keeps_all. Qed.
Lemma keeps_read_lines w p : keeps_settings (read_lines w p).
Proof. unfold read_lines. keeps_all. Qed.
Lemma keeps_run_shell w c : keeps_settings (run_shell w c).
Proof. unfold run_shell. keeps_all. Qed.
#[local] Hint Resolve keeps_isdir keeps_isfile keeps_read_lines
  keeps_run_shell : keeps.

Lemma keeps_GetArgument n : keeps_settings (Excons.GetArgument n).
Proof. unfold Excons.GetArgument. keeps_all. Qed.
#[local] Hint Resolve keeps_GetArgument : keeps.

Lemma keeps_OSX w p : keeps_settings (Python._GetPythonVersionOSX w p).
Proof. unfold Python._GetPythonVersionOSX. keeps_all. Qed.
Lemma keeps_WIN w p : keeps_settings (Python._GetPythonVersionWIN w p).
Proof. unfold Python._GetPythonVersionWIN. keeps_all. Qed.
Lemma keeps_UNIX w p : keeps_settings (Python._GetPythonVersionUNIX w p).
Proof. unfold Python._GetPythonVersionUNIX. keeps_all. Qed.
#[local] Hint Resolve keeps_OSX keeps_WIN keeps_UNIX : keeps.

Lemma keeps_find_incdir w l : keeps_settings (Python.find_incdir w l).
Proof.
  induction l as [|c l IH]; cbn [Python.find_incdir]; keeps_all.
Qed.
#[local] Hint Resolve keeps_find_incdir : keeps.

Lemma keeps_search_frameworks w ver l e :
  keeps_settings (Python.search_frameworks w ver l e).
Proof.
  revert e; induction l as [|p l IH]; intros e;
    cbn [Python.search_frameworks]; keeps_all.
Qed.
#[local] Hint Resolve keeps_search_frameworks : keeps.

Lemma keeps_from_version w ver : keeps_settings (Python.from_version w ver).
Proof. unfold Python.from_version. keeps_all. Qed.

Lemma keeps_from_path_darwin w spec :
  keeps_settings (Python.from_path_darwin w spec).
Proof. unfold Python.from_path_darwin. keeps_all. Qed.
#[local] Hint Resolve keeps_from_version keeps_from_path_darwin : keeps.

Lemma keeps_from_path w spec : keeps_settings (Python.from_path w spec).
Proof. unfold Python.from_path. keeps_all. Qed.

Lemma keeps_validate w spec : keeps_settings (Python.validate w spec).
Proof.
  destruct spec as [[[ver incdir] libdir] lib].
  unfold Python.validate, Python.either_missing, Python.isdir_opt. keeps_all.
Qed.
#[local] Hint Resolve keeps_from_path keeps_validate : keeps.

(** The resolver never touches the build arguments. *)
Lemma keeps_GetPythonSpec w spec :
  keeps_settings (Python._GetPythonSpec w spec).
Proof. unfold Python._GetPythonSpec. keeps_all. Qed.

Lemma keeps_GetMayaRoot w noWarn : keeps_settings (Maya.GetMayaRoot w noWarn).
Proof. unfold Maya.GetMayaRoot, Excons.WarnConfig. keeps_all. Qed.
Lemma keeps_GetMayaInc w d : keeps_settings (Maya.GetMayaInc w d).
Proof. unfold Maya.GetMayaInc. keeps_all. Qed.
Lemma keeps_report a n wv g : keeps_settings (Maya.report a n wv g).
Proof. unfold Maya.report. keeps_all. Qed.
#[local] Hint Resolve keeps_GetMayaRoot keeps_GetMayaInc keeps_report : keeps.
Lemma keeps_scan_lines a n wv l : keeps_settings (Maya.scan_lines a n wv l).
Proof. induction l as [|x l IH]; cbn [Maya.scan_lines]; keeps_all. Qed.
#[local] Hint Resolve keeps_scan_lines : keeps.
Lemma keeps_maya_Version w a n : keeps_settings (Maya.Version w a n).
Proof. unfold Maya.Version. keeps_all. Qed.

Lemma keeps_python_Version w : keeps_settings (Python.Version w).
Proof.
  unfold Python.Version. pose proof (keeps_GetPythonSpec w). keeps_all.
Qed.

Lemma keeps_run {A} (m : M A) s o s1 :
  keeps_settings m -> m s = (o, s1) ->
  ARGUMENTS s1 = ARGUMENTS s /\ args_cache s1 = args_cache s
  /\ _cython s1 = _cython s.
Proof. intros Hk E. specialize (Hk s). now rewrite E in Hk. Qed.

Lemma report_string nice wv g s v s' :
  Maya.report true nice wv g s = (Return v, s') -> exists x, v = VStr x.
Proof.
  unfold Maya.report. intros H.
  apply bind_return in H as (year & s1 & _ & H).
  apply bind_return in H as (sub & s2 & _ & H).
  apply bind_return in H as ([] & s3 & _ & H).
  destruct nice; [destruct (_ && _)|]; injection H as <- _; now eexists.
Qed.

Lemma scan_lines_string nice wv l s v s' :
  Maya.scan_lines true nice wv l s = (Return (Some v), s') ->
  exists x, v = VStr x.
Proof.
  revert s; induction l as [|x l IH]; intros s; cbn [Maya.scan_lines].
  - discriminate.
  - destruct (Maya.defexp x); [|apply IH]. intros H.
    apply bind_return in H as (r & s1 & Hr & H). injection H as <- _.
    exact (report_string _ _ _ _ _ _ Hr).
Qed.

(** Asked for a string, [Version] returns a string. *)
Lemma maya_version_string w nice s val :
  fst (Maya.Version w true nice s) = Return val -> exists x, val = VStr x.
Proof.
  intros H. apply run_pair in H. unfold Maya.Version in H.
  apply bind_return in H as (root & s1 & _ & H).
  destruct (negb (truthy root)); [injection H as <- _; now eexists|].
  apply bind_return in H as (inc & s2 & _ & H).
  apply bind_return in H as (spec & s3 & _ & H).
  apply bind_return in H as (wv & s4 & _ & H).
  apply bind_return in H as (found & s5 & _ & H).
  apply bind_return in H as (hit & s6 & Hh & H).
  destruct hit as [v|].
  - injection H as <- _. destruct found; [|discriminate Hh].
    apply bind_return in Hh as (lines & s7 & _ & Hh).
    exact (scan_lines_string _ _ _ _ _ _ Hh).
  - apply bind_return in H as ([] & s7 & _ & H). injection H as <- _.
    now eexists.
Qed.

(** X16: on Linux, when [devtoolset] is not on the command line and the
    Maya version can be read, [SetupGccver] always sets it: to the compiler
    the table lists for the version, and to the empty string for a version
    the table does not list or when no Maya is found. *)
Theorem maya_gccver_always_set (w : World) (s : State) (val : value) :
  is_linux (platform w) = true ->
  ARGUMENTS s !! "devtoolset" = None ->
  fst (Maya.Version w true true s) = Return val ->
  exists v s',
    val = VStr v
    /\ Maya.SetupGccver w s = (Return tt, s')
    /\ ARGUMENTS s' !! "devtoolset" = Some (maya_gcc v).
Proof.
  intros Hl Hn Hv.
  destruct (maya_version_string _ _ _ _ Hv) as [v ->].
  apply run_pair in Hv.
  exists v,
    (let s2 := snd (Maya.Version w true true s) in
     mkState (<["devtoolset" := maya_gcc v]> (ARGUMENTS s2)) (args_cache s2)
       (warned s2) (printed s2)
       (stdout s2 ++ [("Using gcc " ++ gcc_full_ver w (maya_gcc v))%string])
       (help_options s2) (probes s2) (_specCache s2) (_cython s2)).
  split; [reflexivity|]. split.
  - unfold Maya.SetupGccver. rewrite Hl. unfold Excons.InitGlobals.
    erewrite bind_run by reflexivity. erewrite bind_run by reflexivity.
    rewrite Hn, (bind_run _ _ _ _ _ Hv).
    unfold maya_gcc. now destruct (dict_get Maya._maya_gccver v).
  - cbn. apply lookup_insert_eq.
Qed.

Lemma maya_gccver_always_set_witness :
  exists v s',
    VStr "2018" = VStr v
    /\ Maya.SetupGccver linux_maya_world (fresh (maya_args "2018"))
       = (Return tt, s')
    /\ ARGUMENTS s' !! "devtoolset" = Some (maya_gcc v).
Proof.
  exact (maya_gccver_always_set linux_maya_world (fresh (maya_args "2018"))
           (VStr "2018") eq_refl eq_refl eq_refl).
Defined.

(** X24: once [Version] has resolved [with-python] to a descriptor, the
    interpreter is not looked for again: a further [Version] returns the
    same version and [Require] returns, both leaving the state exactly as it
    is, with no probe, subprocess or message (on macOS, for a path that does
    not end with a slash). *)
Theorem python_resolved_once (w : World) (e : Env) (ign : bool) (s : State)
    (po : string) (d : pyspec) :
  argument s "with-python" = Some po ->
  fst (Python._GetPythonSpec w po s) = Return (Some d) ->
  is_darwin (platform w) = false \/ Python.is_version po = true
  \/ ends_with_slash po = false ->
  let s1 := snd (Python.Version w s) in
  fst (Python.Version w s) = Return (fst (fst (fst d)))
  /\ Python.Version w s1 = (Return (fst (fst (fst d))), s1)
  /\ exists e', Python.Require w e ign s1 = (Return e', s1).
Proof.
  intros Ha Hr Hk.
  pose proof (second_call_cached w po s _ Hr Hk) as Hc.
  destruct (keeps_GetPythonSpec w po s) as (K1 & K2 & _).
  apply run_pair in Hr.
  set (s0 := snd (Python._GetPythonSpec w po s)) in *.
  destruct d as [[[ver incdir] libdir] lib].
  assert (Hv : Python.Version w s = (Return ver, s0)).
  { unfold Python.Version.
    rewrite (bind_run _ _ _ _ _ (GetArgument_reads _ _)), Ha.
    now rewrite (bind_run _ _ _ _ _ Hr). }
  rewrite Hv. cbn [fst snd].
  assert (Ha0 : argument s0 "with-python" = Some po)
    by (rewrite (argument_ext s s0 _ K1 K2); exact Ha).
  split; [reflexivity|]. split.
  - unfold Python.Version.
    rewrite (bind_run _ _ _ _ _ (GetArgument_reads _ _)), Ha0.
    now rewrite (bind_run _ _ _ _ _ Hc).
  - unfold Python.Require.
    rewrite (bind_run _ _ _ _ _ (GetArgument_reads _ _)), Ha0.
    rewrite (bind_run _ _ _ _ _ Hc).
    destruct ign; cbn [negb]; [now eexists|].
    destruct (is_darwin (platform w)); [destruct (truthy libdir)|];
      now eexists.
Qed.

Lemma python_resolved_once_witness :
  let s1 :=
    snd (Python.Version linux_python_world
           (fresh {[ "with-python" := "2.7" ]})) in
  fst (Python.Version linux_python_world (fresh {[ "with-python" := "2.7" ]}))
  = Return (fst (fst (fst (running_spec linux_python_world "2.7"))))
  /\ Python.Version linux_python_world s1
     = (Return (fst (fst (fst (running_spec linux_python_world "2.7")))), s1)
  /\ exists e', Python.Require linux_python_world empty_env false s1
                = (Return e', s1).
Proof.
  exact (python_resolved_once linux_python_world empty_env false
           (fresh {[ "with-python" := "2.7" ]}) "2.7"
           (running_spec linux_python_world "2.7") eq_refl eq_refl
           (or_introl eq_refl)).
Defined.

(** What the root lookup returns depends on the state only through the
    build arguments. *)
Lemma maya_root_ext w noWarn s s' :
  ARGUMENTS s' = ARGUMENTS s -> args_cache s' = args_cache s ->
  fst (Maya.GetMayaRoot w noWarn s') = fst (Maya.GetMayaRoot w noWarn s).
Proof.
  intros Ha Hc. unfold Maya.GetMayaRoot.
  rewrite !(bind_run _ _ _ _ _ (GetArgument_reads _ _)).
  rewrite (argument_ext s s' _ Ha Hc).
  erewrite !bind_run by reflexivity. rewrite Ha.
  unfold Excons.PrintOnce, Excons.WarnConfig, Excons.WarnOnce, when,
    os_path_isdir, log_probe, modify, bind, ret.
  destruct (environ w !! "MAYA_LOCATION") as [loc|];
    [destruct (ARGUMENTS s !! "with-maya"); [|reflexivity]|];
    (destruct (negb (truthy (argument s "with-maya"))); [now destruct noWarn|]);
    cbn zeta; cbn [fst snd];
    (destruct (negb (isdir w _)); [|reflexivity]);
    (destruct (negb (Maya.starts_with_digit _)); [now destruct noWarn|]);
    destruct (platform w); try reflexivity;
    destruct (String.eqb (arch_dir w) "x64"); reflexivity.
Qed.

(** So does the directory of the headers. *)
Lemma maya_inc_ext w mayadir s s' :
  ARGUMENTS s' = ARGUMENTS s -> args_cache s' = args_cache s ->
  fst (Maya.GetMayaInc w mayadir s') = fst (Maya.GetMayaInc w mayadir s).
Proof.
  intros Ha Hc.
  unfold Maya.GetMayaInc, os_path_isdir, log_probe, Excons.GetArgument,
    Excons.PrintOnce, get, modify, bind, ret.
  cbn [fst snd].
  destruct (isdir w _); cbn [negb orb fst snd ARGUMENTS args_cache];
    rewrite ?Ha, ?Hc;
    destruct (environ w !! "MAYA_INCLUDE"); try reflexivity.
  all: try (destruct (negb (bool_decide _)); [reflexivity|]).
  all: destruct (ARGUMENTS s !! "with-mayadevkit");
    [|destruct (args_cache s !! "with-mayadevkit")]; reflexivity.
Qed.


(** X15: whenever [Require] returns, what it did follows from the root
    [GetMayaRoot] finds in the starting state.  With no root (none, or an
    empty one) the environment is untouched.  With a root, the include
    directory [GetMayaInc] gives for that root is appended to the include
    path, the library directory [GetMayaLib] gives for that root is
    appended to the library path, the six Maya libraries are appended to
    the library list, and the preprocessor definitions gain
    [REQUIRE_IOSTREAM] and [_BOOL] first; the C++ and linker flags are
    never touched. *)
Theorem maya_require_effect (w : World) (env e : Env) (s : State)
    (root : option string) :
  fst (Maya.GetMayaRoot w false s) = Return root ->
  fst (Maya.Require w env s) = Return e ->
  if truthy root then
    exists inc,
      fst (Maya.GetMayaInc w (default "" root) s) = Return inc
      /\ CPPPATH e = (CPPPATH env ++ [inc])%list
      /\ LIBPATH e
         = (LIBPATH env ++ [Maya.GetMayaLib w (default "" root)])%list
      /\ LIBS e = (LIBS env ++ maya_libs)%list
      /\ (exists more,
             CPPDEFINES e
             = (CPPDEFINES env ++ "REQUIRE_IOSTREAM" :: "_BOOL" :: more)%list)
      /\ CXXFLAGS e = CXXFLAGS env
      /\ LINKFLAGS e = LINKFLAGS env
  else e = env.
Proof.
  intros Hroot H. apply run_pair in H. unfold Maya.Require in H.
  apply bind_return in H as ([] & s1 & H0 & H).
  apply bind_return in H as (root' & s2 & H1 & H).
  pose proof (keeps_run _ _ _ _ (keeps_AddHelpOptions _ _) H0) as (A1 & C1 & _).
  pose proof (keeps_run _ _ _ _ (keeps_GetMayaRoot _ _) H1) as (A2 & C2 & _).
  assert (root' = root) as ->.
  { pose proof (maya_root_ext w false s s1 A1 C1) as E.
    rewrite H1, Hroot in E. cbn [fst] in E. congruence. }
  destruct (truthy root); cbn [negb] in H.
  2:{ now injection H as <- _. }
  apply bind_return in H as (inc & s3 & H2 & H).
  assert (Hinc : fst (Maya.GetMayaInc w (default "" root) s) = Return inc).
  { rewrite <- (maya_inc_ext w (default "" root) s s2) by congruence.
    now rewrite H2. }
  exists inc. split; [exact Hinc|].
  apply bind_return in H as (e1 & s4 & Hb & H).
  injection H as <- _. cbn [LIBS CPPPATH LIBPATH CPPDEFINES CXXFLAGS LINKFLAGS
                            Append_LIBS].
  unfold Maya.GetMayaLib.
  destruct (platform w); cbn [is_darwin] in *.
  - injection Hb as <- _. cbn. repeat split; eauto.
    eexists. rewrite <- app_assoc. reflexivity.
  - apply bind_return in Hb as (inc2 & s5 & _ & Hb).
    apply bind_return in Hb as (found & s6 & _ & Hb).
    apply bind_return in Hb as (ver & s7 & _ & Hb).
    destruct (Maya.number ver) as [v|].
    + apply bind_return in Hb as ([] & s8 & _ & Hb).
      injection Hb as <- _.
      destruct (Qle_bool 2018 v), found; cbn; repeat split; eauto;
        eexists; rewrite <- app_assoc; reflexivity.
    + injection Hb as <- _.
      destruct found; cbn; repeat split; eauto;
        eexists; rewrite <- app_assoc; reflexivity.
  - apply bind_return in Hb as (ver & s5 & _ & Hb).
    injection Hb as <- _.
    destruct (Maya.number ver) as [v|];
      [destruct (Qeq_bool v 2018 || Qeq_bool v 2019 || Qeq_bool v 2020);
       [|destruct (Qle_bool 2022 v)]|];
      cbn; repeat split; eauto; eexists; rewrite <- app_assoc; reflexivity.
  - apply bind_return in Hb as (ver & s5 & _ & Hb).
    injection Hb as <- _.
    destruct (Maya.number ver) as [v|];
      [destruct (Qeq_bool v 2018 || Qeq_bool v 2019 || Qeq_bool v 2020);
       [|destruct (Qle_bool 2022 v)]|];
      cbn; repeat split; eauto; eexists; rewrite <- app_assoc; reflexivity.
Qed.

(** Maya 2018 on the Windows machine of [maya_world]: the root is found
    under [C:/Program Files/Autodesk], and the include and library
    directories appended are the ones of that root. *)
Lemma maya_require_effect_witness :
  exists inc,
    fst (Maya.GetMayaInc (maya_world "2018" "20180000")
           "C:/Program Files/Autodesk/Maya2018" (fresh (maya_args "2018")))
    = Return inc
    /\ CPPPATH maya_env_after = (CPPPATH empty_env ++ [inc])%list
    /\ LIBPATH maya_env_after
       = (LIBPATH empty_env ++ ["C:/Program Files/Autodesk/Maya2018/lib"])%list
    /\ LIBS maya_env_after = (LIBS empty_env ++ maya_libs)%list
    /\ (exists more,
           CPPDEFINES maya_env_after
           = (CPPDEFINES empty_env
              ++ "REQUIRE_IOSTREAM" :: "_BOOL" :: more)%list)
    /\ CXXFLAGS maya_env_after = CXXFLAGS empty_env
    /\ LINKFLAGS maya_env_after = LINKFLAGS empty_env.
Proof.
  exact (maya_require_effect (maya_world "2018" "20180000") empty_env
           maya_env_after (fresh (maya_args "2018"))
           (Some "C:/Program Files/Autodesk/Maya2018") eq_refl eq_refl).
Defined.

(** With no root the environment comes back as it went in. *)
Example maya_require_no_root :
  fst (Maya.GetMayaRoot bare_world false (fresh ∅)) = Return None
  /\ fst (Maya.Require bare_world empty_env (fresh ∅)) = Return empty_env.
Proof. vm_compute. now split. Qed.

(** ** Cython: the translator and the include scanner *)

(** How [RequireCython] ends, read off its steps. *)
Lemma require_cython_cases (w : World) (e e' : Python.SEnv) (s : State)
    (b : bool) :
  fst (Python.RequireCython w e s) = Return (b, e') ->
  let s' := snd (Python.RequireCython w e s) in
  if b then
    is_empty (_cython s') = false
    /\ (isfile w (_cython s') = true \/ is_Some (which w (_cython s')))
    /\ Python.vars e' = Python.vars e
    /\ Python.SCANNERS e' = (Python.SCANNERS e ++ [pyx_scanner])%list
  else
    _cython s' = _cython s /\ e' = e /\ which w "cython" = None.
Proof.
  intros H s'. apply run_pair in H. fold s' in H. clearbody s'.
  unfold Python.RequireCython in H.
  apply bind_return in H as (s0 & s1 & Hg & H).
  injection Hg as <- <-.
  rewrite (bind_run _ _ _ _ _ (GetArgument_reads _ _)) in H.
  set (c0 := default (_cython s) (argument s "with-cython")) in *.
  apply bind_return in H as (f & s2 & Hf & H).
  pose proof (keeps_run _ _ _ _ (keeps_isfile w c0) Hf) as (_ & _ & K2).
  assert (Hf' : f = isfile w c0).
  { unfold os_path_isfile, log_probe, bind, modify, ret in Hf.
    now injection Hf as <- _. }
  apply bind_return in H as (c1 & s3 & H1 & H).
  assert (K3 : _cython s3 = _cython s
               /\ (c1 = None \/ (c1 = Some c0 /\ isfile w c0 = true))).
  { destruct f; cbn [negb] in H1.
    - injection H1 as <- <-. split; [exact K2|]. right. now split.
    - apply bind_return in H1 as ([] & s9 & Hp & H1). injection H1 as <- <-.
      pose proof (keeps_run _ _ _ _ (keeps_PrintOnce _) Hp) as (_ & _ & K9).
      split; [congruence|now left]. }
  destruct K3 as [K3 Hc1].
  apply bind_return in H as (c2 & s4 & H2 & H).
  assert (K4 : _cython s4 = _cython s
               /\ match c2 with
                  | Some c =>
                      is_empty c = false
                      /\ (isfile w c = true \/ is_Some (which w c))
                  | None => which w "cython" = None
                  end).
  { destruct (negb (truthy c1)) eqn:Et.
    - apply bind_return in H2 as (ver & s5 & Hv & H2).
      pose proof (keeps_run _ _ _ _ (keeps_python_Version w) Hv)
        as (_ & _ & K5).
      destruct (which w ("cython" ++ ver)) as [path|] eqn:Ew.
      + apply bind_return in H2 as ([] & s6 & Hp & H2).
        injection H2 as <- <-.
        pose proof (keeps_run _ _ _ _ (keeps_PrintOnce _) Hp) as (_ & _ & K6).
        split; [congruence|]. split; [reflexivity|]. right. now rewrite Ew.
      + apply bind_return in H2 as ([] & s6 & Hp & H2).
        pose proof (keeps_run _ _ _ _ (keeps_PrintOnce _) Hp) as (_ & _ & K6).
        destruct (which w "cython") as [path|] eqn:Ew2.
        * apply bind_return in H2 as ([] & s7 & Hp2 & H2).
          injection H2 as <- <-.
          pose proof (keeps_run _ _ _ _ (keeps_PrintOnce _) Hp2)
            as (_ & _ & K7).
          split; [congruence|]. split; [reflexivity|]. right.
          now rewrite Ew2.
        * apply bind_return in H2 as ([] & s7 & Hp2 & H2).
          injection H2 as <- <-.
          pose proof (keeps_run _ _ _ _ (keeps_PrintOnce _) Hp2)
            as (_ & _ & K7).
          split; [congruence|reflexivity].
    - injection H2 as <- <-. split; [exact K3|].
      destruct Hc1 as [->|[-> Hi]]; [discriminate Et|].
      cbn in Et. apply negb_false_iff in Et. apply negb_true_iff in Et.
      split; [exact Et|now left]. }
  destruct K4 as [K4 Hc2].
  destruct c2 as [c|].
  - apply bind_return in H as ([] & s5 & Hs & H). injection H as <- <- <-.
    unfold Python.set_cython, modify in Hs. injection Hs as <-. cbn.
    destruct Hc2 as [Hn Hx]. now repeat split.
  - injection H as <- <- <-. now repeat split.
Qed.

(** X25: when [RequireCython] returns true, a translator has been chosen:
    its name is not empty, and it is a file or is found on the search path;
    the environment gains the scanner for [.pyx] sources and nothing else.
    When it returns false, the translator chosen before is kept, the
    environment is as it was, and no [cython] is on the search path. *)
Theorem require_cython_result (w : World) (e e' : Python.SEnv) (s : State)
    (b : bool) :
  fst (Python.RequireCython w e s) = Return (b, e') ->
  let s' := snd (Python.RequireCython w e s) in
  if b then
    is_empty (_cython s') = false
    /\ (isfile w (_cython s') = true \/ is_Some (which w (_cython s')))
    /\ Python.vars e' = Python.vars e
    /\ Python.SCANNERS e' = (Python.SCANNERS e ++ [pyx_scanner])%list
  else
    _cython s' = _cython s /\ e' = e /\ which w "cython" = None.
Proof. exact (require_cython_cases w e e' s b). Qed.

Lemma require_cython_result_witness :
  let s' := snd (Python.RequireCython cython_world no_scanners (fresh ∅)) in
  if true then
    is_empty (_cython s') = false
    /\ (isfile cython_world (_cython s') = true
        \/ is_Some (which cython_world (_cython s')))
    /\ Python.vars (Python.mkSEnv empty_env [pyx_scanner]) = Python.vars no_scanners
    /\ Python.SCANNERS (Python.mkSEnv empty_env [pyx_scanner])
       = (Python.SCANNERS no_scanners ++ [pyx_scanner])%list
  else
    _cython s' = _cython (fresh ∅)
    /\ Python.mkSEnv empty_env [pyx_scanner] = no_scanners
    /\ which cython_world "cython" = None.
Proof.
  exact (require_cython_result cython_world no_scanners
           (Python.mkSEnv empty_env [pyx_scanner]) (fresh ∅) true eq_refl).
Defined.



Lemma findall_skip x b r :
  Python.findall_includes b (String.length x) (x ++ r)
  = Python.findall_includes (ends_nl b x) 0 r.
Proof.
  revert b; induction x as [|c x IH]; intros b; [reflexivity|].
  rewrite app_cons. cbn [String.length Python.findall_includes ends_nl].
  apply IH.
Qed.

Lemma ends_nl_last b y c : ends_nl b (y ++ String c "") = Ascii.eqb c "010".
Proof.
  revert b; induction y as [|d y IH]; intros b; [reflexivity|].
  rewrite app_cons. cbn [ends_nl]. apply IH.
Qed.

Lemma last_index_end q n :
  all_chars (fun c => negb (Ascii.eqb c q)) n = true ->
  Python.last_index q (n ++ String q "") = Some (String.length n).
Proof.
  induction n as [|c n IH]; intros H.
  - rewrite app_empty. cbn [Python.last_index]. now rewrite Ascii.eqb_refl.
  - rewrite app_cons. cbn [Python.last_index String.length].
    simpl in H. apply andb_prop in H as [_ H]. now rewrite (IH H).
Qed.

Lemma str_take_app n x : str_take (String.length n) (n ++ x) = n.
Proof.
  induction n as [|c n IH]; [now destruct x|].
  rewrite app_cons. cbn [String.length str_take]. now rewrite IH.
Qed.

Lemma quote_not_space q : Python.is_quote q = true -> is_space q = false.
Proof.
  unfold Python.is_quote. intros H. apply orb_prop in H as [H|H];
    apply Ascii.eqb_eq in H; now subst q.
Qed.

Lemma plain_name_parts q name :
  plain_name q name = true ->
  is_empty name = false
  /\ all_chars (fun c => negb (is_space c)) name = true
  /\ all_chars (fun c => negb (Ascii.eqb c q)) name = true.
Proof.
  unfold plain_name. intros H. apply andb_prop in H as [Hn Ha].
  apply negb_true_iff in Hn. split; [exact Hn|].
  split; (eapply all_chars_impl; [|exact Ha]); intros c Hc;
    apply andb_prop in Hc; tauto.
Qed.

(** An include line is matched whole up to its closing quote, and its
    name is the group. *)
Lemma include_here_line q name rest :
  Python.is_quote q = true -> plain_name q name = true ->
  Python.include_here (include_line q name ++ rest)
  = Some (name, (10 + String.length name)%nat).
Proof.
  intros Hq Hp. destruct (plain_name_parts _ _ Hp) as (Hne & Hs & Hnq).
  pose proof (quote_not_space _ Hq) as Hqs.
  assert (E : include_line q name ++ rest
              = "include"
                ++ String " " (String q ((name ++ String q nl) ++ rest))).
  { unfold include_line. rewrite str_app_assoc, !app_cons, !app_empty.
    reflexivity. }
  rewrite E. unfold Python.include_here.
  rewrite strip_prefix_app. cbn [andthen span].
  change (is_space " ") with true. cbn iota.
  rewrite Hqs. cbn [is_empty]. rewrite Hq.
  assert (Hrun : span (fun c => negb (is_space c))
                   ((name ++ String q nl) ++ rest)
                 = (name ++ String q "", nl ++ rest)).
  { change (String q nl) with (String q "" ++ nl).
    rewrite <- (str_app_assoc name), (str_app_assoc (name ++ String q "")).
    apply span_run; [|reflexivity].
    rewrite all_chars_app, Hs. cbn. now rewrite Hqs. }
  rewrite Hrun. cbn [fst].
  destruct name as [|c name]; [discriminate|].
  rewrite app_cons. simpl in Hnq. apply andb_prop in Hnq as [_ Hnq].
  rewrite (last_index_end _ _ Hnq).
  cbn [str_take String.length]. rewrite str_take_app.
  do 2 f_equal. lia.
Qed.

Lemma findall_include_line q name rest :
  Python.is_quote q = true -> plain_name q name = true ->
  Python.findall_includes true 0 (include_line q name ++ rest)
  = name :: Python.findall_includes true 0 rest.
Proof.
  intros Hq Hp. pose proof (include_here_line q name rest Hq Hp) as Hh.
  assert (Hl : include_line q name ++ rest
               = String "i" (("nclude " ++ String q (name ++ String q ""))
                             ++ String "010" rest)).
  { unfold include_line, nl.
    repeat first [rewrite str_app_assoc | rewrite app_cons
                 | rewrite app_empty].
    reflexivity. }
  rewrite Hl in *. cbn [Python.findall_includes]. rewrite Hh.
  replace (10 + String.length name - 1)%nat
    with (String.length ("nclude " ++ String q (name ++ String q "")))
    by (rewrite !app_cons, app_empty; cbn [String.length];
        rewrite str_length_app; cbn [String.length]; lia).
  rewrite findall_skip. f_equal.
  replace ("nclude " ++ String q (name ++ String q ""))
    with (("nclude " ++ String q name) ++ String q "")
    by (repeat first [rewrite str_app_assoc | rewrite app_cons
                     | rewrite app_empty]; reflexivity).
  rewrite ends_nl_last.
  assert (Hn : Ascii.eqb q "010" = false).
  { unfold Python.is_quote in Hq. apply orb_prop in Hq as [H|H];
      apply Ascii.eqb_eq in H; now subst q. }
  rewrite Hn. reflexivity.
Qed.

(** X27: the scanner finds the included files of a [.pyx] source: on a
    text made of include lines, each naming a file between two single or
    two double quotes, it returns exactly the names, in order, provided the
    names are not empty and hold no white space and no quote of the kind
    around them. *)
Theorem scan_cython_includes_lines (l : list (ascii * string))
    (raw : option string) (env : Env) (path : list string) :
  forallb (fun '(q, name) => Python.is_quote q && plain_name q name) l = true ->
  Python.scan_cython_includes (Python.mkNode (Some (include_lines l)) raw) env path
  = map snd l.
Proof.
  intros H. unfold Python.scan_cython_includes. cbn [Python.get_text_contents].
  induction l as [|[q name] l IH]; [reflexivity|].
  cbn [forallb] in H. apply andb_prop in H as [Hq Hl].
  apply andb_prop in Hq as [Hq Hp].
  cbn [include_lines map snd].
  rewrite (findall_include_line _ _ _ Hq Hp). f_equal. exact (IH Hl).
Qed.

Lemma scan_cython_includes_lines_witness :
  Python.scan_cython_includes
    (Python.mkNode
       (Some (include_lines [("'"%char, "defs.pxi"); ("034"%char, "a/b.pxi")]))
       None) empty_env []
  = map snd [("'"%char, "defs.pxi"); ("034"%char, "a/b.pxi")].
Proof.
  exact (scan_cython_includes_lines
           [("'"%char, "defs.pxi"); ("034"%char, "a/b.pxi")] None empty_env []
           eq_refl).
Defined.

Lemma str_take_all p n g :
  all_chars p g = true -> all_chars p (str_take n g) = true.
Proof.
  revert g; induction n as [|n IH]; intros [|c g] H; try reflexivity.
  simpl in *. apply andb_prop in H as [Hc Hg]. now rewrite Hc, (IH _ Hg).
Qed.

Lemma include_here_name s g n :
  Python.include_here s = Some (g, n) ->
  is_empty g = false /\ all_chars (fun c => negb (is_space c)) g = true.
Proof.
  unfold Python.include_here.
  destruct (strip_prefix "include" s) as [r1|]; [|discriminate].
  cbn [andthen]. destruct (span is_space r1) as [ws r2].
  destruct (is_empty ws); [discriminate|].
  destruct r2 as [|q r3]; [discriminate|].
  destruct (Python.is_quote q); [|discriminate].
  pose proof (span_all (fun c => negb (is_space c)) r3) as Ha.
  destruct (fst (span _ r3)) as [|c run]; [discriminate|].
  destruct (Python.last_index q run) as [i|]; [|discriminate].
  intros [= <- _]. split; [reflexivity|].
  exact (str_take_all _ (S i) (String c run) Ha).
Qed.

(** X28: whatever the text of the node, a name the scanner returns is
    never empty and never holds white space. *)
Theorem scan_cython_includes_names (node : Python.Node) (env : Env)
    (path : list string) (g : string) :
  In g (Python.scan_cython_includes node env path) ->
  is_empty g = false /\ all_chars (fun c => negb (is_space c)) g = true.
Proof.
  assert (H : forall text b k,
             In g (Python.findall_includes b k text) ->
             is_empty g = false
             /\ all_chars (fun c => negb (is_space c)) g = true).
  { induction text as [|c r IH]; intros b k; [intros []|].
    cbn [Python.findall_includes]. destruct k as [|k]; [|apply IH].
    destruct (if b then Python.include_here (String c r) else None)
      as [[x n]|] eqn:E; [|apply IH].
    intros [<-|Hin]; [|exact (IH _ _ Hin)].
    destruct b; [|discriminate]. exact (include_here_name _ _ _ E). }
  unfold Python.scan_cython_includes.
  destruct (Python.get_text_contents node); [apply H|].
  destruct (Python.get_contents_str node); [apply H|intros []].
Qed.

Lemma scan_cython_includes_names_witness :
  is_empty "defs.pxi" = false
  /\ all_chars (fun c => negb (is_space c)) "defs.pxi" = true.
Proof.
  exact (scan_cython_includes_names
           (Python.mkNode (Some (include_lines [("'"%char, "defs.pxi")])) None)
           empty_env [] "defs.pxi" (or_introl eq_refl)).
Defined.
